(** * XPath extractor: strategy-based locator synthesis

    A shallow embedding of the synthesis engine of the XPath extractor
    browser extension: the helpers of [Utils], the strategy base class, the
    text strategy's duplicate handling, the strategy manager (ranker) and
    the XPath generator (coordinator) with its result cache.

    Conventions.
    - A JavaScript string is a [string]: a sequence of 8-bit code units
      (the Latin-1 range of UTF-16).
    - The live DOM is a tree of nodes; an element reference is a zipper
      into that tree, so [parentElement] is total and identity is the
      position of the node in the tree.
    - [document.evaluate] is the host's XPath engine.  It is a parameter of
      every definition that consults it.
    - Code that may raise is written in the exception monad [comp];
      [try]/[catch] is [tryCatch]. *)

From Stdlib Require Import ZArith List Bool Ascii String Lia Permutation Sorted.
From stdpp Require Import gmap strings pretty.

Open Scope string_scope.
Open Scope list_scope.
Open Scope Z_scope.
Open Scope stdpp_scope.
Set Warnings "-register-all".

(** ** JavaScript strings *)

Module Js.

(** The double quote, as a string of one character. *)
Definition dquote : string := String (ascii_of_nat 34) EmptyString.

Definition isUpper (c : ascii) : bool :=
  (65 <=? nat_of_ascii c)%nat && (nat_of_ascii c <=? 90)%nat.
Definition isLower (c : ascii) : bool :=
  (97 <=? nat_of_ascii c)%nat && (nat_of_ascii c <=? 122)%nat.

Definition lowerChar (c : ascii) : ascii :=
  if isUpper c then ascii_of_nat (nat_of_ascii c + 32) else c.
Definition upperChar (c : ascii) : ascii :=
  if isLower c then ascii_of_nat (nat_of_ascii c - 32) else c.

(** [String.prototype.toLowerCase], on the ASCII letters. *)
Fixpoint toLowerCase (s : string) : string :=
  match s with
  | EmptyString => EmptyString
  | String c s' => String (lowerChar c) (toLowerCase s')
  end.

(** The class [\s] (also what [trim] strips): tab, line feed, vertical
    tab, form feed, carriage return, space and no-break space. *)
Definition isSpace (c : ascii) : bool :=
  let n := nat_of_ascii c in
  ((9 <=? n)%nat && (n <=? 13)%nat) || (n =? 32)%nat || (n =? 160)%nat.

Fixpoint trimStart (s : string) : string :=
  match s with
  | EmptyString => EmptyString
  | String c s' => if isSpace c then trimStart s' else s
  end.

(** [trimEnd] keeps a character when it is not a space or when something
    is left after it. *)
Fixpoint trimEnd (s : string) : string :=
  match s with
  | EmptyString => EmptyString
  | String c s' =>
      match trimEnd s' with
      | EmptyString => if isSpace c then EmptyString else String c EmptyString
      | t => String c t
      end
  end.

Definition trim (s : string) : string := trimEnd (trimStart s).

(** [s.includes(c)] for a one-character needle. *)
Fixpoint includes (c : ascii) (s : string) : bool :=
  match s with
  | EmptyString => false
  | String d s' => Ascii.eqb c d || includes c s'
  end.

(** [s.split(c)] for a one-character separator: the pieces between the
    occurrences of [c]; never the empty array. *)
Fixpoint splitChar (c : ascii) (s : string) : list string :=
  match s with
  | EmptyString => [EmptyString]
  | String d s' =>
      if Ascii.eqb c d then EmptyString :: splitChar c s'
      else match splitChar c s' with
           | [] => [String d EmptyString]
           | p :: ps => String d p :: ps
           end
  end.

(** [s.split(/\s+/)]: the pieces between the maximal runs of white space;
    a leading or trailing run leaves an empty piece at that end.
    [inRun] tells that the previous character was a space. *)
Fixpoint splitSpacesFrom (inRun : bool) (s : string) : list string :=
  match s with
  | EmptyString => [EmptyString]
  | String d s' =>
      if isSpace d then
        if inRun then splitSpacesFrom true s'
        else EmptyString :: splitSpacesFrom true s'
      else match splitSpacesFrom false s' with
           | [] => [String d EmptyString]
           | p :: ps => String d p :: ps
           end
  end.

Definition splitSpaces (s : string) : list string := splitSpacesFrom false s.

(** [s.replace(/\s+/g, ' ')]. *)
Fixpoint collapseSpacesFrom (inRun : bool) (s : string) : string :=
  match s with
  | EmptyString => EmptyString
  | String d s' =>
      if isSpace d then
        if inRun then collapseSpacesFrom true s'
        else String " "%char (collapseSpacesFrom true s')
      else String d (collapseSpacesFrom false s')
  end.

Definition collapseSpaces (s : string) : string := collapseSpacesFrom false s.

(** [arr.join(sep)]. *)
Definition join (sep : string) (parts : list string) : string :=
  String.concat sep parts.

(** A value used as a condition: the empty string is falsy. *)
Definition truthy (s : string) : bool := negb (String.eqb s "").

(** [s.startsWith(p)]. *)
Definition startsWith (p s : string) : bool := String.prefix p s.

(** [s.includes(needle)] for a string needle. *)
Fixpoint includesSubstring (needle s : string) : bool :=
  String.prefix needle s
  || match s with
     | EmptyString => false
     | String _ rest => includesSubstring needle rest
     end.

End Js.

(** ** Regular expressions

    The patterns of the source are regular: literals, character classes,
    [+], [*], [{n,}], [{m,n}], the anchors [^] and [$] at the two ends, and
    the flag [i].  They are matched with derivatives. *)

Module Regex.

Inductive regex : Type :=
| Void
| Eps
| Class (p : ascii -> bool)
| Cat (r1 r2 : regex)
| Or (r1 r2 : regex)
| Star (r : regex).

Fixpoint nullable (r : regex) : bool :=
  match r with
  | Void => false
  | Eps => true
  | Class _ => false
  | Cat a b => nullable a && nullable b
  | Or a b => nullable a || nullable b
  | Star _ => true
  end.

Definition cat (a b : regex) : regex :=
  match a, b with
  | Void, _ => Void
  | _, Void => Void
  | Eps, _ => b
  | _, _ => Cat a b
  end.

Definition or (a b : regex) : regex :=
  match a, b with
  | Void, _ => b
  | _, Void => a
  | _, _ => Or a b
  end.

(** With the flag [i] a class accepts a character when it holds either
    case of it. *)
Definition classTest (ignoreCase : bool) (p : ascii -> bool) (c : ascii) : bool :=
  if ignoreCase then p (Js.lowerChar c) || p (Js.upperChar c) else p c.

Fixpoint deriv (ignoreCase : bool) (c : ascii) (r : regex) : regex :=
  match r with
  | Void => Void
  | Eps => Void
  | Class p => if classTest ignoreCase p c then Eps else Void
  | Cat a b =>
      if nullable a
      then or (cat (deriv ignoreCase c a) b) (deriv ignoreCase c b)
      else cat (deriv ignoreCase c a) b
  | Or a b => or (deriv ignoreCase c a) (deriv ignoreCase c b)
  | Star a => cat (deriv ignoreCase c a) (Star a)
  end.

Fixpoint matches (ignoreCase : bool) (r : regex) (s : string) : bool :=
  match s with
  | EmptyString => nullable r
  | String c s' => matches ignoreCase (deriv ignoreCase c r) s'
  end.

(** Pattern syntax. *)
Definition chr (c : ascii) : regex := Class (Ascii.eqb c).
Fixpoint lit (s : string) : regex :=
  match s with
  | EmptyString => Eps
  | String c s' => Cat (chr c) (lit s')
  end.
Definition inRange (lo hi : ascii) (c : ascii) : bool :=
  (nat_of_ascii lo <=? nat_of_ascii c)%nat && (nat_of_ascii c <=? nat_of_ascii hi)%nat.
Definition az : ascii -> bool := inRange "a" "z".
Definition AZ : ascii -> bool := inRange "A" "Z".
Definition af : ascii -> bool := inRange "a" "f".
Definition d09 : ascii -> bool := inRange "0" "9".
Definition oneOf (s : string) (c : ascii) : bool := Js.includes c s.
Definition either (p q : ascii -> bool) (c : ascii) : bool := p c || q c.
Definition anyChar : regex := Class (fun _ => true).
Definition plus (r : regex) : regex := Cat r (Star r).
Fixpoint times (n : nat) (r : regex) : regex :=
  match n with
  | O => Eps
  | S n' => Cat r (times n' r)
  end.
(** [r{n,}] *)
Definition atLeast (n : nat) (r : regex) : regex := Cat (times n r) (Star r).
(** [r{0,k}] *)
Fixpoint upTo (k : nat) (r : regex) : regex :=
  match k with
  | O => Eps
  | S k' => Or Eps (Cat r (upTo k' r))
  end.
(** [r{m,n}] *)
Definition between (m n : nat) (r : regex) : regex := Cat (times m r) (upTo (n - m) r).

(** A pattern as written between the slashes: [^] and [$] present or
    not, and the flag [i]. *)
Record pattern : Type := Pattern {
  anchoredStart : bool;
  body : regex;
  anchoredEnd : bool;
  ignoreCase : bool
}.

(** [pattern.test(s)] *)
Definition test (p : pattern) (s : string) : bool :=
  let pre := if anchoredStart p then Eps else Star anyChar in
  let post := if anchoredEnd p then Eps else Star anyChar in
  matches (ignoreCase p) (Cat pre (Cat (body p) post)) s.

(** [/^r$/i], [/^r$/], [/r$/i], [/^r/i] *)
Definition full_i (r : regex) : pattern := Pattern true r true true.
Definition full (r : regex) : pattern := Pattern true r true false.
Definition suffix_i (r : regex) : pattern := Pattern false r true true.
Definition prefix_i (r : regex) : pattern := Pattern true r false true.

End Regex.

(** ** Code that may raise *)

Inductive comp (A : Type) : Type :=
| Ret (a : A)
| Throw (message : string).
Arguments Ret {A} a.
Arguments Throw {A} message.

Definition bind {A B : Type} (m : comp A) (k : A -> comp B) : comp B :=
  match m with
  | Ret a => k a
  | Throw e => Throw e
  end.

Notation "x <- m ;; k" := (bind m (fun x => k))
  (at level 100, m at next level, right associativity).

(** [try { m } catch (error) { handler(error.message) }] *)
Definition tryCatch {A : Type} (m : comp A) (handler : string -> A) : A :=
  match m with
  | Ret a => a
  | Throw e => handler e
  end.

(** ** The document tree *)

Module Dom.

Record ComputedStyle : Type := {
  display : string;
  visibility : string;
  opacity : string
}.

(** What the host reports about one element: its tag name (upper case
    for an HTML element), its attributes in order, its computed style,
    its layout box, whether it is an SVG element, and the properties
    [element.type], [element.name] and [element.href] (the empty string
    where the host reports [undefined] or an empty value). *)
Record ElementData : Type := {
  tagName : string;
  attributes : list (string * string);
  computedStyle : ComputedStyle;
  offsetWidth : Z;
  offsetHeight : Z;
  isSVGElement : bool;
  typeProp : string;
  nameProp : string;
  hrefProp : string
}.

Inductive Node : Type :=
| TextNode (textContent : string)
| CommentNode (data : string)
| ElementNode (e : ElementData) (childNodes : list Node).

(** One level above an element: the parent's own data and the parent's
    other child nodes, those before and those after, in document order. *)
Record Frame : Type := {
  parentData : ElementData;
  before : list Node;
  after : list Node
}.

(** An element reference: the element, its child nodes, and the frames
    from its parent up to the root element. *)
Record Element : Type := {
  self : ElementData;
  childNodes : list Node;
  above : list Frame
}.

(** [parent.children]: the element children of a node list. *)
Fixpoint elementsOf (nodes : list Node) : list ElementData :=
  match nodes with
  | [] => []
  | ElementNode e _ :: rest => e :: elementsOf rest
  | _ :: rest => elementsOf rest
  end.

Definition toNode (el : Element) : Node := ElementNode (self el) (childNodes el).

(** [element.parentElement]; [None] is [null], at the root element. *)
Definition parentElement (el : Element) : option Element :=
  match above el with
  | [] => None
  | f :: fs =>
      Some {| self := parentData f;
              childNodes := before f ++ toNode el :: after f;
              above := fs |}
  end.

(** The rank of the element among the element children of its parent,
    from 0. *)
Definition positionIn (f : Frame) : nat := List.length (elementsOf (before f)).

(** The identity of a node: its rank at every level, nearest level
    first.  Two references into one document denote the same node
    exactly when these agree. *)
Definition NodeId : Type := list nat.
Definition nodeId (el : Element) : NodeId := List.map positionIn (above el).

Fixpoint sameNode (a b : NodeId) : bool :=
  match a, b with
  | [], [] => true
  | x :: a', y :: b' => (x =? y)%nat && sameNode a' b'
  | _, _ => false
  end.

(** [Array.from(parent.children)] with the rank of every child. *)
Definition siblingsOf (el : Element) (f : Frame) : list (nat * ElementData) :=
  let all := elementsOf (before f) ++ self el :: elementsOf (after f) in
  List.combine (List.seq 0 (List.length all)) all.

(** [arr.indexOf(x)], [-1] when absent. *)
Fixpoint indexOf (x : nat) (l : list nat) : Z :=
  match l with
  | [] => -1
  | y :: l' =>
      if (x =? y)%nat then 0
      else let i := indexOf x l' in if i <? 0 then -1 else i + 1
  end.

Fixpoint getAttribute (name : string) (attrs : list (string * string)) : option string :=
  match attrs with
  | [] => None
  | (n, v) :: rest => if String.eqb n name then Some v else getAttribute name rest
  end.

(** [element.id] reflects the [id] attribute. *)
Definition id (e : ElementData) : string :=
  match getAttribute "id" (attributes e) with Some v => v | None => "" end.

(** [element.className] is a string on an HTML element and an
    [SVGAnimatedString] object on an SVG element. *)
Inductive ClassNameValue : Type :=
| ClassString (value : string)
| ClassAnimated (baseVal : string).

Definition className (e : ElementData) : ClassNameValue :=
  let v := match getAttribute "class" (attributes e) with Some v => v | None => "" end in
  if isSVGElement e then ClassAnimated v else ClassString v.

(** An object is truthy; a string is truthy unless empty. *)
Definition classNameTruthy (c : ClassNameValue) : bool :=
  match c with
  | ClassString s => Js.truthy s
  | ClassAnimated _ => true
  end.

(** The ancestors of an element, nearest first; [node] is the child the
    walk comes from. *)
Fixpoint ancestorsFrom (node : Node) (frames : list Frame) : list Element :=
  match frames with
  | [] => []
  | f :: fs =>
      let p := {| self := parentData f;
                  childNodes := before f ++ node :: after f;
                  above := fs |} in
      p :: ancestorsFrom (toNode p) fs
  end.

(** The element followed by its ancestors: the values [current] takes in
    a loop [current = current.parentElement] until [null]. *)
Definition chain (el : Element) : list Element :=
  el :: ancestorsFrom (toNode el) (above el).

(** [element.closest(tag)] for a type selector: the nearest element of
    the chain with that local name. *)
Definition closest (tag : string) (el : Element) : option Element :=
  List.find (fun a => String.eqb (Js.toLowerCase (tagName (self a))) tag) (chain el).

(** ASCII white space, which separates the tokens of a [DOMTokenList]:
    tab, line feed, form feed, carriage return and space. *)
Definition isTokenSeparator (c : ascii) : bool :=
  let n := nat_of_ascii c in
  (n =? 9)%nat || (n =? 10)%nat || (n =? 12)%nat || (n =? 13)%nat || (n =? 32)%nat.

(** The pieces of a string between its ASCII white space characters. *)
Fixpoint tokenPieces (s : string) : list string :=
  match s with
  | EmptyString => [EmptyString]
  | String d s' =>
      if isTokenSeparator d then EmptyString :: tokenPieces s'
      else match tokenPieces s' with
           | [] => [String d EmptyString]
           | p :: ps => String d p :: ps
           end
  end.

(** [element.classList]: the tokens of the class attribute, split on
    ASCII white space; no token is empty. *)
Definition classList (e : ElementData) : list string :=
  match getAttribute "class" (attributes e) with
  | Some v => List.filter Js.truthy (tokenPieces v)
  | None => []
  end.

(** [element.classList.contains(token)] *)
Definition classListContains (token : string) (e : ElementData) : bool :=
  List.existsb (String.eqb token) (classList e).

(** References to the element children among [nodes], the child nodes
    of [parent] that follow [before]. *)
Fixpoint childrenFrom (parent : ElementData) (frames : list Frame) (before nodes : list Node)
  : list Element :=
  match nodes with
  | [] => []
  | node :: rest =>
      match node with
      | ElementNode e kids =>
          {| self := e;
             childNodes := kids;
             above := {| parentData := parent; before := before; after := rest |} :: frames |}
          :: childrenFrom parent frames (before ++ [node]) rest
      | _ => childrenFrom parent frames (before ++ [node]) rest
      end
  end.

(** [Array.from(element.children)] *)
Definition children (el : Element) : list Element :=
  childrenFrom (self el) (above el) [] (childNodes el).

(** [arr.indexOf(element)] for an array of elements, [-1] when absent. *)
Fixpoint indexOfElement (x : Element) (l : list Element) : Z :=
  match l with
  | [] => -1
  | y :: l' =>
      if sameNode (nodeId y) (nodeId x) then 0
      else let i := indexOfElement x l' in if i <? 0 then -1 else i + 1
  end.

(** The elements below a node, the node first, in document order. *)
Fixpoint subtree (node : Node) : list (ElementData * list Node) :=
  match node with
  | ElementNode e kids => (e, kids) :: List.flat_map subtree kids
  | _ => []
  end.

(** [element.querySelector(tag)] for a type selector: the first
    descendant of that local name, in document order. *)
Definition querySelector (tag : string) (el : Element) : option (ElementData * list Node) :=
  List.find (fun d => String.eqb (Js.toLowerCase (tagName (fst d))) tag)
            (List.flat_map subtree (childNodes el)).

(** [element.querySelectorAll(tag)] for a type selector: the descendants
    of that local name, in document order. *)
Definition querySelectorAll (tag : string) (el : Element)
  : list (ElementData * list Node) :=
  List.filter (fun d => String.eqb (Js.toLowerCase (tagName (fst d))) tag)
              (List.flat_map subtree (childNodes el)).

(** The text below a node: the data of its text nodes, in document
    order; a comment gives none. *)
Fixpoint textOf (node : Node) : string :=
  match node with
  | TextNode textContent => textContent
  | CommentNode _ => EmptyString
  | ElementNode _ kids => List.fold_right (fun kid rest => textOf kid +:+ rest) EmptyString kids
  end.

(** [element.textContent] *)
Definition textContent (childNodes : list Node) : string :=
  List.fold_right (fun kid rest => textOf kid +:+ rest) EmptyString childNodes.

(** [element.getAttribute(name)]: on an HTML element the name is put in
    lower case before the lookup, on an SVG element it is taken as it is. *)
Definition getAttributeOf (e : ElementData) (name : string) : option string :=
  getAttribute (if isSVGElement e then name else Js.toLowerCase name) (attributes e).

End Dom.

(** ** Utils (utils.js) *)

Module Utils.

Import Regex.

(** [Utils.escapeXPath(text)] *)
Definition escapeXPath (text : string) : string :=
  if negb (Js.truthy text) then "''"
  else if Js.includes "'" text && negb (Js.includes (ascii_of_nat 34) text)
  then Js.dquote +:+ text +:+ Js.dquote
  else if Js.includes (ascii_of_nat 34) text && negb (Js.includes "'" text)
  then "'" +:+ text +:+ "'"
  else if Js.includes "'" text && Js.includes (ascii_of_nat 34) text
  then
    let parts := List.map (fun part => "'" +:+ part +:+ "'") (Js.splitChar "'" text) in
    "concat(" +:+ Js.join (", " +:+ Js.dquote +:+ "'" +:+ Js.dquote +:+ " , ") parts +:+ ")"
  else "'" +:+ text +:+ "'".

(** The guard of [getVisibleText]: the three properties of the computed
    style it reads. *)
Definition styleHidden (st : Dom.ComputedStyle) : bool :=
  String.eqb (Dom.display st) "none"
  || String.eqb (Dom.visibility st) "hidden"
  || String.eqb (Dom.opacity st) "0".

(** The loop over [element.childNodes]: the trimmed content of every
    text node, in order. *)
Fixpoint textNodes (nodes : list Dom.Node) : list string :=
  match nodes with
  | [] => []
  | Dom.TextNode t :: rest => Js.trim t :: textNodes rest
  | _ :: rest => textNodes rest
  end.

(** [Utils.getVisibleText(element)]; [None] is a falsy argument. *)
Definition getVisibleText (element : option Dom.Element) : string :=
  match element with
  | None => ""
  | Some el =>
      if styleHidden (Dom.computedStyle (Dom.self el)) then ""
      else Js.trim (Js.join " " (textNodes (Dom.childNodes el)))
  end.

(** [Utils.getElementIndex(element)]: the rank, from 1, among the
    siblings of the same tag name. *)
Definition getElementIndex (el : Dom.Element) : Z :=
  match Dom.above el with
  | [] => 1
  | f :: _ =>
      let siblings :=
        List.filter
          (fun sibling => String.eqb (Dom.tagName (snd sibling)) (Dom.tagName (Dom.self el)))
          (Dom.siblingsOf el f) in
      Dom.indexOf (Dom.positionIn f) (List.map fst siblings) + 1
  end.

Definition hex : regex := Class (either af d09).
Definition alnum : regex := Class (either az d09).
Definition alnumDash : regex := Class (either (either az d09) (oneOf "-")).
Definition alpha : regex := Class az.
Definition digit : regex := Class d09.

Fixpoint seqs (rs : list regex) : regex :=
  match rs with
  | [] => Eps
  | r :: rest => Cat r (seqs rest)
  end.

(** [dynamicPatterns] of [filterFrameworkGeneratedNames], in order. *)
Definition dynamicPatterns : list pattern := [
  full_i (atLeast 6 hex);
  full_i (seqs [times 8 hex; lit "-"; times 4 hex; lit "-"; times 4 hex; lit "-";
                times 4 hex; lit "-"; times 12 hex]);
  full (plus digit);
  full_i (seqs [plus alnum; lit "-"; atLeast 5 hex]);
  full_i (seqs [plus alpha; lit "_"; atLeast 5 hex]);
  full_i (seqs [lit "_"; atLeast 5 hex]);
  full_i (seqs [between 4 8 hex; lit "-"; between 4 8 hex]);
  full_i (seqs [between 1 3 alpha; atLeast 6 hex]);
  full_i (seqs [lit "css-"; plus alnum]);
  full_i (seqs [lit "sc-"; plus alnum]);
  full_i (seqs [lit "jsx-"; plus alnum]);
  suffix_i (seqs [lit "emotion-"; plus alnum]);
  full_i (seqs [lit "__"; plus alnumDash]);
  full_i (seqs [lit "react-"; plus alnumDash]);
  full_i (seqs [plus alpha; lit "-"; atLeast 6 alnum; lit "-"; atLeast 6 alnum]);
  full_i (seqs [lit "data-v-"; times 8 hex]);
  full_i (seqs [lit "vue-"; plus alnumDash]);
  full_i (seqs [lit "ng-"; plus alnumDash]);
  full_i (seqs [lit "_ngcontent-"; plus alnumDash]);
  full_i (seqs [lit "_nghost-"; plus alnumDash]);
  full (seqs [lit "MuiBox-root-"; plus digit]);
  full (seqs [lit "makeStyles-"; plus alpha; lit "-"; plus digit]);
  full_i (seqs [lit "jss"; plus digit]);
  full_i (seqs [lit "ant-"; plus alpha; lit "-"; atLeast 6 hex]);
  full_i (seqs [plus alpha; lit "-["; plus (Class (either (either af d09) (oneOf "#%"))); lit "]"]);
  full_i (seqs [Class AZ; Star alpha; lit "__"; plus alnumDash]);
  full_i (seqs [plus alpha; Class AZ; Star alpha; lit "_"; atLeast 5 hex]);
  full_i (seqs [plus alpha; lit "-"; plus alpha; lit "-"; atLeast 5 hex]);
  full_i (seqs [alpha; times 7 hex]);
  full_i (seqs [times 2 alpha; times 6 hex]);
  full_i (times 8 hex);
  full_i (between 8 12 alnum)
].

(** [idPatterns] of [filterFrameworkGeneratedNames], in order. *)
Definition idPatterns : list pattern := [
  prefix_i (lit "react-");
  prefix_i (lit "vue-");
  prefix_i (lit "ng-");
  full_i (seqs [lit "root-"; plus digit]);
  full_i (seqs [lit "app-"; plus alnumDash]);
  full_i (seqs [lit "component-"; plus alnumDash])
].

Inductive NameType : Type := ClassType | IdType.

(** The predicate of the [filter] in [filterFrameworkGeneratedNames]. *)
Definition keepName (type : NameType) (name : string) : bool :=
  if negb (Js.truthy name) || (String.length name <? 2)%nat then false
  else
    let isDynamic := List.existsb (fun p => test p name) dynamicPatterns in
    match type with
    | IdType =>
        let isFrameworkId := List.existsb (fun p => test p name) idPatterns in
        negb isDynamic && negb isFrameworkId
    | ClassType => negb isDynamic
    end.

(** [Utils.filterFrameworkGeneratedNames(names, type)] *)
Definition filterFrameworkGeneratedNames (names : list string) (type : NameType) : list string :=
  List.filter (keepName type) names.

(** [Utils.getValidId(id)]; [None] is [null]. *)
Definition getValidId (id : string) : option string :=
  if negb (Js.truthy id) then None
  else
    let filtered := filterFrameworkGeneratedNames [id] IdType in
    if (0 <? List.length filtered)%nat then Some id else None.

(** [Utils.isValidId(id)] *)
Definition isValidId (id : string) : bool :=
  match getValidId id with
  | Some _ => true
  | None => false
  end.

(** [randomValuePatterns] of [isRandomGeneratedValue], in order. *)
Definition randomValuePatterns : list pattern := [
  full_i (times 8 hex);
  full_i (atLeast 6 hex);
  full_i (seqs [times 8 hex; lit "-"; times 4 hex; lit "-"; times 4 hex; lit "-";
                times 4 hex; lit "-"; times 12 hex]);
  full_i (seqs [alpha; times 7 hex]);
  full_i (seqs [times 2 alpha; times 6 hex]);
  full_i (between 8 12 alnum);
  full_i (seqs [plus alpha; lit "-"; atLeast 5 hex]);
  full_i (seqs [lit "_"; atLeast 5 hex]);
  full_i (seqs [lit "react-"; plus alnumDash]);
  full_i (seqs [lit "vue-"; plus alnumDash]);
  full_i (seqs [lit "ng-"; plus alnumDash]);
  full_i (seqs [lit "component-"; plus alnumDash]);
  full_i (seqs [lit "auto-"; plus alnumDash]);
  full_i (seqs [lit "gen-"; plus alnumDash])
].

(** [Utils.isRandomGeneratedValue(value)] *)
Definition isRandomGeneratedValue (value : string) : bool :=
  if negb (Js.truthy value) then false
  else
    let value := Js.trim value in
    List.existsb (fun p => test p value) randomValuePatterns.

Definition semanticAttrsWithRandomValues : list string :=
  ["aria-labelledby"; "aria-describedby"; "aria-controls"; "aria-owns";
   "for"; "form"; "list"; "headers"].

Definition dynamicAttrPatterns : list pattern := [
  full_i (seqs [lit "data-"; plus alpha; lit "-"; atLeast 6 hex]);
  full_i (seqs [plus alpha; lit "-"; times 8 hex]);
  full_i (seqs [lit "data-styled-"; plus alnum]);
  full_i (seqs [lit "data-emotion-"; plus alnum]);
  full_i (seqs [lit "data-css-"; plus alnum])
].

Definition includesString (x : string) (l : list string) : bool :=
  List.existsb (String.eqb x) l.

(** [Utils.isFrameworkAttribute(attrName, attrValue, framework)]; the
    third argument is not read by the body. *)
Definition isFrameworkAttribute (attrName attrValue : string) : bool :=
  if test (full_i (seqs [lit "data-v-"; times 8 hex])) attrName then true
  else if test (prefix_i (lit "data-react")) attrName then true
  else if test (full_i (seqs [lit "_ng"; Or (lit "content") (lit "host"); lit "-";
                               plus alnumDash])) attrName then true
  else if isRandomGeneratedValue attrValue
          && includesString attrName semanticAttrsWithRandomValues then true
  else List.existsb (fun p => test p attrName) dynamicAttrPatterns.

Definition stableDataAttrs : list string :=
  ["data-testid"; "data-test"; "data-cy"; "data-qa"; "data-automation";
   "data-role"; "data-action"; "data-target"; "data-toggle"; "data-dismiss";
   "data-placement"; "data-content"; "data-original-title"].

Definition hashPatterns : list pattern := [
  full_i (atLeast 6 hex);
  full_i (seqs [plus alnum; lit "-"; atLeast 5 hex]);
  full (plus digit)
].

(** [Utils.isStableDataAttribute(attrName, attrValue)] *)
Definition isStableDataAttribute (attrName attrValue : string) : bool :=
  if negb (Js.startsWith "data-" attrName) then false
  else if includesString attrName stableDataAttrs then true
  else
    let looksLikeHash := List.existsb (fun p => test p attrValue) hashPatterns in
    negb looksLikeHash && (0 <? String.length attrValue)%nat.

Inductive AttrPriority : Type := High | Medium | Low.

Record StableAttr : Type := {
  attrName : string;
  attrValue : string;
  attrPriority : AttrPriority
}.

(** The loop of [getStableAttributes]: [unshift] for the priority
    attributes, [push] for the others. *)
Fixpoint stableAttrsLoop (attrs : list (string * string)) (stableAttrs : list StableAttr)
  : list StableAttr :=
  match attrs with
  | [] => stableAttrs
  | (name, value) :: rest =>
      if isFrameworkAttribute name value then stableAttrsLoop rest stableAttrs
      else if negb (Js.truthy value)
              && negb (includesString name ["checked"; "selected"; "disabled"; "readonly"])
      then stableAttrsLoop rest stableAttrs
      else if includesString name ["id"; "name"; "title"; "alt"; "role"; "type"]
      then stableAttrsLoop rest (Build_StableAttr name value High :: stableAttrs)
      else if (Js.startsWith "aria-" name || includesString name ["placeholder"; "value"])
              && negb (isRandomGeneratedValue value)
      then stableAttrsLoop rest (stableAttrs ++ [Build_StableAttr name value Medium])
      else if negb (Js.startsWith "data-" name) || isStableDataAttribute name value
      then stableAttrsLoop rest (stableAttrs ++ [Build_StableAttr name value Low])
      else stableAttrsLoop rest stableAttrs
  end.

(** [Utils.getStableAttributes(element)] *)
Definition getStableAttributes (e : Dom.ElementData) : list StableAttr :=
  stableAttrsLoop (Dom.attributes e) [].

(** [Utils.getFilteredClasses(className)] for the value of
    [element.className]: an [SVGAnimatedString] is truthy, is no array and
    has no [split]. *)
Definition getFilteredClasses (className : Dom.ClassNameValue) : comp (list string) :=
  match className with
  | Dom.ClassString s =>
      if negb (Js.truthy s) then Ret []
      else
        let classes :=
          List.filter (fun cls => (0 <? String.length cls)%nat) (Js.splitSpaces s) in
        Ret (filterFrameworkGeneratedNames classes ClassType)
  | Dom.ClassAnimated _ => Throw "className.split is not a function"
  end.

(** [Utils.getFilteredClasses(classes)] for an array, which is truthy
    also when empty. *)
Definition getFilteredClassesOfArray (classes : list string) : list string :=
  filterFrameworkGeneratedNames classes ClassType.

(** [Utils.getFilteredClasses(className)] for a string. *)
Definition getFilteredClassesOfString (className : string) : list string :=
  if negb (Js.truthy className) then []
  else
    filterFrameworkGeneratedNames
      (List.filter (fun cls => (0 <? String.length cls)%nat) (Js.splitSpaces className))
      ClassType.

End Utils.

(** ** BaseStrategy (base-strategy.js) *)

Module BaseStrategy.

Section Host.

(** The context object the manager hands to every strategy. *)
Variable Context : Type.

(** [document.evaluate(xpath, document, ...)]: the elements the expression
    selects, in document order; a malformed expression raises. *)
Variable evaluate : string -> comp (list Dom.NodeId).

(** The interface of a strategy: what a subclass of [BaseStrategy]
    provides.  [generate] answers a string or [null]. *)
Record Strategy : Type := {
  name : string;
  priority : Z;
  isApplicable : Dom.Element -> Context -> comp bool;
  generate : Dom.Element -> Context -> comp (option string);
  getScore : Dom.Element -> Context -> comp Z
}.

(** [result.singleNodeValue] of a [FIRST_ORDERED_NODE_TYPE] result. *)
Definition singleNodeValue (result : list Dom.NodeId) : option Dom.NodeId :=
  match result with
  | [] => None
  | first :: _ => Some first
  end.

(** [BaseStrategy.validateXPath(xpath, targetElement)] *)
Definition validateXPath (xpath : string) (targetElement : Dom.Element) : bool :=
  tryCatch
    (result <- evaluate xpath ;;
     Ret (match singleNodeValue result with
          | Some node => Dom.sameNode node (Dom.nodeId targetElement)
          | None => false
          end))
    (fun _ => false).

(** The loop every strategy ends with:
    [for (const xpath of strategies) if (this.validateXPath(xpath, element)) return xpath;]
    and [null] after it. *)
Fixpoint firstValid (strategies : list string) (element : Dom.Element) : option string :=
  match strategies with
  | [] => None
  | xpath :: rest =>
      if validateXPath xpath element then Some xpath else firstValid rest element
  end.

(** A [BaseStrategy] none of whose methods is overridden: [isApplicable]
    and [generate] raise, [getScore] answers the priority. *)
Definition abstractStrategy (name : string) (priority : Z) : Strategy := {|
  name := name;
  priority := priority;
  isApplicable := fun _ _ => Throw "子类必须实现 isApplicable 方法";
  generate := fun _ _ => Throw "子类必须实现 generate 方法";
  getScore := fun _ _ => Ret priority
|}.

End Host.

Arguments name {Context} _.
Arguments priority {Context} _.
Arguments isApplicable {Context} _ _ _.
Arguments generate {Context} _ _ _.
Arguments getScore {Context} _ _ _.

End BaseStrategy.

(** ** TextStrategy (text-strategy.js) *)

Module TextStrategy.

Import BaseStrategy.

Record DuplicateInfo : Type := {
  hasDuplicates : bool;
  count : Z;
  elements : list Dom.NodeId;
  targetIndex : Z
}.

Section Host.

Variable Context : Type.
Variable evaluate : string -> comp (list Dom.NodeId).

(** A method that is called on [this] and that neither the class nor
    [BaseStrategy] defines: the call raises a [TypeError]. *)
Definition undefinedMethod {A : Type} (method : string) : comp A :=
  Throw ("this." +:+ method +:+ " is not a function").

(** The four methods [TextStrategy] calls on itself without defining
    them. *)
Definition getElementIndexInDuplicates (targetElement : Dom.Element)
    (duplicates : list Dom.NodeId) : comp Z :=
  undefinedMethod "getElementIndexInDuplicates".

Definition generateContainerBasedXPath (element : Dom.Element)
    (text escapedText tagName : string) : comp (option string) :=
  undefinedMethod "generateContainerBasedXPath".

Definition generateAnchorBasedXPath (element : Dom.Element)
    (text escapedText tagName : string) : comp (option string) :=
  undefinedMethod "generateAnchorBasedXPath".

Definition generateIndexBasedXPath (element : Dom.Element)
    (text escapedText tagName : string) (duplicateInfo : DuplicateInfo)
  : comp (option string) :=
  undefinedMethod "generateIndexBasedXPath".

Definition priorityValue : Z := 110.

(** [isApplicable(element, context)] *)
Definition isApplicable (element : Dom.Element) (context : Context) : bool :=
  let text := Utils.getVisibleText (Some element) in
  (0 <? String.length text)%nat && (String.length text <=? 50)%nat.

(** [isButtonLikeElement(element)] *)
Definition isButtonLikeElement (element : Dom.Element) : bool :=
  let e := Dom.self element in
  let tagName := Js.toLowerCase (Dom.tagName e) in
  let role := Dom.getAttribute "role" (Dom.attributes e) in
  String.eqb tagName "button"
  || (String.eqb tagName "input"
      && Utils.includesString (Dom.typeProp e) ["button"; "submit"; "reset"])
  || match role with Some r => String.eqb r "button" | None => false end
  || Dom.classListContains "btn" e
  || Dom.classListContains "button" e.

(** [isLinkElement(element)], as a condition. *)
Definition isLinkElement (element : Dom.Element) : bool :=
  String.eqb (Js.toLowerCase (Dom.tagName (Dom.self element))) "a"
  && Js.truthy (Dom.hrefProp (Dom.self element)).

(** [detectDuplicateText(text, targetElement)]: the object is built
    inside the [try], its properties in order. *)
Definition detectDuplicateText (text : string) (targetElement : Dom.Element) : DuplicateInfo :=
  let escapedText := Utils.escapeXPath text in
  let xpath :=
    "//*[text()=" +:+ escapedText +:+ " or contains(text(), " +:+ escapedText +:+ ")]" in
  tryCatch
    (result <- evaluate xpath ;;
     let duplicates :=
       List.filter (fun element => negb (Dom.sameNode element (Dom.nodeId targetElement)))
                   result in
     index <- getElementIndexInDuplicates targetElement duplicates ;;
     Ret {| hasDuplicates := (0 <? List.length duplicates)%nat;
            count := Z.of_nat (List.length duplicates) + 1;
            elements := duplicates;
            targetIndex := index |})
    (fun _ => {| hasDuplicates := false; count := 1; elements := []; targetIndex := 0 |}).

(** [x && this.validateXPath(x, element)] for a string or [null]. *)
Definition validCandidate (x : option string) (element : Dom.Element) : bool :=
  match x with
  | Some xpath => Js.truthy xpath && validateXPath evaluate xpath element
  | None => false
  end.

(** [generateContextAwareXPath(element, text, duplicateInfo, context)] *)
Definition generateContextAwareXPath (element : Dom.Element) (text : string)
    (duplicateInfo : DuplicateInfo) (context : Context) : comp (option string) :=
  let escapedText := Utils.escapeXPath text in
  let tagName := Js.toLowerCase (Dom.tagName (Dom.self element)) in
  containerXPath <- generateContainerBasedXPath element text escapedText tagName ;;
  if validCandidate containerXPath element then Ret containerXPath
  else
    (anchorXPath <- generateAnchorBasedXPath element text escapedText tagName ;;
     if validCandidate anchorXPath element then Ret anchorXPath
     else
       (indexXPath <-
          generateIndexBasedXPath element text escapedText tagName duplicateInfo ;;
        if validCandidate indexXPath element then Ret indexXPath
        else Ret None)).

(** The three expressions on [button] pushed first for a [span] inside a
    button of the same text. *)
Definition buttonTextPaths (element : Dom.Element) (text escapedText tagName : string)
  : list string :=
  if String.eqb tagName "span"
  then match Dom.closest "button" element with
       | Some buttonElement =>
           let buttonText := Js.trim (Utils.getVisibleText (Some buttonElement)) in
           if String.eqb buttonText text
           then ["//button[text()=" +:+ escapedText +:+ "]";
                 "//button[contains(text(), " +:+ escapedText +:+ ")]";
                 "//button[normalize-space(text())="
                   +:+ Utils.escapeXPath (Js.collapseSpaces text) +:+ "]"]
           else []
       | None => []
       end
  else [].

Definition standardTextPaths (text escapedText tagName : string) : list string :=
  ["//" +:+ tagName +:+ "[text()=" +:+ escapedText +:+ "]";
   "//" +:+ tagName +:+ "[contains(text(), " +:+ escapedText +:+ ")]";
   "//" +:+ tagName +:+ "[normalize-space(text())="
     +:+ Utils.escapeXPath (Js.collapseSpaces text) +:+ "]";
   "//*[text()=" +:+ escapedText +:+ "]";
   "//*[contains(text(), " +:+ escapedText +:+ ")]"].

Definition buttonLikePaths (escapedText : string) : list string :=
  ["//button[text()=" +:+ escapedText +:+ "]";
   "//input[@type='button' and @value=" +:+ escapedText +:+ "]";
   "//input[@type='submit' and @value=" +:+ escapedText +:+ "]";
   "//*[@role='button' and text()=" +:+ escapedText +:+ "]"].

(** [generate(element, context)] *)
Definition generate (element : Dom.Element) (context : Context) : comp (option string) :=
  let text := Js.trim (Utils.getVisibleText (Some element)) in
  if negb (Js.truthy text) then Ret None
  else
    let duplicateInfo := detectDuplicateText text element in
    if hasDuplicates duplicateInfo
    then generateContextAwareXPath element text duplicateInfo context
    else
      let tagName := Js.toLowerCase (Dom.tagName (Dom.self element)) in
      let escapedText := Utils.escapeXPath text in
      let strategies :=
        buttonTextPaths element text escapedText tagName
        ++ standardTextPaths text escapedText tagName in
      let strategies :=
        if isButtonLikeElement element
        then buttonLikePaths escapedText ++ strategies
        else strategies in
      Ret (firstValid evaluate strategies element).

(** [getScore(element, context)] *)
Definition getScore (element : Dom.Element) (context : Context) : Z :=
  let score := priorityValue + 100 in
  let text := Utils.getVisibleText (Some element) in
  let n := String.length text in
  let score :=
    if (n <=? 10)%nat then score + 50
    else if (n <=? 20)%nat then score + 30
    else if (n <=? 30)%nat then score + 5
    else score in
  let score := if isButtonLikeElement element then score + 50 else score in
  let score := if isLinkElement element then score + 30 else score in
  if (n <=? 15)%nat && negb (hasDuplicates (detectDuplicateText text element))
  then score + 100
  else score.

(** [new TextStrategy()] *)
Definition textStrategy : Strategy Context := {|
  BaseStrategy.name := "text";
  BaseStrategy.priority := priorityValue;
  BaseStrategy.isApplicable := fun element context => Ret (isApplicable element context);
  BaseStrategy.generate := fun element context => generate element context;
  BaseStrategy.getScore := fun element context => Ret (getScore element context)
|}.

End Host.

End TextStrategy.

(** ** AttributeStrategy (attribute-strategy.js) *)

Module AttributeStrategy.

Import BaseStrategy.

Section Host.

Variable Context : Type.
Variable evaluate : string -> comp (list Dom.NodeId).

Definition priorityValue : Z := 100.

(** [isApplicable(element, context)] *)
Definition isApplicable (element : Dom.Element) (context : Context) : bool :=
  (0 <? List.length (Utils.getStableAttributes (Dom.self element)))%nat.

Definition hasPriority (p : Utils.AttrPriority) (attr : Utils.StableAttr) : bool :=
  match p, Utils.attrPriority attr with
  | Utils.High, Utils.High => true
  | Utils.Medium, Utils.Medium => true
  | Utils.Low, Utils.Low => true
  | _, _ => false
  end.

Definition named (n : string) (attr : Utils.StableAttr) : bool :=
  String.eqb (Utils.attrName attr) n.

(** [//*[@name='value']] *)
Definition anyWith (n v : string) : string :=
  "//*[@" +:+ n +:+ "='" +:+ v +:+ "']".

(** [//tag[@name='value']] *)
Definition tagWith (tag n v : string) : string :=
  "//" +:+ tag +:+ "[@" +:+ n +:+ "='" +:+ v +:+ "']".

(** The expressions pushed for the class names. *)
Definition classPaths (className : Dom.ClassNameValue) : comp (list string) :=
  if Dom.classNameTruthy className
  then
    classes <- Utils.getFilteredClasses className ;;
    if (0 <? List.length classes)%nat
    then
      let single :=
        List.flat_map
          (fun cls => ["//*[@class='" +:+ cls +:+ "']";
                       "//*[contains(@class, '" +:+ cls +:+ "')]"])
          (List.firstn 2 classes) in
      let combined :=
        if (1 <? List.length classes)%nat
        then ["//*[@class='" +:+ Js.join " " (List.firstn 2 classes) +:+ "']"]
        else [] in
      Ret (single ++ combined)
    else Ret []
  else Ret [].

(** [generate(element, context)] *)
Definition generate (element : Dom.Element) (context : Context) : comp (option string) :=
  let e := Dom.self element in
  let tag := Js.toLowerCase (Dom.tagName e) in
  let stableAttrs := Utils.getStableAttributes e in
  let highPriorityAttrs := List.filter (hasPriority Utils.High) stableAttrs in
  let mediumPriorityAttrs := List.filter (hasPriority Utils.Medium) stableAttrs in
  let lowPriorityAttrs := List.filter (hasPriority Utils.Low) stableAttrs in
  let idPaths :=
    match List.find (named "id") highPriorityAttrs with
    | Some idAttr =>
        if Utils.isValidId (Utils.attrValue idAttr)
        then [anyWith "id" (Utils.attrValue idAttr); tagWith tag "id" (Utils.attrValue idAttr)]
        else []
    | None => []
    end in
  let namePaths :=
    match List.find (named "name") highPriorityAttrs with
    | Some nameAttr =>
        [anyWith "name" (Utils.attrValue nameAttr); tagWith tag "name" (Utils.attrValue nameAttr)]
    | None => []
    end in
  let otherHighPaths :=
    List.flat_map
      (fun attr =>
         if negb (named "id" attr) && negb (named "name" attr)
         then [anyWith (Utils.attrName attr) (Utils.attrValue attr);
               tagWith tag (Utils.attrName attr) (Utils.attrValue attr)]
         else [])
      highPriorityAttrs in
  let mediumPaths :=
    List.map (fun attr => anyWith (Utils.attrName attr) (Utils.attrValue attr))
             (List.firstn 2 mediumPriorityAttrs) in
  classes <- classPaths (Dom.className e) ;;
  let stableDataAttrs :=
    List.filter
      (fun attr => Js.startsWith "data-" (Utils.attrName attr)
                   && Utils.isStableDataAttribute (Utils.attrName attr) (Utils.attrValue attr))
      lowPriorityAttrs in
  let dataPaths :=
    List.map (fun attr => anyWith (Utils.attrName attr) (Utils.attrValue attr))
             (List.firstn 2 stableDataAttrs) in
  let strategies :=
    idPaths ++ namePaths ++ otherHighPaths ++ mediumPaths ++ classes ++ dataPaths in
  Ret (firstValid evaluate strategies element).

(** [getScore(element, context)] *)
Definition getScore (element : Dom.Element) (context : Context) : comp Z :=
  let e := Dom.self element in
  let score := priorityValue in
  let score :=
    if Js.truthy (Dom.id e) && Utils.isValidId (Dom.id e) then score + 50 else score in
  let score := if Js.truthy (Dom.nameProp e) then score + 30 else score in
  classes <- Utils.getFilteredClasses (Dom.className e) ;;
  let n := Z.of_nat (List.length classes) in
  Ret (if (0 <? n) then score + Z.min (n * 10) 30 else score).

(** [new AttributeStrategy()] *)
Definition attributeStrategy : Strategy Context := {|
  BaseStrategy.name := "attribute";
  BaseStrategy.priority := priorityValue;
  BaseStrategy.isApplicable := fun element context => Ret (isApplicable element context);
  BaseStrategy.generate := generate;
  BaseStrategy.getScore := getScore
|}.

End Host.

End AttributeStrategy.

(** ** Arrays *)

Module JsArray.

Section Sort.

Variable A : Type.

(** A comparator [(a, b) => ...]: a positive answer asks for [b] before
    [a]. *)
Variable compareFn : A -> A -> Z.

(** [x] comes from before every element of [sorted]: it stays before the
    elements it does not have to follow. *)
Fixpoint insert (x : A) (sorted : list A) : list A :=
  match sorted with
  | [] => [x]
  | y :: rest => if 0 <? compareFn x y then y :: insert x rest else x :: y :: rest
  end.

(** [arr.sort(compareFn)]: the sort is stable (ECMAScript 2019), which
    with a consistent comparator fixes the result. *)
Fixpoint sort (arr : list A) : list A :=
  match arr with
  | [] => []
  | x :: rest => insert x (sort rest)
  end.

(** [arr.slice(start, end)] for indices within [0, length]. *)
Definition slice (start stop : nat) (arr : list A) : list A :=
  List.firstn (stop - start) (List.skipn start arr).

End Sort.

Arguments insert {A} compareFn x sorted.
Arguments sort {A} compareFn arr.
Arguments slice {A} start stop arr.

End JsArray.

(** ** StrategyManager (strategy-manager.js) *)

Module StrategyManager.

Import BaseStrategy.

(** An entry of [results]. *)
Record Candidate : Type := {
  strategy : string;
  xpath : string;
  score : Z;
  priority : Z
}.

(** [randomPatterns] of [hasRandomClasses]. *)
Definition randomPatterns : list Regex.pattern := [
  Regex.full_i (Utils.seqs [Regex.lit "__"; Regex.plus Utils.alpha; Regex.lit "-";
                            Regex.plus Utils.alnumDash]);
  Regex.full_i (Utils.seqs [Regex.plus Utils.alpha; Regex.lit "-"; Regex.atLeast 5 Utils.hex]);
  Regex.full_i (Utils.seqs [Regex.lit "_"; Regex.atLeast 5 Utils.hex])
].

(** [cls => randomPatterns.some(pattern => pattern.test(cls))] *)
Definition isRandomClass (cls : string) : bool :=
  List.existsb (fun pattern => Regex.test pattern cls) randomPatterns.

(** [hasRandomClasses(element)]: [className.split] does not exist on the
    [SVGAnimatedString] of an SVG element. *)
Definition hasRandomClasses (element : Dom.Element) : comp bool :=
  match Dom.className (Dom.self element) with
  | Dom.ClassString s =>
      if negb (Js.truthy s) then Ret false
      else Ret (List.existsb isRandomClass (Js.splitSpaces s))
  | Dom.ClassAnimated _ => Throw "element.className.split is not a function"
  end.

Section Host.

Variable Context : Type.
Variable Options : Type.

(** [buildContext(element, options)]: the framework type, the shadow
    flag and the element type next to the options.  No property below
    reads the context, so its construction is a parameter. *)
Variable buildContext : Dom.Element -> Options -> Context.

Record RankedResult : Type := {
  success : bool;
  primary : option Candidate;
  alternatives : list Candidate;
  context : Context
}.

(** [registerStrategy(strategy)]: the record type stands for
    [instanceof BaseStrategy]. *)
Definition registerStrategy (strategies : list (Strategy Context)) (s : Strategy Context)
  : list (Strategy Context) :=
  JsArray.sort (fun a b => BaseStrategy.priority b - BaseStrategy.priority a)
               (strategies ++ [s]).

(** [unregisterStrategy(strategyName)] *)
Definition unregisterStrategy (strategies : list (Strategy Context)) (strategyName : string)
  : list (Strategy Context) :=
  List.filter (fun s => negb (String.eqb (name s) strategyName)) strategies.

(** [initializeStrategies()] on the empty registry, given the seven
    strategy objects. *)
Definition initializeStrategies
    (text attribute anchor containerContext shadowDOM svg relative : Strategy Context)
  : list (Strategy Context) :=
  List.fold_left registerStrategy
    [text; attribute; anchor; containerContext; shadowDOM; svg; relative] [].

(** The body of the [try] for one strategy: the candidate pushed, if
    any. *)
Definition tryStrategy (hasRandom : bool) (element : Dom.Element) (ctx : Context)
    (s : Strategy Context) : comp (option Candidate) :=
  applicable <- isApplicable s element ctx ;;
  if applicable
  then
    generated <- generate s element ctx ;;
    match generated with
    | Some x =>
        if Js.truthy x
        then
          score0 <- getScore s element ctx ;;
          let score1 :=
            if hasRandom && String.eqb (name s) "attribute" then score0 - 50 else score0 in
          Ret (Some {| strategy := name s;
                       xpath := x;
                       score := score1;
                       priority := BaseStrategy.priority s |})
        else Ret None
    | None => Ret None
    end
  else Ret None.

(** The loop over [this.strategies]: a strategy that raises is caught
    and leaves [results] as it was. *)
Fixpoint runStrategies (hasRandom : bool) (element : Dom.Element) (ctx : Context)
    (strategies : list (Strategy Context)) (results : list Candidate) : list Candidate :=
  match strategies with
  | [] => results
  | s :: rest =>
      let results :=
        tryCatch
          (pushed <- tryStrategy hasRandom element ctx s ;;
           Ret (match pushed with
                | Some c => results ++ [c]
                | None => results
                end))
          (fun _ => results) in
      runStrategies hasRandom element ctx rest results
  end.

(** [(a, b) => b.score - a.score] *)
Definition byScore (a b : Candidate) : Z := score b - score a.

(** [generateXPath(element, options)] *)
Definition generateXPath (strategies : list (Strategy Context)) (element : Dom.Element)
    (options : Options) : comp RankedResult :=
  let ctx := buildContext element options in
  hasRandom <- hasRandomClasses element ;;
  let results := runStrategies hasRandom element ctx strategies [] in
  let results := JsArray.sort byScore results in
  Ret {| success := (0 <? List.length results)%nat;
         primary := List.head results;
         alternatives := JsArray.slice 1 3 results;
         context := ctx |}.

End Host.

Arguments success {Context} _.
Arguments primary {Context} _.
Arguments alternatives {Context} _.
Arguments context {Context} _.

End StrategyManager.

(** ** ElementAnalyzer (element-analyzer.js): visibility and the cache key *)

Module ElementAnalyzer.

(** [current !== document.body]; [None] is a document without body. *)
Definition isBody (documentBody : option Dom.NodeId) (current : Dom.Element) : bool :=
  match documentBody with
  | Some b => Dom.sameNode (Dom.nodeId current) b
  | None => false
  end.

(** [isElementVisible(element)] *)
Definition isElementVisible (element : Dom.Element) : bool :=
  let e := Dom.self element in
  let st := Dom.computedStyle e in
  negb (String.eqb (Dom.display st) "none")
  && negb (String.eqb (Dom.visibility st) "hidden")
  && negb (String.eqb (Dom.opacity st) "0")
  && (0 <? Dom.offsetWidth e)
  && (0 <? Dom.offsetHeight e).

(** [Array.from(current.parentElement?.children || []).indexOf(current)] *)
Definition childIndex (current : Dom.Element) : Z :=
  match Dom.above current with
  | [] => -1
  | f :: _ => Dom.indexOf (Dom.positionIn f) (List.map fst (Dom.siblingsOf current f))
  end.

(** The loop of [getElementPath] over the values of [current]. *)
Fixpoint pathLoop (documentBody : option Dom.NodeId) (currents : list Dom.Element)
    (path : list string) : list string :=
  match currents with
  | [] => path
  | current :: rest =>
      if isBody documentBody current then path
      else
        let segment :=
          Js.toLowerCase (Dom.tagName (Dom.self current))
          +:+ "[" +:+ pretty (childIndex current) +:+ "]" in
        pathLoop documentBody rest (segment :: path)
  end.

(** [getElementPath(element)] *)
Definition getElementPath (documentBody : option Dom.NodeId) (element : Dom.Element) : string :=
  Js.join ">" (pathLoop documentBody (Dom.chain element) []).

(** Conversion to a signed 32-bit integer, as [<<] and [&] do. *)
Definition toInt32 (z : Z) : Z := (z + 2 ^ 31) mod 2 ^ 32 - 2 ^ 31.

(** The hash loop: [hash = ((hash << 5) - hash) + char; hash = hash & hash]. *)
Fixpoint hashLoop (attrs : string) (hash : Z) : Z :=
  match attrs with
  | EmptyString => hash
  | String c rest =>
      let char := Z.of_nat (nat_of_ascii c) in
      let hash := toInt32 (Z.shiftl hash 5) - hash + char in
      hashLoop rest (toInt32 hash)
  end.

Definition digits36 : string := "0123456789abcdefghijklmnopqrstuvwxyz".

Definition digit36 (d : Z) : ascii :=
  match String.get (Z.to_nat d) digits36 with
  | Some c => c
  | None => "0"%char
  end.

(** The digits of [n >= 0] in base 36, most significant first, in front
    of [acc]; [steps] bounds the number of digits (a 32-bit integer has at
    most six). *)
Fixpoint base36 (steps : nat) (n : Z) (acc : string) : string :=
  match steps with
  | O => acc
  | S steps' =>
      let acc := String (digit36 (n mod 36)) acc in
      if n / 36 =? 0 then acc else base36 steps' (n / 36) acc
  end.

(** [hash.toString(36)] for a 32-bit integer. *)
Definition toString36 (hash : Z) : string :=
  if hash <? 0 then "-" +:+ base36 7 (- hash) "" else base36 7 hash "".

(** The default comparator of [sort()]: by code units. *)
Definition compareStrings (a b : string) : Z :=
  match String.compare a b with
  | Lt => -1
  | Eq => 0
  | Gt => 1
  end.

(** [hashAttributes(element)] *)
Definition hashAttributes (element : Dom.Element) : string :=
  let attrs :=
    Js.join "|"
      (JsArray.sort compareStrings
         (List.map (fun attr => fst attr +:+ "=" +:+ snd attr)
                   (Dom.attributes (Dom.self element)))) in
  toString36 (hashLoop attrs 0).

(** [generateCacheKey(element)], the same in the analyzer and in the
    generator. *)
Definition generateCacheKey (documentBody : option Dom.NodeId) (element : Dom.Element) : string :=
  getElementPath documentBody element +:+ "_" +:+ hashAttributes element.

(** The loop of [getElementDepth] over the values of [current]. *)
Fixpoint depthLoop (documentBody : option Dom.NodeId) (currents : list Dom.Element)
    (depth : Z) : Z :=
  match currents with
  | [] => depth
  | current :: rest =>
      if isBody documentBody current then depth
      else depthLoop documentBody rest (depth + 1)
  end.

(** [getElementDepth(element)] *)
Definition getElementDepth (documentBody : option Dom.NodeId) (element : Dom.Element) : Z :=
  depthLoop documentBody (Dom.chain element) 0.

(** [isInForm(element)], [isInTable(element)] and [isInList(element)]:
    the walk from the element up to the root element. *)
Definition isInForm (element : Dom.Element) : bool :=
  List.existsb
    (fun current => String.eqb (Js.toLowerCase (Dom.tagName (Dom.self current))) "form")
    (Dom.chain element).

Definition isInTable (element : Dom.Element) : bool :=
  List.existsb
    (fun current => String.eqb (Js.toLowerCase (Dom.tagName (Dom.self current))) "table")
    (Dom.chain element).

Definition isInList (element : Dom.Element) : bool :=
  List.existsb
    (fun current =>
       Utils.includesString (Js.toLowerCase (Dom.tagName (Dom.self current)))
                            ["ul"; "ol"; "dl"])
    (Dom.chain element).

(** The object [analysis.basic.svgInfo] the analyzer builds for an
    element inside, or at the root of, an SVG image.  An attribute that is
    absent is [None]. *)
Record SvgInfo : Type := {
  isRoot : bool;
  svgElement : Dom.Element;
  viewBox : option string;
  width : option string;
  height : option string;
  hasTitle : bool;
  hasDesc : bool;
  titleText : string;
  descText : string;
  pathCount : Z;
  useElements : Z;
  hasAriaLabel : bool;
  ariaLabelText : string
}.

(** The text of the first descendant of that local name, trimmed:
    [targetSvg.querySelector(tag)?.textContent?.trim() || ''] *)
Definition textOfFirst (tag : string) (targetSvg : Dom.Element) : string :=
  match Dom.querySelector tag targetSvg with
  | Some found => Js.trim (Dom.textContent (snd found))
  | None => EmptyString
  end.

(** [analyzeSVGElement(element)]; [None] is [null]. *)
Definition analyzeSVGElement (element : Dom.Element) : option SvgInfo :=
  let svgRoot := Dom.closest "svg" element in
  let isSvgTag := String.eqb (Js.toLowerCase (Dom.tagName (Dom.self element))) "svg" in
  match (if isSvgTag then Some element else svgRoot) with
  | None => None
  | Some targetSvg =>
      let attribute := Dom.getAttributeOf (Dom.self targetSvg) in
      Some {| isRoot := isSvgTag;
              svgElement := targetSvg;
              viewBox := attribute "viewBox";
              width := attribute "width";
              height := attribute "height";
              hasTitle := match Dom.querySelector "title" targetSvg with
                          | Some _ => true
                          | None => false
                          end;
              hasDesc := match Dom.querySelector "desc" targetSvg with
                         | Some _ => true
                         | None => false
                         end;
              titleText := textOfFirst "title" targetSvg;
              descText := textOfFirst "desc" targetSvg;
              pathCount := Z.of_nat (List.length (Dom.querySelectorAll "path" targetSvg));
              useElements := Z.of_nat (List.length (Dom.querySelectorAll "use" targetSvg));
              hasAriaLabel := match attribute "aria-label" with
                              | Some v => Js.truthy v
                              | None => false
                              end;
              ariaLabelText := match attribute "aria-label" with
                               | Some v => v
                               | None => EmptyString
                               end |}
  end.

(** [isSVG] of [analyzeBasicInfo(element)]:
    [element.tagName.toLowerCase() === 'svg' || element.closest('svg') !== null] *)
Definition isSVG (element : Dom.Element) : bool :=
  String.eqb (Js.toLowerCase (Dom.tagName (Dom.self element))) "svg"
  || match Dom.closest "svg" element with
     | Some _ => true
     | None => false
     end.

End ElementAnalyzer.

(** ** XPathGenerator (xpath-generator.js) *)

Module XPathGenerator.

Import BaseStrategy.

(** The three texts the field [error] takes:
    ['无效的元素'],
    ['未能提取有效的XPath，该元素可能缺乏唯一标识符'] and
    [`XPath提取失败: ${error.message}`]. *)
Inductive ErrorMessage : Type :=
| InvalidElement
| NoXPathExtracted
| ExtractionFailed (message : string).

(** The field [element] of a result. *)
Record ElementSummary : Type := {
  tagName : string;
  text : string;
  id : string;
  className : Dom.ClassNameValue
}.

Definition summarize (element : Dom.Element) : ElementSummary := {|
  tagName := Js.toLowerCase (Dom.tagName (Dom.self element));
  text := Utils.getVisibleText (Some element);
  id := Dom.id (Dom.self element);
  className := Dom.className (Dom.self element)
|}.

(** The loop of [generateFallbackXPath] over the values of [current]:
    [unshift] puts a segment in front, the [id] branch ends the loop. *)
Fixpoint fallbackLoop (documentBody : option Dom.NodeId) (currents : list Dom.Element)
    (path : list string) : list string :=
  match currents with
  | [] => path
  | current :: rest =>
      if ElementAnalyzer.isBody documentBody current then path
      else
        let tagName := Js.toLowerCase (Dom.tagName (Dom.self current)) in
        let index := Utils.getElementIndex current in
        if Js.truthy (Dom.id (Dom.self current))
        then ("//" +:+ tagName +:+ "[@id='" +:+ Dom.id (Dom.self current) +:+ "']") :: path
        else fallbackLoop documentBody rest ((tagName +:+ "[" +:+ pretty index +:+ "]") :: path)
  end.

(** [generateFallbackXPath(element)] *)
Definition generateFallbackXPath (documentBody : option Dom.NodeId) (element : Dom.Element)
  : string :=
  let path := fallbackLoop documentBody (Dom.chain element) [] in
  if (0 <? List.length path)%nat
  then "/" +:+ Js.join "/" path
  else "//" +:+ Js.toLowerCase (Dom.tagName (Dom.self element)).

(** The answer of [validateXPath(xpath, targetElement)]. *)
Record Validation : Type := {
  valid : bool;
  unique : bool;
  correct : bool;
  matchCount : Z
}.

(** [XPathGenerator.validateXPath(xpath, targetElement)], on the ordered
    snapshot of all matches. *)
Definition validateXPath (evaluate : string -> comp (list Dom.NodeId))
    (xpath : string) (targetElement : Dom.Element) : Validation :=
  tryCatch
    (result <- evaluate xpath ;;
     let matchCount := Z.of_nat (List.length result) in
     Ret {| valid := true;
            unique := matchCount =? 1;
            correct := (0 <? matchCount)
                       && match result with
                          | first :: _ => Dom.sameNode first (Dom.nodeId targetElement)
                          | [] => false
                          end;
            matchCount := matchCount |})
    (fun _ => {| valid := false; unique := false; correct := false; matchCount := 0 |}).

Section Host.

Variable Context : Type.
Variable Options : Type.
Variable Analysis : Type.

(** [{...options, analysis: analysis}] *)
Record ManagerOptions : Type := {
  options : Options;
  analysisOption : Analysis
}.

Variable buildContext : Dom.Element -> ManagerOptions -> Context.
Variable documentBody : option Dom.NodeId.

(** [this.elementAnalyzer.analyze(element)] *)
Variable analyze : Dom.Element -> comp Analysis.

(** [this.strategyManager.strategies] *)
Variable strategies : list (Strategy Context).

(** The successive readings of [Date.now()] made by the generator. *)
Variable clock : nat -> Z.

Record GenerationResult : Type := {
  success : bool;
  error : option ErrorMessage;
  primary : option StrategyManager.Candidate;
  alternatives : list StrategyManager.Candidate;
  context : option Context;
  element : option ElementSummary;
  analysis : option Analysis;
  timestamp : Z
}.

Record CacheEntry : Type := {
  data : GenerationResult;
  storedAt : Z
}.

(** The generator's own state: [this.cache] and the number of clock
    readings made so far. *)
Record State : Type := {
  cache : gmap string CacheEntry;
  readings : nat
}.

Definition cacheTimeout : Z := 10000.

(** [Date.now()] *)
Definition dateNow (st : State) : Z * State :=
  (clock (readings st), {| cache := cache st; readings := S (readings st) |}).

(** [cleanupCache()] *)
Definition cleanupCache (st : State) : State :=
  let (now, st) := dateNow st in
  {| cache := filter (fun kv => ¬ (now - storedAt (snd kv) > cacheTimeout)) (cache st);
     readings := readings st |}.

(** [clearCache()] *)
Definition clearCache (st : State) : State :=
  {| cache := ∅; readings := readings st |}.

(** The result for a falsy element or tag name. *)
Definition invalidResult (st : State) : GenerationResult * State :=
  let (now, st) := dateNow st in
  ({| success := false; error := Some InvalidElement; primary := None; alternatives := [];
      context := None; element := None; analysis := None; timestamp := now |}, st).

(** The branch [if (result.success)]: enhance, store, clean up. *)
Definition successBranch (cacheKey : string) (el : Dom.Element) (a : Analysis)
    (result : StrategyManager.RankedResult Context) (st : State) : GenerationResult * State :=
  let (now1, st) := dateNow st in
  let enhancedResult :=
    {| success := StrategyManager.success result;
       error := None;
       primary := StrategyManager.primary result;
       alternatives := StrategyManager.alternatives result;
       context := Some (StrategyManager.context result);
       element := Some (summarize el);
       analysis := Some a;
       timestamp := now1 |} in
  let (now2, st) := dateNow st in
  let st := {| cache := <[cacheKey := {| data := enhancedResult; storedAt := now2 |}]> (cache st);
               readings := readings st |} in
  let st := cleanupCache st in
  (enhancedResult, st).

(** The [else] branch, given the outcome of the call
    [this.generateFallbackXPath(element)] inside the inner [try]. *)
Definition fallbackBranch (fallback : comp string) (el : Dom.Element) (a : Analysis)
    (st : State) : GenerationResult * State :=
  let attempt : option string :=
    tryCatch
      (fallbackXPath <- fallback ;;
       Ret (if Js.truthy fallbackXPath then Some fallbackXPath else None))
      (fun _ => None) in
  let (now, st) := dateNow st in
  match attempt with
  | Some fallbackXPath =>
      ({| success := true;
          error := None;
          primary := Some {| StrategyManager.strategy := "fallback";
                             StrategyManager.xpath := fallbackXPath;
                             StrategyManager.score := 1;
                             StrategyManager.priority := 0 |};
          alternatives := [];
          context := None;
          element := Some (summarize el);
          analysis := Some a;
          timestamp := now |}, st)
  | None =>
      ({| success := false;
          error := Some NoXPathExtracted;
          primary := None;
          alternatives := [];
          context := None;
          element := Some (summarize el);
          analysis := Some a;
          timestamp := now |}, st)
  end.

(** The outer [catch (error)]. *)
Definition catchBranch (message : string) (el : Dom.Element) (st : State)
  : GenerationResult * State :=
  let (now, st) := dateNow st in
  ({| success := false;
      error := Some (ExtractionFailed message);
      primary := None;
      alternatives := [];
      context := None;
      element := Some (summarize el);
      analysis := None;
      timestamp := now |}, st).

(** The outer [try]: analysis, ranking, then one of the two branches. *)
Definition generateFresh (cacheKey : string) (el : Dom.Element) (opts : Options) (st : State)
  : GenerationResult * State :=
  tryCatch
    (a <- analyze el ;;
     result <- StrategyManager.generateXPath Context ManagerOptions buildContext strategies el
                 {| options := opts; analysisOption := a |} ;;
     Ret (if StrategyManager.success result
          then successBranch cacheKey el a result st
          else fallbackBranch (Ret (generateFallbackXPath documentBody el)) el a st))
    (fun message => catchBranch message el st).

(** [generateXPath(element, options)].  [None] is a falsy argument; a
    reference with the empty tag name stands for an object without tag
    name.  The answer is the settlement of the promise. *)
Definition generateXPath (element : option Dom.Element) (opts : Options) (st : State)
  : comp (GenerationResult * State) :=
  match element with
  | None => Ret (invalidResult st)
  | Some el =>
      if negb (Js.truthy (Dom.tagName (Dom.self el))) then Ret (invalidResult st)
      else
        let cacheKey := ElementAnalyzer.generateCacheKey documentBody el in
        match cache st !! cacheKey with
        | Some cached =>
            let (now, st) := dateNow st in
            if now - storedAt cached <? cacheTimeout
            then Ret (data cached, st)
            else Ret (generateFresh cacheKey el opts st)
        | None => Ret (generateFresh cacheKey el opts st)
        end
  end.

End Host.

Arguments success {Context Analysis} _.
Arguments error {Context Analysis} _.
Arguments primary {Context Analysis} _.
Arguments alternatives {Context Analysis} _.
Arguments context {Context Analysis} _.
Arguments element {Context Analysis} _.
Arguments analysis {Context Analysis} _.
Arguments timestamp {Context Analysis} _.
Arguments data {Context Analysis} _.
Arguments storedAt {Context Analysis} _.
Arguments cache {Context Analysis} _.
Arguments readings {Context Analysis} _.
Arguments options {Options Analysis} _.
Arguments analysisOption {Options Analysis} _.

End XPathGenerator.

(** ** RelativeStrategy (relative-strategy.js) *)

Module RelativeStrategy.

Import BaseStrategy.

Section Host.

Variable Context : Type.
Variable evaluate : string -> comp (list Dom.NodeId).
Variable documentBody : option Dom.NodeId.

Definition priorityValue : Z := 60.

(** [isApplicable(element, context)] *)
Definition isApplicable (element : Dom.Element) (context : Context) : bool :=
  match Dom.parentElement element with
  | Some _ => true
  | None => false
  end.

(** [try { ... if (result.snapshotLength === 1) ... } catch (e) { continue; }]:
    the expression is evaluated and selects one node. *)
Definition selectsOne (xpath : string) : bool :=
  tryCatch
    (result <- evaluate xpath ;; Ret (Z.of_nat (List.length result) =? 1))
    (fun _ => false).

(** [getUniqueAttributes(element)] *)
Definition getUniqueAttributes (e : Dom.ElementData) : list (string * string) :=
  List.filter
    (fun attr =>
       if Utils.includesString (fst attr) ["style"; "class"] || negb (Js.truthy (snd attr))
       then false
       else selectsOne ("//*[@" +:+ fst attr +:+ "=" +:+ Utils.escapeXPath (snd attr) +:+ "]"))
    (Dom.attributes e).

(** The paths pushed by [generateParentBasedPaths] for one ancestor. *)
Definition parentPaths (tagName : string) (current : Dom.Element) : list string :=
  let e := Dom.self current in
  let parentTag := Js.toLowerCase (Dom.tagName e) in
  let byId :=
    if Js.truthy (Dom.id e) && Utils.isValidId (Dom.id e)
    then ["//*[@id=" +:+ Utils.escapeXPath (Dom.id e) +:+ "]//" +:+ tagName;
          "//*[@id=" +:+ Utils.escapeXPath (Dom.id e) +:+ "]/" +:+ tagName]
    else [] in
  let byClass :=
    match Dom.className e with
    | Dom.ClassString className =>
        if Js.truthy className
        then
          List.flat_map
            (fun cls =>
               ["//" +:+ parentTag +:+ "[@class=" +:+ Utils.escapeXPath cls +:+ "]//" +:+ tagName;
                "//" +:+ parentTag +:+ "[contains(@class, " +:+ Utils.escapeXPath cls +:+ ")]/"
                  +:+ tagName])
            (List.firstn 2 (Utils.getFilteredClassesOfString className))
        else []
    | Dom.ClassAnimated _ => []
    end in
  let byAttribute :=
    List.map
      (fun attr =>
         "//" +:+ parentTag +:+ "[@" +:+ fst attr +:+ "=" +:+ Utils.escapeXPath (snd attr)
           +:+ "]//" +:+ tagName)
      (List.firstn 2 (getUniqueAttributes e)) in
  byId ++ byClass ++ byAttribute.

(** The loop of [generateParentBasedPaths] over the values of
    [current], from the parent. *)
Fixpoint parentLoop (tagName : string) (currents : list Dom.Element) (paths : list string)
  : list string :=
  match currents with
  | [] => paths
  | current :: rest =>
      if ElementAnalyzer.isBody documentBody current then paths
      else parentLoop tagName rest (paths ++ parentPaths tagName current)
  end.

(** [generateParentBasedPaths(element)] *)
Definition generateParentBasedPaths (element : Dom.Element) : list string :=
  parentLoop (Js.toLowerCase (Dom.tagName (Dom.self element)))
             (List.tl (Dom.chain element)) [].

(** The paths pushed by [generateSiblingBasedPaths] for one sibling, of
    index [i] in [siblings]. *)
Definition siblingPaths (element : Dom.Element) (siblings : list Dom.Element)
    (tagName : string) (sibling : Dom.Element) : list string :=
  if Dom.sameNode (Dom.nodeId sibling) (Dom.nodeId element) then []
  else
    let siblingTag := Js.toLowerCase (Dom.tagName (Dom.self sibling)) in
    let byId :=
      if Js.truthy (Dom.id (Dom.self sibling))
      then
        let siblingIndex := Dom.indexOfElement sibling siblings + 1 in
        let elementIndex := Dom.indexOfElement element siblings + 1 in
        if siblingIndex <? elementIndex
        then ["//*[@id=" +:+ Utils.escapeXPath (Dom.id (Dom.self sibling))
                +:+ "]/following-sibling::" +:+ tagName]
        else ["//*[@id=" +:+ Utils.escapeXPath (Dom.id (Dom.self sibling))
                +:+ "]/preceding-sibling::" +:+ tagName]
      else [] in
    let siblingText := Utils.getVisibleText (Some sibling) in
    let byText :=
      if Js.truthy siblingText && (String.length siblingText <=? 30)%nat
      then
        let escapedText := Utils.escapeXPath siblingText in
        ["//" +:+ siblingTag +:+ "[text()=" +:+ escapedText +:+ "]/following-sibling::"
           +:+ tagName;
         "//" +:+ siblingTag +:+ "[text()=" +:+ escapedText +:+ "]/preceding-sibling::"
           +:+ tagName]
      else [] in
    byId ++ byText.

(** [generateSiblingBasedPaths(element)] *)
Definition generateSiblingBasedPaths (element : Dom.Element) : list string :=
  let tagName := Js.toLowerCase (Dom.tagName (Dom.self element)) in
  match Dom.parentElement element with
  | Some parent =>
      let siblings := Dom.children parent in
      List.flat_map (siblingPaths element siblings tagName) siblings
  | None => []
  end.

(** [getParentPath(parent)]; [None] is [null]. *)
Definition getParentPath (parent : option Dom.Element) : option string :=
  match parent with
  | None => None
  | Some p =>
      if ElementAnalyzer.isBody documentBody p then None
      else
        let e := Dom.self p in
        let tagName := Js.toLowerCase (Dom.tagName e) in
        if Js.truthy (Dom.id e) && Utils.isValidId (Dom.id e)
        then Some ("//*[@id=" +:+ Utils.escapeXPath (Dom.id e) +:+ "]")
        else
          match Dom.className e with
          | Dom.ClassString className =>
              if Js.truthy className
              then
                List.find selectsOne
                  (List.map
                     (fun cls => "//" +:+ tagName +:+ "[@class=" +:+ Utils.escapeXPath cls +:+ "]")
                     (Utils.getFilteredClassesOfString className))
              else None
          | Dom.ClassAnimated _ => None
          end
  end.

(** [generateIndexBasedPaths(element)] *)
Definition generateIndexBasedPaths (element : Dom.Element) : list string :=
  let tagName := Js.toLowerCase (Dom.tagName (Dom.self element)) in
  match Dom.parentElement element with
  | None => []
  | Some parent =>
      let allSiblings := Dom.children parent in
      let allIndex := Dom.indexOfElement element allSiblings + 1 in
      let sameTags :=
        List.filter
          (fun el => String.eqb (Dom.tagName (Dom.self el)) (Dom.tagName (Dom.self element)))
          allSiblings in
      let sameTagIndex := Dom.indexOfElement element sameTags + 1 in
      let viaParent :=
        match getParentPath (Some parent) with
        | Some parentPath =>
            if Js.truthy parentPath
            then
              (parentPath +:+ "/*[" +:+ pretty allIndex +:+ "]")
              :: (if (1 <? List.length sameTags)%nat
                  then [parentPath +:+ "/" +:+ tagName +:+ "[" +:+ pretty sameTagIndex +:+ "]"]
                  else [])
            else []
        | None => []
        end in
      viaParent
      ++ (if (1 <? List.length sameTags)%nat
          then ["//" +:+ tagName +:+ "[" +:+ pretty sameTagIndex +:+ "]"]
          else [])
  end.

(** [generate(element, context)] *)
Definition generate (element : Dom.Element) (context : Context) : option string :=
  let paths :=
    generateParentBasedPaths element
    ++ generateSiblingBasedPaths element
    ++ generateIndexBasedPaths element in
  firstValid evaluate paths element.

(** [getElementDepth(element)]: the body of the analyzer's. *)
Definition getElementDepth (element : Dom.Element) : Z :=
  ElementAnalyzer.depthLoop documentBody (Dom.chain element) 0.

(** The first loop of [getScore] over the values of [current], from the
    parent: an ancestor below the body has an id. *)
Fixpoint ancestorHasId (currents : list Dom.Element) : bool :=
  match currents with
  | [] => false
  | current :: rest =>
      if ElementAnalyzer.isBody documentBody current then false
      else if Js.truthy (Dom.id (Dom.self current)) then true
      else ancestorHasId rest
  end.

(** [getScore(element, context)] *)
Definition getScore (element : Dom.Element) (context : Context) : Z :=
  let score := priorityValue in
  let score := if ancestorHasId (List.tl (Dom.chain element)) then score + 20 else score in
  let depth := getElementDepth element in
  score + Z.max 0 (20 - depth).

(** [new RelativeStrategy()] *)
Definition relativeStrategy : Strategy Context := {|
  BaseStrategy.name := "relative";
  BaseStrategy.priority := priorityValue;
  BaseStrategy.isApplicable := fun element context => Ret (isApplicable element context);
  BaseStrategy.generate := fun element context => Ret (generate element context);
  BaseStrategy.getScore := fun element context => Ret (getScore element context)
|}.

End Host.

End RelativeStrategy.

(** ** ContainerContextStrategy (container-context-strategy.js) *)

Module ContainerContextStrategy.

Import BaseStrategy.

Definition semanticContainers : list string :=
  ["main"; "section"; "article"; "aside"; "nav"; "header"; "footer";
   "form"; "fieldset"; "table"; "tbody"; "thead"; "tfoot";
   "ul"; "ol"; "dl"; "figure"; "blockquote"; "details"].

Definition semanticRoles : list string :=
  ["main"; "navigation"; "banner"; "contentinfo"; "complementary";
   "region"; "article"; "section"; "form"; "search"; "dialog";
   "tabpanel"; "group"; "list"; "listbox"; "menu"; "menubar"].

Definition containerKeywords : list string :=
  ["container"; "wrapper"; "content"; "main"; "section";
   "panel"; "card"; "box"; "widget"; "module"; "component"].

(** [isSemanticContainer(element)] *)
Definition isSemanticContainer (e : Dom.ElementData) : bool :=
  let tagName := Js.toLowerCase (Dom.tagName e) in
  if Utils.includesString tagName semanticContainers then true
  else if match Dom.getAttribute "role" (Dom.attributes e) with
          | Some role => Js.truthy role && Utils.includesString role semanticRoles
          | None => false
          end
  then true
  else
    match Dom.className e with
    | Dom.ClassString className =>
        if Js.truthy className
        then
          let classes := Js.toLowerCase className in
          List.existsb (fun keyword => Js.includesSubstring keyword classes) containerKeywords
        else false
    | Dom.ClassAnimated _ => false
    end.

(** The class names the class loops run over:
    [this.getFilteredClasses(element.className.split(/\s+/).filter(cls => cls))]
    for a non-empty string, no name otherwise. *)
Definition classNamesOf (e : Dom.ElementData) : list string :=
  match Dom.className e with
  | Dom.ClassString className =>
      if Js.truthy className
      then Utils.getFilteredClassesOfArray (List.filter Js.truthy (Js.splitSpaces className))
      else []
  | Dom.ClassAnimated _ => []
  end.

Section Host.

Variable Context : Type.
Variable evaluate : string -> comp (list Dom.NodeId).
Variable documentBody : option Dom.NodeId.

Definition priorityValue : Z := 90.

(** [try { ... if (result.snapshotLength === 1) return ...; } catch (e) {}] *)
Definition selectsOne (xpath : string) : bool :=
  tryCatch
    (result <- evaluate xpath ;; Ret (Z.of_nat (List.length result) =? 1))
    (fun _ => false).

(** [hasUniqueIdentifier(element)] *)
Definition hasUniqueIdentifier (e : Dom.ElementData) : bool :=
  if match Utils.getValidId (Dom.id e) with
     | Some validId => selectsOne ("//*[@id=" +:+ Utils.escapeXPath validId +:+ "]")
     | None => false
     end
  then true
  else if List.existsb
            (fun cls => selectsOne ("//*[contains(@class, " +:+ Utils.escapeXPath cls +:+ ")]"))
            (classNamesOf e)
  then true
  else
    List.existsb
      (fun attr =>
         if Utils.includesString (fst attr) ["style"; "class"; "id"] then false
         else selectsOne ("//*[@" +:+ fst attr +:+ "=" +:+ Utils.escapeXPath (snd attr) +:+ "]"))
      (Dom.attributes e).

(** The loop of [findUniqueContainers] over the values of [current],
    from the parent. *)
Fixpoint containersLoop (currents : list Dom.Element) (containers : list Dom.Element)
  : list Dom.Element :=
  match currents with
  | [] => containers
  | current :: rest =>
      if ElementAnalyzer.isBody documentBody current then containers
      else
        let containers :=
          if hasUniqueIdentifier (Dom.self current) then containers ++ [current]
          else containers in
        let containers :=
          if isSemanticContainer (Dom.self current) then containers ++ [current]
          else containers in
        containersLoop rest containers
  end.

(** [findUniqueContainers(element)] *)
Definition findUniqueContainers (element : Dom.Element) : list Dom.Element :=
  containersLoop (List.tl (Dom.chain element)) [].

(** [hasUniqueContainer(element)] *)
Definition hasUniqueContainer (element : Dom.Element) : bool :=
  (0 <? List.length (findUniqueContainers element))%nat.

(** [getContainerXPath(container)]; [None] is [null]. *)
Definition getContainerXPath (e : Dom.ElementData) : option string :=
  let tagName := Js.toLowerCase (Dom.tagName e) in
  match Utils.getValidId (Dom.id e) with
  | Some validId => Some ("//*[@id=" +:+ Utils.escapeXPath validId +:+ "]")
  | None =>
      match List.find selectsOne
              (List.map
                 (fun cls =>
                    "//" +:+ tagName +:+ "[contains(@class, " +:+ Utils.escapeXPath cls +:+ ")]")
                 (classNamesOf e)) with
      | Some xpath => Some xpath
      | None =>
          List.find selectsOne
            (List.flat_map
               (fun attr =>
                  if Utils.includesString (fst attr) ["style"; "class"; "id"] then []
                  else ["//" +:+ tagName +:+ "[@" +:+ fst attr +:+ "="
                          +:+ Utils.escapeXPath (snd attr) +:+ "]"])
               (Dom.attributes e))
      end
  end.

(** The four expressions tried inside one container. *)
Definition scopedPaths (containerXPath tagName escapedText : string) : list string :=
  [containerXPath +:+ "//" +:+ tagName +:+ "[text()=" +:+ escapedText +:+ "]";
   containerXPath +:+ "//*[text()=" +:+ escapedText +:+ "]";
   containerXPath +:+ "//" +:+ tagName +:+ "[contains(text(), " +:+ escapedText +:+ ")]";
   containerXPath +:+ "//*[contains(text(), " +:+ escapedText +:+ ")]"].

(** [isApplicable(element, context)] *)
Definition isApplicable (element : Dom.Element) (context : Context) : bool :=
  (0 <? String.length (Utils.getVisibleText (Some element)))%nat
  && hasUniqueContainer element.

(** [generate(element, context)] *)
Definition generate (element : Dom.Element) (context : Context) : option string :=
  let text := Js.trim (Utils.getVisibleText (Some element)) in
  if negb (Js.truthy text) then None
  else
    let escapedText := Utils.escapeXPath text in
    let tagName := Js.toLowerCase (Dom.tagName (Dom.self element)) in
    let containers := findUniqueContainers element in
    firstValid evaluate
      (List.flat_map
         (fun container =>
            match getContainerXPath (Dom.self container) with
            | Some containerXPath =>
                if Js.truthy containerXPath
                then scopedPaths containerXPath tagName escapedText
                else []
            | None => []
            end)
         containers)
      element.

(** [getScore(element, context)] *)
Definition getScore (element : Dom.Element) (context : Context) : Z :=
  let score := priorityValue in
  let containers := findUniqueContainers element in
  if (0 <? List.length containers)%nat
  then
    let score := score + Z.of_nat (List.length containers) * 10 in
    if List.existsb (fun c => Js.truthy (Dom.id (Dom.self c))) containers
    then score + 20
    else score
  else score.

(** [new ContainerContextStrategy()] *)
Definition containerContextStrategy : Strategy Context := {|
  BaseStrategy.name := "container-context";
  BaseStrategy.priority := priorityValue;
  BaseStrategy.isApplicable := fun element context => Ret (isApplicable element context);
  BaseStrategy.generate := fun element context => Ret (generate element context);
  BaseStrategy.getScore := fun element context => Ret (getScore element context)
|}.

End Host.

End ContainerContextStrategy.

(** ** SVGStrategy (svg-strategy.js) *)

Module SVGStrategy.

Import BaseStrategy ElementAnalyzer.

(** The answer of [findParentWithLabel]. *)
Record Label : Type := {
  labelElement : Dom.Element;
  labelAttribute : string;
  labelValue : string
}.

(** The body of the loop of [findParentWithLabel] for one ancestor. *)
Definition labelOf (current : Dom.Element) : option Label :=
  let attrs := Dom.attributes (Dom.self current) in
  let labelled (name : string) : option Label :=
    match Dom.getAttribute name attrs with
    | Some v =>
        if Js.truthy v && Js.truthy (Js.trim v)
        then Some {| labelElement := current; labelAttribute := name;
                     labelValue := Js.trim v |}
        else None
    | None => None
    end in
  match labelled "aria-label" with
  | Some label => Some label
  | None =>
      match labelled "title" with
      | Some label => Some label
      | None =>
          match List.find
                  (fun attr =>
                     Js.startsWith "data-" (fst attr)
                     && (Js.includesSubstring "label" (fst attr)
                         || Js.includesSubstring "title" (fst attr)
                         || Js.includesSubstring "tooltip" (fst attr))
                     && Js.truthy (Js.trim (snd attr)))
                  attrs with
          | Some attr =>
              Some {| labelElement := current; labelAttribute := fst attr;
                      labelValue := Js.trim (snd attr) |}
          | None => None
          end
      end
  end.

(** The loop of [findParentWithLabel] over the values of [current]. *)
Fixpoint labelLoop (currents : list Dom.Element) : option Label :=
  match currents with
  | [] => None
  | current :: rest =>
      match labelOf current with
      | Some label => Some label
      | None => labelLoop rest
      end
  end.

(** [findParentWithLabel(svgElement)]: at most three levels up. *)
Definition findParentWithLabel (svgElement : Dom.Element) : option Label :=
  labelLoop (List.firstn 3 (List.tl (Dom.chain svgElement))).

(** [generatePositionalXPath(svgElement)] *)
Definition generatePositionalXPath (svgElement : Dom.Element) : string :=
  "//svg[" +:+ pretty (Utils.getElementIndex svgElement) +:+ "]".

Section Host.

Variable Context : Type.
Variable evaluate : string -> comp (list Dom.NodeId).

(** What the strategy reads of the context: [analysis.basic.isSVG],
    false when there is no analysis, and [analysis.basic?.svgInfo]. *)
Variable isSVG : Context -> bool.
Variable svgInfoOf : Context -> option SvgInfo.

Definition priorityValue : Z := 85.

(** [isApplicable(element, context)] *)
Definition isApplicable (element : Dom.Element) (context : Context) : bool :=
  isSVG context.

(** The expressions [generate] collects, in order. *)
Definition candidatePaths (svgInfo : SvgInfo) : list string :=
  let svgElement := svgElement svgInfo in
  let byAriaLabel :=
    if hasAriaLabel svgInfo && Js.truthy (ariaLabelText svgInfo)
    then
      let escapedLabel := Utils.escapeXPath (ariaLabelText svgInfo) in
      ["//svg[@aria-label=" +:+ escapedLabel +:+ "]";
       "//*[name()='svg'][@aria-label=" +:+ escapedLabel +:+ "]"]
    else [] in
  let byTitle :=
    if hasTitle svgInfo && Js.truthy (titleText svgInfo)
    then
      let escapedTitle := Utils.escapeXPath (titleText svgInfo) in
      ["//svg[title[text()=" +:+ escapedTitle +:+ "]]";
       "//*[name()='svg'][*[name()='title'][text()=" +:+ escapedTitle +:+ "]]"]
    else [] in
  let byDesc :=
    if hasDesc svgInfo && Js.truthy (descText svgInfo)
    then
      let escapedDesc := Utils.escapeXPath (descText svgInfo) in
      ["//svg[desc[text()=" +:+ escapedDesc +:+ "]]";
       "//*[name()='svg'][*[name()='desc'][text()=" +:+ escapedDesc +:+ "]]"]
    else [] in
  let byParent :=
    match findParentWithLabel svgElement with
    | Some parentWithLabel =>
        let escapedValue := Utils.escapeXPath (labelValue parentWithLabel) in
        let parentTag :=
          Js.toLowerCase (Dom.tagName (Dom.self (labelElement parentWithLabel))) in
        ["//" +:+ parentTag +:+ "[@" +:+ labelAttribute parentWithLabel +:+ "="
           +:+ escapedValue +:+ "]//svg";
         "//" +:+ parentTag +:+ "[@" +:+ labelAttribute parentWithLabel +:+ "="
           +:+ escapedValue +:+ "]//*[name()='svg']"]
    | None => []
    end in
  let byClass :=
    match Dom.className (Dom.self svgElement) with
    | Dom.ClassAnimated baseVal =>
        if Js.truthy baseVal
        then
          List.flat_map
            (fun cls =>
               ["//svg[contains(@class, '" +:+ cls +:+ "')]";
                "//*[name()='svg'][contains(@class, '" +:+ cls +:+ "')]"])
            (List.firstn 2 (Utils.getFilteredClassesOfString baseVal))
        else []
    | Dom.ClassString _ => []
    end in
  let byViewBox :=
    match viewBox svgInfo with
    | Some box =>
        if Js.truthy box
        then ["//svg[@viewBox='" +:+ box +:+ "']";
              "//*[name()='svg'][@viewBox='" +:+ box +:+ "']"]
        else []
    | None => []
    end in
  let byPaths :=
    if 0 <? pathCount svgInfo
    then ["//svg[count(.//path)=" +:+ pretty (pathCount svgInfo) +:+ "]";
          "//*[name()='svg'][count(.//*[name()='path'])=" +:+ pretty (pathCount svgInfo)
            +:+ "]"]
    else [] in
  let byUse :=
    if 0 <? useElements svgInfo
    then
      match Dom.querySelector "use" svgElement with
      | Some useElement =>
          match Dom.getAttribute "href" (Dom.attributes (fst useElement)) with
          | Some href =>
              if Js.truthy href
              then ["//svg[.//use[@href='" +:+ href +:+ "']]";
                    "//*[name()='svg'][.//*[name()='use'][@href='" +:+ href +:+ "']]"]
              else []
          | None => []
          end
      | None => []
      end
    else [] in
  byAriaLabel ++ byTitle ++ byDesc ++ byParent ++ byClass ++ byViewBox ++ byPaths ++ byUse.

(** [generate(element, context)]: the expressions are tested against
    the image, and the positional expression is answered untested. *)
Definition generate (element : Dom.Element) (context : Context) : option string :=
  match svgInfoOf context with
  | None => None
  | Some svgInfo =>
      match firstValid evaluate (candidatePaths svgInfo) (svgElement svgInfo) with
      | Some xpath => Some xpath
      | None => Some (generatePositionalXPath (svgElement svgInfo))
      end
  end.

(** [getScore(element, context)] *)
Definition getScore (element : Dom.Element) (context : Context) : Z :=
  let score := priorityValue in
  match svgInfoOf context with
  | None => 0
  | Some svgInfo =>
      let score := if hasAriaLabel svgInfo then score + 40 else score in
      let score := if hasTitle svgInfo then score + 30 else score in
      let score := if hasDesc svgInfo then score + 25 else score in
      let score :=
        match findParentWithLabel (svgElement svgInfo) with
        | Some _ => score + 20
        | None => score
        end in
      let score :=
        match viewBox svgInfo with
        | Some box => if Js.truthy box then score + 15 else score
        | None => score
        end in
      match Dom.className (Dom.self (svgElement svgInfo)) with
      | Dom.ClassAnimated baseVal => if Js.truthy baseVal then score + 10 else score
      | Dom.ClassString _ => score
      end
  end.

(** [new SVGStrategy()] *)
Definition svgStrategy : Strategy Context := {|
  BaseStrategy.name := "svg";
  BaseStrategy.priority := priorityValue;
  BaseStrategy.isApplicable := fun element context => Ret (isApplicable element context);
  BaseStrategy.generate := fun element context => Ret (generate element context);
  BaseStrategy.getScore := fun element context => Ret (getScore element context)
|}.

End Host.

End SVGStrategy.

(** ** AnchorStrategy (anchor-strategy.js): the anchors and the
    expressions built on them *)

Module AnchorStrategy.

Import BaseStrategy.

Inductive Relationship : Type :=
| PrecedingSibling
| FollowingSibling
| Ancestor
| Descendant.

Inductive AnchorType : Type := SiblingAnchor | ParentAnchor | ChildAnchor.

(** An entry of [anchors]. *)
Record Anchor : Type := {
  element : Dom.Element;
  relationship : Relationship;
  distance : Z;
  score : Z;
  type : AnchorType
}.

(** The answer of [evaluateElementUniqueness]. *)
Record Uniqueness : Type := {
  uniquenessScore : Z;
  reasons : list string
}.

Section Host.

Variable Context : Type.
Variable evaluate : string -> comp (list Dom.NodeId).
Variable documentBody : option Dom.NodeId.

Definition priorityValue : Z := 95.

(** [isUniqueXPath(xpath)] *)
Definition isUniqueXPath (xpath : string) : bool :=
  tryCatch
    (result <- evaluate xpath ;; Ret (Z.of_nat (List.length result) =? 1))
    (fun _ => false).

(** The class names the class loop of [evaluateElementUniqueness] runs
    over. *)
Definition classNamesOf (e : Dom.ElementData) : list string :=
  match Dom.className e with
  | Dom.ClassString className =>
      if Js.truthy className
      then Utils.getFilteredClassesOfArray (List.filter Js.truthy (Js.splitSpaces className))
      else []
  | Dom.ClassAnimated _ => []
  end.

(** [evaluateElementUniqueness(element)] *)
Definition evaluateElementUniqueness (el : Dom.Element) : Uniqueness :=
  let e := Dom.self el in
  let byId :=
    match Utils.getValidId (Dom.id e) with
    | Some validId =>
        if isUniqueXPath ("//*[@id=" +:+ Utils.escapeXPath validId +:+ "]")
        then Some "unique-id" else None
    | None => None
    end in
  let text := Utils.getVisibleText (Some el) in
  let byText :=
    if Js.truthy text && (0 <? String.length text)%nat && (String.length text <=? 30)%nat
    then
      if isUniqueXPath ("//*[text()=" +:+ Utils.escapeXPath text +:+ "]")
      then Some "unique-text" else None
    else None in
  let byAttribute :=
    List.find
      (fun attr =>
         if Utils.includesString (fst attr) ["style"; "class"] then false
         else isUniqueXPath
                ("//*[@" +:+ fst attr +:+ "=" +:+ Utils.escapeXPath (snd attr) +:+ "]"))
      (Dom.attributes e) in
  let byClass :=
    List.find
      (fun cls => isUniqueXPath ("//*[contains(@class, " +:+ Utils.escapeXPath cls +:+ ")]"))
      (classNamesOf e) in
  {| uniquenessScore :=
       (match byId with Some _ => 50 | None => 0 end)
       + (match byText with Some _ => 40 | None => 0 end)
       + (match byAttribute with Some _ => 30 | None => 0 end)
       + (match byClass with Some _ => 25 | None => 0 end);
     reasons :=
       (match byId with Some reason => [reason] | None => [] end)
       ++ (match byText with Some reason => [reason] | None => [] end)
       ++ (match byAttribute with Some attr => ["unique-" +:+ fst attr] | None => [] end)
       ++ (match byClass with Some _ => ["unique-class"] | None => [] end) |}.

(** The loop of [findSiblingAnchors] from index [i]. *)
Fixpoint siblingLoop (target : Dom.Element) (elementIndex : Z) (i : Z)
    (siblings : list Dom.Element) : list Anchor :=
  match siblings with
  | [] => []
  | sibling :: rest =>
      if Dom.sameNode (Dom.nodeId sibling) (Dom.nodeId target)
      then siblingLoop target elementIndex (i + 1) rest
      else
        let uniqueness := evaluateElementUniqueness sibling in
        if 0 <? uniquenessScore uniqueness
        then
          {| element := sibling;
             relationship := if i <? elementIndex then PrecedingSibling else FollowingSibling;
             distance := Z.abs (i - elementIndex);
             score := uniquenessScore uniqueness;
             type := SiblingAnchor |}
          :: siblingLoop target elementIndex (i + 1) rest
        else siblingLoop target elementIndex (i + 1) rest
  end.

(** [findSiblingAnchors(element)] *)
Definition findSiblingAnchors (target : Dom.Element) : list Anchor :=
  match Dom.parentElement target with
  | None => []
  | Some parent =>
      let siblings := Dom.children parent in
      siblingLoop target (Dom.indexOfElement target siblings) 0 siblings
  end.

(** The loop of [findParentAnchors] over the values of [current], at
    level [level]; [levels] is what is left of the three levels. *)
Fixpoint parentLoop (levels : nat) (level : Z) (currents : list Dom.Element) : list Anchor :=
  match levels, currents with
  | S levels', current :: rest =>
      if ElementAnalyzer.isBody documentBody current then []
      else
        let uniqueness := evaluateElementUniqueness current in
        if 0 <? uniquenessScore uniqueness
        then
          {| element := current;
             relationship := Ancestor;
             distance := level;
             score := uniquenessScore uniqueness - level * 5;
             type := ParentAnchor |}
          :: parentLoop levels' (level + 1) rest
        else parentLoop levels' (level + 1) rest
  | _, _ => []
  end.

(** [findParentAnchors(element)] *)
Definition findParentAnchors (target : Dom.Element) : list Anchor :=
  parentLoop 3 1 (List.tl (Dom.chain target)).

(** [findChildAnchors(element)] *)
Definition findChildAnchors (target : Dom.Element) : list Anchor :=
  List.flat_map
    (fun child =>
       let uniqueness := evaluateElementUniqueness child in
       if 0 <? uniquenessScore uniqueness
       then [{| element := child;
                relationship := Descendant;
                distance := 1;
                score := uniquenessScore uniqueness - 10;
                type := ChildAnchor |}]
       else [])
    (Dom.children target).

(** [findAnchorElements(element)] *)
Definition findAnchorElements (target : Dom.Element) : list Anchor :=
  JsArray.sort (fun a b => score b - score a)
    (findSiblingAnchors target ++ findParentAnchors target ++ findChildAnchors target).

(** [getAnchorXPath(anchor)]; [None] is [null]. *)
Definition getAnchorXPath (anchor : Dom.Element) : option string :=
  let e := Dom.self anchor in
  let tagName := Js.toLowerCase (Dom.tagName e) in
  match Utils.getValidId (Dom.id e) with
  | Some validId => Some ("//*[@id=" +:+ Utils.escapeXPath validId +:+ "]")
  | None =>
      let text := Utils.getVisibleText (Some anchor) in
      let byText :=
        if Js.truthy text && (0 <? String.length text)%nat && (String.length text <=? 30)%nat
        then
          let xpath := "//" +:+ tagName +:+ "[text()=" +:+ Utils.escapeXPath text +:+ "]" in
          if isUniqueXPath xpath then Some xpath else None
        else None in
      match byText with
      | Some xpath => Some xpath
      | None =>
          List.find isUniqueXPath
            (List.flat_map
               (fun attr =>
                  if Utils.includesString (fst attr) ["style"; "class"] then []
                  else ["//" +:+ tagName +:+ "[@" +:+ fst attr +:+ "="
                          +:+ Utils.escapeXPath (snd attr) +:+ "]"])
               (Dom.attributes e))
      end
  end.

(** [generateAnchorBasedPaths(anchorXPath, relationship, tagName, element)] *)
Definition generateAnchorBasedPaths (anchorXPath : string) (relationship : Relationship)
    (tagName : string) (target : Dom.Element) : list string :=
  let paths :=
    match relationship with
    | PrecedingSibling =>
        [anchorXPath +:+ "/following-sibling::" +:+ tagName;
         anchorXPath +:+ "/following-sibling::*[self::" +:+ tagName +:+ "]"]
    | FollowingSibling =>
        [anchorXPath +:+ "/preceding-sibling::" +:+ tagName;
         anchorXPath +:+ "/preceding-sibling::*[self::" +:+ tagName +:+ "]"]
    | Ancestor =>
        [anchorXPath +:+ "//" +:+ tagName;
         anchorXPath +:+ "/descendant::" +:+ tagName]
    | Descendant =>
        [anchorXPath +:+ "/parent::*//" +:+ tagName;
         anchorXPath +:+ "/..//" +:+ tagName]
    end in
  let text := Utils.getVisibleText (Some target) in
  if Js.truthy text
  then
    let escapedText := Utils.escapeXPath text in
    paths ++ List.map (fun path => path +:+ "[text()=" +:+ escapedText +:+ "]") paths
  else paths.

(** [isApplicable(element, context)] *)
Definition isApplicable (target : Dom.Element) (context : Context) : bool :=
  (0 <? List.length (findAnchorElements target))%nat.

(** [generate(element, context)] *)
Definition generate (target : Dom.Element) (context : Context) : option string :=
  let anchors := findAnchorElements target in
  let tagName := Js.toLowerCase (Dom.tagName (Dom.self target)) in
  firstValid evaluate
    (List.flat_map
       (fun anchor =>
          match getAnchorXPath (element anchor) with
          | Some anchorXPath =>
              if Js.truthy anchorXPath
              then generateAnchorBasedPaths anchorXPath (relationship anchor) tagName target
              else []
          | None => []
          end)
       anchors)
    target.

End Host.

End AnchorStrategy.

(** * Vocabulary of the properties *)

Module RegexSpec.

Import Regex.

(** The strings a regular expression denotes, with or without the flag
    [i]. *)
Inductive accepts (ignoreCase : bool) : regex -> string -> Prop :=
| AcceptsEps : accepts ignoreCase Eps EmptyString
| AcceptsClass (p : ascii -> bool) (c : ascii) :
    classTest ignoreCase p c = true ->
    accepts ignoreCase (Class p) (String c EmptyString)
| AcceptsCat (r1 r2 : regex) (s1 s2 : string) :
    accepts ignoreCase r1 s1 -> accepts ignoreCase r2 s2 ->
    accepts ignoreCase (Cat r1 r2) (s1 +:+ s2)
| AcceptsOrLeft (r1 r2 : regex) (s : string) :
    accepts ignoreCase r1 s -> accepts ignoreCase (Or r1 r2) s
| AcceptsOrRight (r1 r2 : regex) (s : string) :
    accepts ignoreCase r2 s -> accepts ignoreCase (Or r1 r2) s
| AcceptsStarEmpty (r : regex) : accepts ignoreCase (Star r) EmptyString
| AcceptsStarMore (r : regex) (s1 s2 : string) :
    accepts ignoreCase r s1 -> accepts ignoreCase (Star r) s2 ->
    accepts ignoreCase (Star r) (s1 +:+ s2).

End RegexSpec.

Module SortSpec.

Section ByKey.

Variable A : Type.
Variable key : A -> Z.

(** The comparator [(a, b) => key(b) - key(a)]. *)
Definition descending (a b : A) : Z := key b - key a.

Definition keyGe (a b : A) : Prop := key a >= key b.

(** The elements of key [v], in the order of the list. *)
Definition withKey (v : Z) (l : list A) : list A :=
  List.filter (fun a => key a =? v) l.

End ByKey.

Arguments descending {A} key a b.
Arguments keyGe {A} key a b.
Arguments withKey {A} key v l.

End SortSpec.

Module ManagerSpec.

Import BaseStrategy StrategyManager.

(** The tokens of the class attribute of an element. *)
Definition classTokens (e : Dom.ElementData) : list string :=
  match Dom.getAttribute "class" (Dom.attributes e) with
  | Some v => Js.splitSpaces v
  | None => []
  end.

(** The candidates a ranked result shows. *)
Definition shown {Context : Type} (rr : RankedResult Context) : list Candidate :=
  match primary rr with
  | Some c => c :: alternatives rr
  | None => alternatives rr
  end.

Section Host.

Variable Context : Type.

(** What one strategy contributes to [results]: its candidate, or
    nothing when it declines, answers nothing or raises. *)
Definition pushedBy (hasRandom : bool) (element : Dom.Element) (ctx : Context)
    (s : Strategy Context) : list Candidate :=
  match tryStrategy Context hasRandom element ctx s with
  | Ret (Some c) => [c]
  | Ret None => []
  | Throw _ => []
  end.

(** The candidates of a registry, in registry order. *)
Definition candidatesOf (hasRandom : bool) (element : Dom.Element) (ctx : Context)
    (strategies : list (Strategy Context)) : list Candidate :=
  List.flat_map (pushedBy hasRandom element ctx) strategies.

(** The strategy gives a candidate: it is applicable, it answers the
    non-empty expression [x], and it scores [raw]. *)
Definition gives (element : Dom.Element) (ctx : Context) (s : Strategy Context)
    (x : string) (raw : Z) : Prop :=
  isApplicable s element ctx = Ret true
  /\ generate s element ctx = Ret (Some x)
  /\ Js.truthy x = true
  /\ getScore s element ctx = Ret raw.

(** The entry of [results] for a strategy that gave [x] and [raw]: an
    attribute candidate loses 50 when the element has a random class. *)
Definition candidate (hasRandom : bool) (s : Strategy Context) (x : string) (raw : Z)
  : Candidate :=
  {| strategy := name s;
     xpath := x;
     score := if hasRandom && String.eqb (name s) "attribute" then raw - 50 else raw;
     priority := BaseStrategy.priority s |}.

(** One of the three methods of the strategy raises when the manager
    calls it. *)
Definition raises (element : Dom.Element) (ctx : Context) (s : Strategy Context) : Prop :=
  (exists m, isApplicable s element ctx = Throw m)
  \/ (isApplicable s element ctx = Ret true /\ exists m, generate s element ctx = Throw m)
  \/ (isApplicable s element ctx = Ret true
      /\ (exists x, generate s element ctx = Ret (Some x) /\ Js.truthy x = true)
      /\ exists m, getScore s element ctx = Throw m).

End Host.

Arguments pushedBy {Context} hasRandom element ctx s.
Arguments candidatesOf {Context} hasRandom element ctx strategies.
Arguments raises {Context} element ctx s.
Arguments gives {Context} element ctx s x raw.
Arguments candidate {Context} hasRandom s x raw.

End ManagerSpec.

Module TextSpec.

(** The query [detectDuplicateText] evaluates for a text. *)
Definition duplicateQuery (text : string) : string :=
  "//*[text()=" +:+ Utils.escapeXPath text
  +:+ " or contains(text(), " +:+ Utils.escapeXPath text +:+ ")]".

(** The expressions [generate] tries for an element without duplicates
    of its text, in the order it tries them. *)
Definition textPaths (element : Dom.Element) : list string :=
  let text := Js.trim (Utils.getVisibleText (Some element)) in
  let tagName := Js.toLowerCase (Dom.tagName (Dom.self element)) in
  let escapedText := Utils.escapeXPath text in
  (if TextStrategy.isButtonLikeElement element
   then TextStrategy.buttonLikePaths escapedText
   else [])
  ++ TextStrategy.buttonTextPaths element text escapedText tagName
  ++ TextStrategy.standardTextPaths text escapedText tagName.

(** What [detectDuplicateText] answers from its [catch]. *)
Definition noDuplicates : TextStrategy.DuplicateInfo :=
  {| TextStrategy.hasDuplicates := false;
     TextStrategy.count := 1;
     TextStrategy.elements := [];
     TextStrategy.targetIndex := 0 |}.

End TextSpec.

Module VisibleTextSpec.

(** The content of the text nodes among the child nodes, in order:
    nothing of a child element or of a comment. *)
Fixpoint directTexts (nodes : list Dom.Node) : list string :=
  match nodes with
  | [] => []
  | Dom.TextNode t :: rest => t :: directTexts rest
  | _ :: rest => directTexts rest
  end.

(** A string that does not start with white space. *)
Definition startsClean (s : string) : Prop :=
  match s with
  | EmptyString => True
  | String c _ => Js.isSpace c = false
  end.

(** After the words of the specification: computed-invisible is display
    none, visibility hidden, zero opacity or a zero bounding box. *)
Definition computedInvisible (e : Dom.ElementData) : bool :=
  String.eqb (Dom.display (Dom.computedStyle e)) "none"
  || String.eqb (Dom.visibility (Dom.computedStyle e)) "hidden"
  || String.eqb (Dom.opacity (Dom.computedStyle e)) "0"
  || ((Dom.offsetWidth e =? 0) && (Dom.offsetHeight e =? 0)).

(** After the words of the specification: the trimmed concatenation of
    the direct text nodes, empty for a computed-invisible node. *)
Definition claimedVisibleText (el : Dom.Element) : string :=
  if computedInvisible (Dom.self el) then ""
  else Js.trim (String.concat "" (directTexts (Dom.childNodes el))).

End VisibleTextSpec.

Module FallbackSpec.

(** [tag[index]] for one level. *)
Definition indexSegment (current : Dom.Element) : string :=
  Js.toLowerCase (Dom.tagName (Dom.self current))
  +:+ "[" +:+ pretty (Utils.getElementIndex current) +:+ "]".

(** [//tag[@id='...']] for the level the path is anchored at. *)
Definition idSegment (current : Dom.Element) : string :=
  "//" +:+ Js.toLowerCase (Dom.tagName (Dom.self current))
  +:+ "[@id='" +:+ Dom.id (Dom.self current) +:+ "']".

(** A level the walk passes with an index segment: not the body, and
    without a non-empty id. *)
Definition passes (documentBody : option Dom.NodeId) (current : Dom.Element) : bool :=
  negb (ElementAnalyzer.isBody documentBody current)
  && negb (Js.truthy (Dom.id (Dom.self current))).

Fixpoint takeWhile {T : Type} (p : T -> bool) (l : list T) : list T :=
  match l with
  | [] => []
  | x :: rest => if p x then x :: takeWhile p rest else []
  end.

Fixpoint dropWhile {T : Type} (p : T -> bool) (l : list T) : list T :=
  match l with
  | [] => []
  | x :: rest => if p x then dropWhile p rest else l
  end.

(** The segments of the fallback path over a run of levels, outermost
    first: the id segment of the level the walk stops at, when that level
    is not the body, then the index segments of the levels passed. *)
Definition segmentsOver (documentBody : option Dom.NodeId) (currents : list Dom.Element)
  : list string :=
  let anchor :=
    match dropWhile (passes documentBody) currents with
    | stop :: _ => if ElementAnalyzer.isBody documentBody stop then [] else [idSegment stop]
    | [] => []
    end in
  anchor ++ List.rev (List.map indexSegment (takeWhile (passes documentBody) currents)).

Definition segments (documentBody : option Dom.NodeId) (element : Dom.Element) : list string :=
  segmentsOver documentBody (Dom.chain element).

(** The number of element siblings of the same tag name before the
    element. *)
Definition sameTagBefore (el : Dom.Element) : nat :=
  match Dom.above el with
  | [] => 0
  | f :: _ =>
      List.length
        (List.filter (fun e => String.eqb (Dom.tagName e) (Dom.tagName (Dom.self el)))
                     (Dom.elementsOf (Dom.before f)))
  end.

End FallbackSpec.

Module GeneratorSpec.

Import XPathGenerator.

(** The argument the guard of [generateXPath] turns away: a falsy value
    or a falsy tag name. *)
Definition invalidTarget (target : option Dom.Element) : Prop :=
  match target with
  | None => True
  | Some el => Js.truthy (Dom.tagName (Dom.self el)) = false
  end.

Section Results.

Variable Context : Type.
Variable Analysis : Type.

(** The state after one more reading of the clock. *)
Definition tick (st : State Context Analysis) : State Context Analysis :=
  {| cache := cache st; readings := S (readings st) |}.

(** Every stored entry is the result of a successful ranking. *)
Definition cacheSound (st : State Context Analysis) : Prop :=
  forall key entry,
    cache st !! key = Some entry ->
    success (data entry) = true /\ error (data entry) = None.

(** The candidate of the fallback for an expression. *)
Definition fallbackCandidate (expression : string) : StrategyManager.Candidate :=
  {| StrategyManager.strategy := "fallback";
     StrategyManager.xpath := expression;
     StrategyManager.score := 1;
     StrategyManager.priority := 0 |}.

(** The result of the fallback for an element, its analysis, an
    expression and the time read. *)
Definition fallbackResult (el : Dom.Element) (a : Analysis) (expression : string) (now : Z)
  : GenerationResult Context Analysis :=
  {| success := true;
     error := None;
     primary := Some (fallbackCandidate expression);
     alternatives := [];
     context := None;
     element := Some (summarize el);
     analysis := Some a;
     timestamp := now |}.

Definition emptyState : State Context Analysis :=
  {| cache := ∅; readings := 0 |}.

(** The result of a successful ranking, enhanced with the element, its
    analysis and the time read. *)
Definition enhancedResult (el : Dom.Element) (a : Analysis)
    (rr : StrategyManager.RankedResult Context) (now : Z)
  : GenerationResult Context Analysis :=
  {| success := StrategyManager.success rr;
     error := None;
     primary := StrategyManager.primary rr;
     alternatives := StrategyManager.alternatives rr;
     context := Some (StrategyManager.context rr);
     element := Some (summarize el);
     analysis := Some a;
     timestamp := now |}.

End Results.

Arguments tick {Context Analysis} st.
Arguments cacheSound {Context Analysis} st.
Arguments fallbackResult {Context Analysis} el a expression now.
Arguments emptyState {Context Analysis}.
Arguments enhancedResult {Context Analysis} el a rr now.

End GeneratorSpec.

(** * Documents used as examples *)

Module Fixtures.

Definition visible : Dom.ComputedStyle :=
  {| Dom.display := "block"; Dom.visibility := "visible"; Dom.opacity := "1" |}.

(** An HTML element with a box of 10 by 10. *)
Definition htmlElement (tagName : string) (attributes : list (string * string))
  : Dom.ElementData :=
  {| Dom.tagName := tagName;
     Dom.attributes := attributes;
     Dom.computedStyle := visible;
     Dom.offsetWidth := 10;
     Dom.offsetHeight := 10;
     Dom.isSVGElement := false;
     Dom.typeProp := "";
     Dom.nameProp := "";
     Dom.hrefProp := "" |}.

(** The frame of [<html>] around [<body>]: [<head>] comes first. *)
Definition htmlFrame : Dom.Frame :=
  {| Dom.parentData := htmlElement "HTML" [];
     Dom.before := [Dom.ElementNode (htmlElement "HEAD" []) []];
     Dom.after := [] |}.

(** The frame of [<body>] around one of its children. *)
Definition bodyFrame (before after : list Dom.Node) : Dom.Frame :=
  {| Dom.parentData := htmlElement "BODY" []; Dom.before := before; Dom.after := after |}.

(** [document.body] in these documents: the second child of the root. *)
Definition documentBody : option Dom.NodeId := Some [1%nat].

(** An oracle given by the expressions it resolves to a non-empty set;
    every other expression selects nothing. *)
Fixpoint oracle (table : list (string * list Dom.NodeId)) (xpath : string)
  : comp (list Dom.NodeId) :=
  match table with
  | [] => Ret []
  | (x, nodes) :: rest => if String.eqb x xpath then Ret nodes else oracle rest xpath
  end.

(** [<body><a class="nav-link link-a1b2c3" name="home" href="/">Home</a></body>]:
    the link, whose second class token has a machine-generated shape. *)
Definition homeLink : Dom.Element :=
  {| Dom.self :=
       {| Dom.tagName := "A";
          Dom.attributes := [("class", "nav-link link-a1b2c3"); ("name", "home"); ("href", "/")];
          Dom.computedStyle := visible;
          Dom.offsetWidth := 10;
          Dom.offsetHeight := 10;
          Dom.isSVGElement := false;
          Dom.typeProp := "";
          Dom.nameProp := "home";
          Dom.hrefProp := "https://example.org/" |};
     Dom.childNodes := [Dom.TextNode "Home"];
     Dom.above := [bodyFrame [] []; htmlFrame] |}.

(** The expressions evaluated on that document that select the link. *)
Definition homeOracle : string -> comp (list Dom.NodeId) :=
  oracle [("//*[text()='Home' or contains(text(), 'Home')]", [[0%nat; 1%nat]]);
          ("//a[text()='Home']", [[0%nat; 1%nat]]);
          ("//*[@name='home']", [[0%nat; 1%nat]])].

(** The text strategy on a document whose oracle is [evaluate]. *)
Definition textStrategy (evaluate : string -> comp (list Dom.NodeId))
  : BaseStrategy.Strategy unit :=
  TextStrategy.textStrategy unit evaluate.

Definition attributeStrategy (evaluate : string -> comp (list Dom.NodeId))
  : BaseStrategy.Strategy unit :=
  AttributeStrategy.attributeStrategy unit evaluate.

(** A strategy that inherits the methods of [BaseStrategy] unchanged. *)
Definition unfinishedStrategy : BaseStrategy.Strategy unit :=
  BaseStrategy.abstractStrategy unit "unfinished" 95.

Definition noContext (element : Dom.Element) (options : unit) : unit := tt.

(** What the manager answers for the link with the text strategy, an
    unfinished strategy and the attribute strategy in the registry. *)
Definition homeRanked : StrategyManager.RankedResult unit :=
  {| StrategyManager.success := true;
     StrategyManager.primary :=
       Some {| StrategyManager.strategy := "text";
               StrategyManager.xpath := "//a[text()='Home']";
               StrategyManager.score := 390;
               StrategyManager.priority := 110 |};
     StrategyManager.alternatives :=
       [{| StrategyManager.strategy := "attribute";
           StrategyManager.xpath := "//*[@name='home']";
           StrategyManager.score := 90;
           StrategyManager.priority := 100 |}];
     StrategyManager.context := tt |}.

(** [<body><div><span>Active</span><span>Active</span><span>Active</span></div></body>]:
    the first and the second of three sibling [span]s of the same text. *)
Definition activeSpan : Dom.Node :=
  Dom.ElementNode (htmlElement "SPAN" []) [Dom.TextNode "Active"].

Definition firstActive : Dom.Element :=
  {| Dom.self := htmlElement "SPAN" [];
     Dom.childNodes := [Dom.TextNode "Active"];
     Dom.above :=
       [{| Dom.parentData := htmlElement "DIV" [];
           Dom.before := [];
           Dom.after := [activeSpan; activeSpan] |};
        bodyFrame [] [];
        htmlFrame] |}.

Definition secondActive : Dom.Element :=
  {| Dom.self := htmlElement "SPAN" [];
     Dom.childNodes := [Dom.TextNode "Active"];
     Dom.above :=
       [{| Dom.parentData := htmlElement "DIV" [];
           Dom.before := [activeSpan];
           Dom.after := [activeSpan] |};
        bodyFrame [] [];
        htmlFrame] |}.

Definition activeSpans : list Dom.NodeId :=
  [[0%nat; 0%nat; 1%nat]; [1%nat; 0%nat; 1%nat]; [2%nat; 0%nat; 1%nat]].

(** The expressions evaluated on that document that select something:
    each of them selects the three [span]s, in document order. *)
Definition activeOracle : string -> comp (list Dom.NodeId) :=
  oracle [("//*[text()='Active' or contains(text(), 'Active')]", activeSpans);
          ("//span[text()='Active']", activeSpans);
          ("//span[contains(text(), 'Active')]", activeSpans);
          ("//span[normalize-space(text())='Active']", activeSpans);
          ("//*[text()='Active']", activeSpans);
          ("//*[contains(text(), 'Active')]", activeSpans)].

(** [<body><form><input name="q"><input name="q"></form></body>]: the
    first of two inputs of one name. *)
Definition searchInput : Dom.ElementData :=
  {| Dom.tagName := "INPUT";
     Dom.attributes := [("name", "q")];
     Dom.computedStyle := visible;
     Dom.offsetWidth := 10;
     Dom.offsetHeight := 10;
     Dom.isSVGElement := false;
     Dom.typeProp := "text";
     Dom.nameProp := "q";
     Dom.hrefProp := "" |}.

Definition firstInput : Dom.Element :=
  {| Dom.self := searchInput;
     Dom.childNodes := [];
     Dom.above :=
       [{| Dom.parentData := htmlElement "FORM" [];
           Dom.before := [];
           Dom.after := [Dom.ElementNode searchInput []] |};
        bodyFrame [] [];
        htmlFrame] |}.

(** Both inputs carry the name: an expression on the name selects the
    two of them, in document order. *)
Definition bothInputs : list Dom.NodeId :=
  [[0%nat; 0%nat; 1%nat]; [1%nat; 0%nat; 1%nat]].

Definition searchOracle : string -> comp (list Dom.NodeId) :=
  oracle [("//*[@name='q']", bothInputs); ("//input[@name='q']", bothInputs)].

(** [<span>Hi</span>] laid out with an empty box, its style visible. *)
Definition zeroBoxSpan : Dom.Element :=
  {| Dom.self :=
       {| Dom.tagName := "SPAN";
          Dom.attributes := [];
          Dom.computedStyle := visible;
          Dom.offsetWidth := 0;
          Dom.offsetHeight := 0;
          Dom.isSVGElement := false;
          Dom.typeProp := "";
          Dom.nameProp := "";
          Dom.hrefProp := "" |};
     Dom.childNodes := [Dom.TextNode "Hi"];
     Dom.above := [bodyFrame [] []; htmlFrame] |}.

(** [<p>first<br>second</p>]: two text nodes around an element. *)
Definition twoLines : Dom.Element :=
  {| Dom.self := htmlElement "P" [];
     Dom.childNodes :=
       [Dom.TextNode "first"; Dom.ElementNode (htmlElement "BR" []) [];
        Dom.TextNode "second"];
     Dom.above := [bodyFrame [] []; htmlFrame] |}.

(** [<body><section id="main">
      <div id="react-app"><span></span></div>
      <div id="react-app"><span></span></div>
    </section></body>]:
    the bare [span] of the second [div].  The id of the [div]s has a
    framework shape and occurs twice, the id of the [section] is plain and
    unique. *)
Definition reactDiv : Dom.Node :=
  Dom.ElementNode (htmlElement "DIV" [("id", "react-app")])
    [Dom.ElementNode (htmlElement "SPAN" []) []].

Definition bareSpan : Dom.Element :=
  {| Dom.self := htmlElement "SPAN" [];
     Dom.childNodes := [];
     Dom.above :=
       [{| Dom.parentData := htmlElement "DIV" [("id", "react-app")];
           Dom.before := [];
           Dom.after := [] |};
        {| Dom.parentData := htmlElement "SECTION" [("id", "main")];
           Dom.before := [reactDiv];
           Dom.after := [] |};
        bodyFrame [] [];
        htmlFrame] |}.

(** [<body><div><span></span></div><div><span></span></div></body>]:
    the [span] of the second [div], no attribute anywhere. *)
Definition plainDiv : Dom.Node :=
  Dom.ElementNode (htmlElement "DIV" []) [Dom.ElementNode (htmlElement "SPAN" []) []].

Definition plainSpan : Dom.Element :=
  {| Dom.self := htmlElement "SPAN" [];
     Dom.childNodes := [];
     Dom.above :=
       [{| Dom.parentData := htmlElement "DIV" [];
           Dom.before := [];
           Dom.after := [] |};
        bodyFrame [plainDiv] [];
        htmlFrame] |}.

(** An oracle that resolves every expression to the empty set. *)
Definition emptyOracle : string -> comp (list Dom.NodeId) := oracle [].

(** [<body><button><svg class="icon"></svg></button></body>]: an SVG
    element, whose [className] is an [SVGAnimatedString]. *)
Definition svgIcon : Dom.Element :=
  {| Dom.self :=
       {| Dom.tagName := "svg";
          Dom.attributes := [("class", "icon")];
          Dom.computedStyle := visible;
          Dom.offsetWidth := 10;
          Dom.offsetHeight := 10;
          Dom.isSVGElement := true;
          Dom.typeProp := "";
          Dom.nameProp := "";
          Dom.hrefProp := "" |};
     Dom.childNodes := [];
     Dom.above :=
       [{| Dom.parentData := htmlElement "BUTTON" [];
           Dom.before := [];
           Dom.after := [] |};
        bodyFrame [] [];
        htmlFrame] |}.

(** A strategy that always answers one expression with one score. *)
Definition constantStrategy (name expression : string) (value : Z)
  : BaseStrategy.Strategy unit :=
  {| BaseStrategy.name := name;
     BaseStrategy.priority := value;
     BaseStrategy.isApplicable := fun _ _ => Ret true;
     BaseStrategy.generate := fun _ _ => Ret (Some expression);
     BaseStrategy.getScore := fun _ _ => Ret value |}.

(** A generator on these documents: no options, an analysis that
    succeeds with nothing to report, and a clock that starts at 1000 and
    advances by one at every reading. *)
Definition generator (strategies : list (BaseStrategy.Strategy unit)) :=
  XPathGenerator.generateXPath unit unit unit (fun _ _ => tt) documentBody
    (fun _ => Ret tt) strategies (fun n => 1000 + Z.of_nat n).

(** What the manager answers when no strategy gives a candidate. *)
Definition nothingRanked : StrategyManager.RankedResult unit :=
  {| StrategyManager.success := false;
     StrategyManager.primary := None;
     StrategyManager.alternatives := [];
     StrategyManager.context := tt |}.

(** The seven strategies of [initializeStrategies] by name and
    priority, with the methods of the base class. *)
Definition descriptor (name : string) (priority : Z) : BaseStrategy.Strategy unit :=
  BaseStrategy.abstractStrategy unit name priority.

Definition defaultRegistry : list (BaseStrategy.Strategy unit) :=
  StrategyManager.initializeStrategies unit
    (descriptor "text" 110) (descriptor "attribute" 100) (descriptor "anchor" 95)
    (descriptor "container-context" 90) (descriptor "shadow-dom" 90)
    (descriptor "svg" 85) (descriptor "relative" 60).

(** [<body><p></p><input type="text" name="q" class="foo bar"></body>] *)
Definition classyInput : Dom.Element :=
  {| Dom.self := htmlElement "INPUT" [("type", "text"); ("name", "q"); ("class", "foo bar")];
     Dom.childNodes := [];
     Dom.above := [bodyFrame [Dom.ElementNode (htmlElement "P" []) []] []; htmlFrame] |}.

End Fixtures.

(** * Vocabulary of the further properties *)

Module XPathSyntax.

(** The string expressions of XPath 1.0 that the helpers build: a literal
    between single or between double quotes, which holds no quote of its
    own kind and no escape, and [concat(...)] of two or more literals. *)

Definition apostrophe : ascii := "'"%char.
Definition quotationMark : ascii := ascii_of_nat 34.

Definition isQuote (c : ascii) : bool :=
  Ascii.eqb c apostrophe || Ascii.eqb c quotationMark.

(** The white space of an expression: space, tab, carriage return and
    line feed. *)
Definition isWhitespace (c : ascii) : bool :=
  let n := nat_of_ascii c in
  (n =? 32)%nat || (n =? 9)%nat || (n =? 13)%nat || (n =? 10)%nat.

(** The text up to the closing quote, and what follows the quote. *)
Fixpoint readLiteral (quote : ascii) (s : string) : option (string * string) :=
  match s with
  | EmptyString => None
  | String c rest =>
      if Ascii.eqb c quote then Some (EmptyString, rest)
      else match readLiteral quote rest with
           | Some (value, after) => Some (String c value, after)
           | None => None
           end
  end.

Inductive Mode : Type :=
| BeforeArgument
| InsideLiteral (quote : ascii)
| AfterArgument.

(** The arguments of a call, read from behind the opening parenthesis to
    the closing one, which ends the expression.  Inside a literal the
    characters go to the argument being read, the first of the answer. *)
Fixpoint arguments (mode : Mode) (s : string) : option (list string) :=
  match s with
  | EmptyString => None
  | String c rest =>
      match mode with
      | BeforeArgument =>
          if isWhitespace c then arguments BeforeArgument rest
          else if isQuote c then arguments (InsideLiteral c) rest
          else None
      | InsideLiteral quote =>
          if Ascii.eqb c quote
          then option_map (cons EmptyString) (arguments AfterArgument rest)
          else match arguments (InsideLiteral quote) rest with
               | Some (value :: others) => Some (String c value :: others)
               | _ => None
               end
      | AfterArgument =>
          if isWhitespace c then arguments AfterArgument rest
          else if Ascii.eqb c ","%char then arguments BeforeArgument rest
          else if Ascii.eqb c ")"%char
          then match rest with EmptyString => Some [] | _ => None end
          else None
      end
  end.

(** What is left of [s] behind the prefix [p]. *)
Fixpoint afterPrefix (p s : string) : option string :=
  match p, s with
  | EmptyString, _ => Some s
  | String a p', String b s' => if Ascii.eqb a b then afterPrefix p' s' else None
  | _, EmptyString => None
  end.

(** The string an expression denotes; [None] for an expression of
    neither form. *)
Definition stringValue (expression : string) : option string :=
  match expression with
  | EmptyString => None
  | String c rest =>
      if isQuote c
      then match readLiteral c rest with
           | Some (value, EmptyString) => Some value
           | _ => None
           end
      else match afterPrefix "concat(" expression with
           | Some rest' =>
               match arguments BeforeArgument rest' with
               | Some (first :: second :: others) =>
                   Some (String.concat "" (first :: second :: others))
               | _ => None
               end
           | None => None
           end
  end.

(** The pieces of a text split at the apostrophes, as the arguments of
    the [concat] call built for them: an apostrophe between each two. *)
Fixpoint interleave (parts : list string) : list string :=
  match parts with
  | [] => []
  | [p] => [p]
  | p :: rest => p :: "'" :: interleave rest
  end.

(** A piece between apostrophes, and what [join] puts between two. *)
Definition wrap (part : string) : string := "'" +:+ part +:+ "'".

Definition separator : string := ", " +:+ Js.dquote +:+ "'" +:+ Js.dquote +:+ " , ".

End XPathSyntax.

Module NameSpec.

(** Every character of a string has a property. *)
Fixpoint everyChar (p : ascii -> bool) (s : string) : bool :=
  match s with
  | EmptyString => true
  | String c rest => p c && everyChar p rest
  end.

Definition isDigit (c : ascii) : bool :=
  (48 <=? nat_of_ascii c)%nat && (nat_of_ascii c <=? 57)%nat.

(** An ASCII letter of either case, or a digit. *)
Definition isAlphanumeric (c : ascii) : bool :=
  Js.isLower c || Js.isUpper c || isDigit c.

(** A string without white space. *)
Definition spaceFree (s : string) : Prop :=
  everyChar (fun c => negb (Js.isSpace c)) s = true.

End NameSpec.

Module Base36Spec.

(** The value of a digit of base 36: [0] to [9], then [a] to [z]. *)
Definition digitValue (c : ascii) : option Z :=
  let n := Z.of_nat (nat_of_ascii c) in
  if (48 <=? n) && (n <=? 57) then Some (n - 48)
  else if (97 <=? n) && (n <=? 122) then Some (n - 87)
  else None.

(** The number a string of digits denotes, read after the value [acc]. *)
Fixpoint digitsValue (s : string) (acc : Z) : option Z :=
  match s with
  | EmptyString => Some acc
  | String c rest =>
      match digitValue c with
      | Some d => digitsValue rest (36 * acc + d)
      | None => None
      end
  end.

(** [parseInt(s, 36)] for a string of digits with an optional sign. *)
Definition parse36 (s : string) : option Z :=
  match s with
  | EmptyString => None
  | String c digits =>
      if Ascii.eqb c "-"
      then match digits with
           | EmptyString => None
           | _ => option_map Z.opp (digitsValue digits 0)
           end
      else digitsValue s 0
  end.

End Base36Spec.

Module CacheKeySpec.

(** [after a b]: the default comparator of [sort()] asks for [b] before
    [a]. *)
Definition after (a b : string) : bool := 0 <? ElementAnalyzer.compareStrings a b.

(** The element with other child nodes: what a change of its text or of
    its descendants makes of it. *)
Definition withChildNodes (el : Dom.Element) (childNodes : list Dom.Node) : Dom.Element :=
  {| Dom.self := Dom.self el; Dom.childNodes := childNodes; Dom.above := Dom.above el |}.

End CacheKeySpec.

(** * Properties *)

(** ** The matcher accepts what the expression denotes *)

Module RegexFacts.

Import Regex RegexSpec.

Section Matcher.

Variable ignoreCase : bool.

Lemma append_cons (c : ascii) (s1 s2 : string) :
  String c s1 +:+ s2 = String c (s1 +:+ s2).
Proof. reflexivity. Qed.

Lemma append_empty_l (s : string) : EmptyString +:+ s = s.
Proof. reflexivity. Qed.

Lemma append_is_empty (s1 s2 : string) :
  s1 +:+ s2 = EmptyString -> s1 = EmptyString /\ s2 = EmptyString.
Proof.
  destruct s1 as [|c s1].
  - rewrite append_empty_l. intros H. split; [reflexivity | exact H].
  - rewrite append_cons. discriminate.
Qed.

Lemma nullable_accepts (r : regex) :
  nullable r = true <-> accepts ignoreCase r EmptyString.
Proof.
  induction r as [| |p|a IHa b IHb|a IHa b IHb|a IHa]; simpl.
  - split; [discriminate | intros H; inversion H].
  - split; [intros _; constructor | reflexivity].
  - split; [discriminate | intros H; inversion H].
  - rewrite andb_true_iff, IHa, IHb. split.
    + intros [H1 H2]. apply (AcceptsCat ignoreCase a b EmptyString EmptyString H1 H2).
    + intros H. inversion H as [| |r1 r2 s1 s2 H1 H2 Hr Hs| | | |]. subst.
      destruct (append_is_empty _ _ Hs) as [E1 E2]. subst. split; assumption.
  - rewrite orb_true_iff, IHa, IHb. split.
    + intros [H|H]; [apply AcceptsOrLeft | apply AcceptsOrRight]; exact H.
    + intros H. inversion H; subst; [left | right]; assumption.
  - split; [intros _; constructor | reflexivity].
Qed.

Lemma cat_accepts (a b : regex) (s : string) :
  accepts ignoreCase (cat a b) s <-> accepts ignoreCase (Cat a b) s.
Proof.
  assert (HvoidL : forall r, accepts ignoreCase (Cat Void r) s -> False).
  { intros r H. inversion H as [| |r1 r2 s1 s2 H1 H2| | | |]. inversion H1. }
  assert (HvoidR : forall r, accepts ignoreCase (Cat r Void) s -> False).
  { intros r H. inversion H as [| |r1 r2 s1 s2 H1 H2| | | |]. inversion H2. }
  assert (Heps : forall r, accepts ignoreCase r s <-> accepts ignoreCase (Cat Eps r) s).
  { intros r. split.
    - intros H. apply (AcceptsCat ignoreCase Eps r EmptyString s); [constructor | exact H].
    - intros H. inversion H as [| |r1 r2 s1 s2 H1 H2| | | |]. subst.
      inversion H1. subst. exact H2. }
  destruct a; destruct b; simpl;
    first [ reflexivity
          | apply Heps
          | split; [intros H; inversion H
                   | intros H; exfalso;
                     first [apply (HvoidL _ H) | apply (HvoidR _ H)]] ].
Qed.

Lemma or_accepts (a b : regex) (s : string) :
  accepts ignoreCase (or a b) s <-> accepts ignoreCase (Or a b) s.
Proof.
  assert (HL : forall r, accepts ignoreCase r s <-> accepts ignoreCase (Or Void r) s).
  { intros r. split; [apply AcceptsOrRight|].
    intros H. inversion H as [| | |r1 r2 s0 H1|r1 r2 s0 H1| |]; subst;
      [inversion H1 | exact H1]. }
  assert (HR : forall r, accepts ignoreCase r s <-> accepts ignoreCase (Or r Void) s).
  { intros r. split; [apply AcceptsOrLeft|].
    intros H. inversion H as [| | |r1 r2 s0 H1|r1 r2 s0 H1| |]; subst;
      [exact H1 | inversion H1]. }
  destruct a; destruct b; simpl; first [reflexivity | apply HL | apply HR].
Qed.

(** A non-empty string of a star starts with a non-empty string of the
    body. *)
Lemma star_nonempty (a : regex) (c : ascii) (s : string) :
  accepts ignoreCase (Star a) (String c s) ->
  exists s1 s2,
    s = s1 +:+ s2 /\ accepts ignoreCase a (String c s1) /\ accepts ignoreCase (Star a) s2.
Proof.
  intros H. remember (Star a) as r eqn:Hr. remember (String c s) as w eqn:Hw.
  revert c s Hw.
  induction H as [| | | | | r0 | r0 s1 s2 H1 _ H2 IH2]; try congruence;
    intros c0 s0 Hw; try discriminate.
  injection Hr as Hr. subst r0. rename c0 into c, s0 into s.
  destruct s1 as [|d s1].
  - rewrite append_empty_l in Hw. apply (IH2 eq_refl c s Hw).
  - rewrite append_cons in Hw. injection Hw as Hd Hs. subst d s.
    exists s1, s2. repeat split; assumption.
Qed.

Lemma deriv_accepts (r : regex) (c : ascii) (s : string) :
  accepts ignoreCase (deriv ignoreCase c r) s <-> accepts ignoreCase r (String c s).
Proof.
  revert s. induction r as [| |p|a IHa b IHb|a IHa b IHb|a IHa]; intros s; simpl.
  - split; intros H; inversion H.
  - split; intros H; inversion H.
  - destruct (classTest ignoreCase p c) eqn:Hp.
    + split.
      * intros H. inversion H. subst. constructor. exact Hp.
      * intros H. inversion H. subst. constructor.
    + split; [intros H; inversion H|].
      intros H. inversion H. subst. congruence.
  - assert (Hfirst : accepts ignoreCase (cat (deriv ignoreCase c a) b) s <->
                     exists s1 s2, s = s1 +:+ s2
                                   /\ accepts ignoreCase a (String c s1)
                                   /\ accepts ignoreCase b s2).
    { rewrite cat_accepts. split.
      - intros H. inversion H as [| |r1 r2 s1 s2 H1 H2| | | |]. subst.
        exists s1, s2. rewrite <- IHa. repeat split; assumption.
      - intros [s1 [s2 [Hs [H1 H2]]]]. subst. constructor; [apply IHa; exact H1 | exact H2]. }
    assert (Hsplit : accepts ignoreCase (Cat a b) (String c s) <->
                     (exists s1 s2, s = s1 +:+ s2
                                    /\ accepts ignoreCase a (String c s1)
                                    /\ accepts ignoreCase b s2)
                     \/ (accepts ignoreCase a EmptyString
                         /\ accepts ignoreCase b (String c s))).
    { split.
      - intros H. inversion H as [| |r1 r2 s1 s2 H1 H2 Hr Hw| | | |]. subst.
        destruct s1 as [|d s1].
        + rewrite append_empty_l in Hw. subst s2. right. split; assumption.
        + rewrite append_cons in Hw. injection Hw as Hd Hw. subst.
          left. exists s1, s2. repeat split; assumption.
      - intros [[s1 [s2 [Hs [H1 H2]]]] | [H1 H2]].
        + subst. apply (AcceptsCat ignoreCase a b (String c s1) s2 H1 H2).
        + apply (AcceptsCat ignoreCase a b EmptyString (String c s) H1 H2). }
    rewrite Hsplit. destruct (nullable a) eqn:Hn.
    + rewrite or_accepts. split.
      * intros H. inversion H; subst.
        -- left. apply Hfirst. assumption.
        -- right. split; [apply nullable_accepts; exact Hn | apply IHb; assumption].
      * intros [H | [_ H]].
        -- apply AcceptsOrLeft. apply Hfirst. exact H.
        -- apply AcceptsOrRight. apply IHb. exact H.
    + rewrite Hfirst. split; [intros H; left; exact H|].
      intros [H | [H _]]; [exact H|].
      apply nullable_accepts in H. congruence.
  - rewrite or_accepts. split.
    + intros H. inversion H; subst;
        [apply AcceptsOrLeft, IHa | apply AcceptsOrRight, IHb]; assumption.
    + intros H. inversion H; subst;
        [apply AcceptsOrLeft, IHa | apply AcceptsOrRight, IHb]; assumption.
  - rewrite cat_accepts. split.
    + intros H. inversion H as [| |r1 r2 s1 s2 H1 H2| | | |]. subst.
      apply (AcceptsStarMore ignoreCase a (String c s1) s2); [apply IHa; exact H1 | exact H2].
    + intros H. destruct (star_nonempty a c s H) as [s1 [s2 [Hs [H1 H2]]]]. subst.
      constructor; [apply IHa; exact H1 | exact H2].
Qed.

(** The matcher decides the denotation. *)
Theorem matches_accepts (r : regex) (s : string) :
  matches ignoreCase r s = true <-> accepts ignoreCase r s.
Proof.
  revert r. induction s as [|c s IH]; intros r; simpl.
  - apply nullable_accepts.
  - rewrite IH. apply deriv_accepts.
Qed.

End Matcher.

End RegexFacts.

(** ** Sorting by a key, largest first *)

Module SortFacts.

Import SortSpec.

Section ByKey.

Variable A : Type.
Variable key : A -> Z.

Lemma insert_permutation (x : A) (l : list A) :
  Permutation (JsArray.insert (descending key) x l) (x :: l).
Proof.
  induction l as [|y l IH]; simpl.
  - apply Permutation_refl.
  - destruct (0 <? descending key x y).
    + eapply Permutation_trans; [apply perm_skip, IH | apply perm_swap].
    + apply Permutation_refl.
Qed.

Lemma sort_permutation (l : list A) : Permutation (JsArray.sort (descending key) l) l.
Proof.
  induction l as [|x l IH]; simpl.
  - apply Permutation_refl.
  - eapply Permutation_trans; [apply insert_permutation | apply perm_skip, IH].
Qed.

Lemma insert_Forall (P : A -> Prop) (x : A) (l : list A) :
  P x -> Forall P l -> Forall P (JsArray.insert (descending key) x l).
Proof.
  intros Hx Hl. induction Hl as [|y l Hy Hl IH]; simpl.
  - constructor; [exact Hx | constructor].
  - destruct (0 <? descending key x y).
    + constructor; assumption.
    + repeat constructor; assumption.
Qed.

Lemma insert_sorted (x : A) (l : list A) :
  StronglySorted (keyGe key) l ->
  StronglySorted (keyGe key) (JsArray.insert (descending key) x l).
Proof.
  intros Hs. induction Hs as [|y l Hs IH Hy]; simpl.
  - constructor; constructor.
  - destruct (0 <? descending key x y) eqn:Hc.
    + constructor; [exact IH|].
      apply insert_Forall; [|exact Hy].
      apply Z.ltb_lt in Hc. unfold descending in Hc. unfold keyGe. lia.
    + apply Z.ltb_ge in Hc. unfold descending in Hc.
      constructor; [constructor; assumption|].
      constructor; [unfold keyGe; lia|].
      eapply List.Forall_impl; [|exact Hy].
      intros z Hz. unfold keyGe in *. lia.
Qed.

Lemma sort_sorted (l : list A) :
  StronglySorted (keyGe key) (JsArray.sort (descending key) l).
Proof.
  induction l as [|x l IH]; simpl.
  - constructor.
  - apply insert_sorted, IH.
Qed.

(** Stability: the elements of one key keep their order. *)
Lemma insert_stable (v : Z) (x : A) (l : list A) :
  withKey key v (JsArray.insert (descending key) x l) = withKey key v (x :: l).
Proof.
  unfold withKey. induction l as [|y l IH]; simpl.
  - reflexivity.
  - destruct (0 <? descending key x y) eqn:Hc; [|reflexivity].
    apply Z.ltb_lt in Hc. unfold descending in Hc.
    simpl. rewrite IH. simpl.
    destruct (key y =? v) eqn:Hy; destruct (key x =? v) eqn:Hx; try reflexivity.
    apply Z.eqb_eq in Hy. apply Z.eqb_eq in Hx. lia.
Qed.

Lemma sort_stable (v : Z) (l : list A) :
  withKey key v (JsArray.sort (descending key) l) = withKey key v l.
Proof.
  induction l as [|x l IH]; simpl.
  - reflexivity.
  - rewrite insert_stable. unfold withKey in *. simpl. rewrite IH. reflexivity.
Qed.

Lemma sort_length (l : list A) :
  List.length (JsArray.sort (descending key) l) = List.length l.
Proof. apply Permutation_length, sort_permutation. Qed.

(** A list that is already in order is left as it is. *)
Lemma insert_head (x : A) (l : list A) :
  Forall (keyGe key x) l -> JsArray.insert (descending key) x l = x :: l.
Proof.
  intros H. destruct H as [|y l Hy Hl]; simpl; [reflexivity|].
  destruct (0 <? descending key x y) eqn:Hc; [|reflexivity].
  apply Z.ltb_lt in Hc. unfold descending in Hc. unfold keyGe in Hy. lia.
Qed.

Lemma sort_sorted_id (l : list A) :
  StronglySorted (keyGe key) l -> JsArray.sort (descending key) l = l.
Proof.
  intros Hs. induction Hs as [|x l Hs IH Hx]; simpl; [reflexivity|].
  rewrite IH. apply insert_head, Hx.
Qed.

(** The order is the only stable one: a sorted rearrangement that keeps
    the elements of every key in their order is the result of [sort]. *)
Lemma stable_sorted_unique (l1 l2 : list A) :
  StronglySorted (keyGe key) l1 -> StronglySorted (keyGe key) l2 ->
  (forall v, withKey key v l1 = withKey key v l2) ->
  l1 = l2.
Proof.
  intros H1. revert l2. induction H1 as [|x l1 H1 IH Hx]; intros l2 H2 Hk.
  - destruct l2 as [|y l2]; [reflexivity|].
    specialize (Hk (key y)). unfold withKey in Hk. simpl in Hk.
    rewrite Z.eqb_refl in Hk. discriminate.
  - destruct H2 as [|y l2 H2 Hy].
    + specialize (Hk (key x)). unfold withKey in Hk. simpl in Hk.
      rewrite Z.eqb_refl in Hk. discriminate.
    + assert (Hxy : key x = key y).
      { pose proof (Hk (key x)) as Kx. pose proof (Hk (key y)) as Ky.
        unfold withKey in Kx, Ky. simpl in Kx, Ky.
        rewrite Z.eqb_refl in Kx, Ky.
        destruct (key y =? key x) eqn:E; [apply Z.eqb_eq in E; lia|].
        destruct (key x =? key y) eqn:E'; [apply Z.eqb_eq in E'; lia|].
        assert (In x (List.filter (fun a => key a =? key x) l2)) as Hin
          by (rewrite <- Kx; left; reflexivity).
        apply filter_In in Hin. destruct Hin as [Hin _].
        assert (In y (List.filter (fun a => key a =? key y) l1)) as Hin'
          by (rewrite Ky; left; reflexivity).
        apply filter_In in Hin'. destruct Hin' as [Hin' _].
        rewrite List.Forall_forall in Hx, Hy.
        specialize (Hx _ Hin'). specialize (Hy _ Hin). unfold keyGe in *. lia. }
      pose proof (Hk (key x)) as Kx. unfold withKey in Kx. simpl in Kx.
      rewrite Z.eqb_refl in Kx. rewrite <- Hxy in Kx. rewrite Z.eqb_refl in Kx.
      injection Kx as Exy Kx. subst y. f_equal. apply IH; [exact H2|].
      intros v. specialize (Hk v). unfold withKey in *. simpl in Hk.
      destruct (key x =? v); [injection Hk as Hk|]; exact Hk.
Qed.

(** Hence [sort] is the stable sort: any sorted arrangement of the list
    that keeps the elements of every key in their order is its result. *)
Lemma sort_is_the_stable_order (l sorted : list A) :
  StronglySorted (keyGe key) sorted ->
  (forall v, withKey key v sorted = withKey key v l) ->
  sorted = JsArray.sort (descending key) l.
Proof.
  intros Hs Hk. apply stable_sorted_unique; [exact Hs | apply sort_sorted |].
  intros v. rewrite sort_stable. apply Hk.
Qed.

End ByKey.

End SortFacts.

(** ** The cache key *)

Module CacheKeyFacts.

Import ElementAnalyzer.

Lemma toInt32_range (z : Z) : - 2 ^ 31 <= toInt32 z < 2 ^ 31.
Proof.
  unfold toInt32.
  pose proof (Z.mod_pos_bound (z + 2 ^ 31) (2 ^ 32) ltac:(lia)) as H.
  change (2 ^ 32) with (2 * 2 ^ 31) in *. lia.
Qed.

Lemma toInt32_small (z : Z) : - 2 ^ 31 <= z < 2 ^ 31 -> toInt32 z = z.
Proof.
  intros H. unfold toInt32. rewrite Z.mod_small; [lia|].
  change (2 ^ 32) with (2 * 2 ^ 31). lia.
Qed.

Lemma toInt32_congruent (z : Z) : (toInt32 z + 2 ^ 31) mod 2 ^ 32 = (z + 2 ^ 31) mod 2 ^ 32.
Proof.
  unfold toInt32. replace ((z + 2 ^ 31) mod 2 ^ 32 - 2 ^ 31 + 2 ^ 31)
    with ((z + 2 ^ 31) mod 2 ^ 32) by lia.
  apply Z.mod_mod. lia.
Qed.

(** One step of the hash is [31 * hash + char] in 32 bits. *)
Lemma hash_step (hash char : Z) :
  toInt32 (toInt32 (Z.shiftl hash 5) - hash + char) = toInt32 (31 * hash + char).
Proof.
  unfold toInt32 at 1 3. f_equal.
  rewrite Z.shiftl_mul_pow2 by lia.
  replace (toInt32 (hash * 2 ^ 5) - hash + char + 2 ^ 31)
    with ((toInt32 (hash * 2 ^ 5) + 2 ^ 31) + (char - hash)) by lia.
  rewrite Z.add_mod by lia. rewrite toInt32_congruent. rewrite <- Z.add_mod by lia.
  f_equal. lia.
Qed.

Lemma hashLoop_range (attrs : string) (hash : Z) :
  - 2 ^ 31 <= hash < 2 ^ 31 -> - 2 ^ 31 <= hashLoop attrs hash < 2 ^ 31.
Proof.
  revert hash. induction attrs as [|c rest IH]; intros hash H; simpl; [exact H|].
  apply IH. apply toInt32_range.
Qed.

(** The steps allowed to [base36] suffice: more steps give the same
    digits. *)
Lemma base36_enough (k extra : nat) (n : Z) (acc : string) :
  0 <= n < 36 ^ Z.of_nat (S k) ->
  base36 (S k + extra) n acc = base36 (S k) n acc.
Proof.
  revert n acc. induction k as [|k IH]; intros n acc H.
  - simpl. assert (Hq : n / 36 = 0) by (apply Z.div_small; simpl in H; lia).
    rewrite Hq. reflexivity.
  - change (S (S k) + extra)%nat with (S (S k + extra)).
    cbn [base36]. destruct (n / 36 =? 0) eqn:Hq; [reflexivity|].
    apply IH. rewrite Nat2Z.inj_succ, Z.pow_succ_r in H by lia.
    split; [apply Z.div_pos; lia|].
    apply Z.div_lt_upper_bound; lia.
Qed.

(** Seven steps suffice for the hash. *)
Lemma toString36_steps (attrs : string) (extra : nat) :
  let hash := hashLoop attrs 0 in
  base36 (7 + extra) (Z.abs hash) EmptyString = base36 7 (Z.abs hash) EmptyString.
Proof.
  cbv zeta. apply (base36_enough 6 extra).
  pose proof (hashLoop_range attrs 0 ltac:(lia)) as H.
  change (36 ^ Z.of_nat 7) with 78364164096. change (2 ^ 31) with 2147483648 in H. lia.
Qed.

End CacheKeyFacts.

(** ** The helpers on examples *)

Module HelperExamples.

Import Fixtures.

Example trim_example : Js.trim "  a b  " = "a b".
Proof. reflexivity. Qed.

Example splitSpaces_example :
  Js.splitSpaces " btn  css-1a2b3c " = [""; "btn"; "css-1a2b3c"; ""].
Proof. reflexivity. Qed.

Example escapeXPath_plain : Utils.escapeXPath "Save" = "'Save'".
Proof. reflexivity. Qed.

Example escapeXPath_apostrophe :
  Utils.escapeXPath "it's" = Js.dquote +:+ "it's" +:+ Js.dquote.
Proof. reflexivity. Qed.

Example escapeXPath_both :
  Utils.escapeXPath ("say " +:+ Js.dquote +:+ "it's" +:+ Js.dquote)
  = "concat('say " +:+ Js.dquote +:+ "it', " +:+ Js.dquote +:+ "'" +:+ Js.dquote
    +:+ " , 's" +:+ Js.dquote +:+ "')".
Proof. reflexivity. Qed.

Example isValidId_examples :
  List.map Utils.isValidId ["main"; "main-nav"; "react-app"; "a1b2c3d4e5"; "x"; ""]
  = [true; true; false; false; false; false].
Proof. vm_compute. reflexivity. Qed.

Example isRandomClass_examples :
  List.map StrategyManager.isRandomClass ["btn"; "nav-link"; "link-a1b2c3"; "_1a2b3"; "__next-x1"]
  = [false; false; true; true; true].
Proof. vm_compute. reflexivity. Qed.

Example cache_key_example :
  ElementAnalyzer.generateCacheKey documentBody classyInput = "input[1]_-4euft1".
Proof. vm_compute. reflexivity. Qed.

Example toInt32_wraps : ElementAnalyzer.toInt32 (2 ^ 31) = - 2 ^ 31.
Proof. reflexivity. Qed.

(** The registry of the manager: descending priority, and of the two
    strategies of priority 90 the one registered first comes first. *)
Example default_registry_order :
  List.map (fun s => (BaseStrategy.name s, BaseStrategy.priority s)) defaultRegistry
  = [("text", 110); ("attribute", 100); ("anchor", 95); ("container-context", 90);
     ("shadow-dom", 90); ("svg", 85); ("relative", 60)].
Proof. vm_compute. reflexivity. Qed.

End HelperExamples.

(** ** The strategy manager *)

Module ManagerFacts.

Import BaseStrategy StrategyManager SortSpec ManagerSpec.

Section Host.

Variable Context : Type.
Variable Options : Type.
Variable buildContext : Dom.Element -> Options -> Context.

Lemma runStrategies_candidates (hasRandom : bool) (element : Dom.Element) (ctx : Context)
    (strategies : list (Strategy Context)) (results : list Candidate) :
  runStrategies Context hasRandom element ctx strategies results
  = results ++ candidatesOf hasRandom element ctx strategies.
Proof.
  revert results. induction strategies as [|s rest IH]; intros results; simpl.
  - rewrite app_nil_r. reflexivity.
  - rewrite IH. unfold pushedBy.
    destruct (tryStrategy Context hasRandom element ctx s) as [[c|]|m]; simpl.
    + rewrite <- app_assoc. reflexivity.
    + reflexivity.
    + reflexivity.
Qed.

Lemma candidatesOf_app (hasRandom : bool) (element : Dom.Element) (ctx : Context)
    (l1 l2 : list (Strategy Context)) :
  candidatesOf hasRandom element ctx (l1 ++ l2)
  = candidatesOf hasRandom element ctx l1 ++ candidatesOf hasRandom element ctx l2.
Proof. unfold candidatesOf. apply flat_map_app. Qed.

(** A strategy one of whose methods raises contributes nothing. *)
Lemma raises_pushes_nothing (hasRandom : bool) (element : Dom.Element) (ctx : Context)
    (s : Strategy Context) :
  raises element ctx s -> pushedBy hasRandom element ctx s = [].
Proof.
  unfold raises, pushedBy, tryStrategy.
  intros [[m Ha] | [[Ha [m Hg]] | [Ha [[x [Hg Hx]] [m Hs]]]]].
  - rewrite Ha. reflexivity.
  - rewrite Ha. simpl. rewrite Hg. reflexivity.
  - rewrite Ha. simpl. rewrite Hg. simpl. rewrite Hx. rewrite Hs. reflexivity.
Qed.

Lemma pushedBy_In (hasRandom : bool) (element : Dom.Element) (ctx : Context)
    (s : Strategy Context) (c : Candidate) :
  In c (pushedBy hasRandom element ctx s) <->
  tryStrategy Context hasRandom element ctx s = Ret (Some c).
Proof.
  unfold pushedBy.
  destruct (tryStrategy Context hasRandom element ctx s) as [[c'|]|m]; simpl.
  - split.
    + intros [H|[]]. subst. reflexivity.
    + intros H. injection H as H. left. exact H.
  - split; [intros [] | discriminate].
  - split; [intros [] | discriminate].
Qed.

(** What a pushed candidate holds. *)
Lemma tryStrategy_candidate (hasRandom : bool) (element : Dom.Element) (ctx : Context)
    (s : Strategy Context) (c : Candidate) :
  tryStrategy Context hasRandom element ctx s = Ret (Some c) ->
  exists raw,
    isApplicable s element ctx = Ret true
    /\ generate s element ctx = Ret (Some (xpath c))
    /\ Js.truthy (xpath c) = true
    /\ getScore s element ctx = Ret raw
    /\ strategy c = name s
    /\ StrategyManager.priority c = BaseStrategy.priority s
    /\ score c = (if hasRandom && String.eqb (name s) "attribute" then raw - 50 else raw).
Proof.
  unfold tryStrategy.
  destruct (isApplicable s element ctx) as [[|]|m]; simpl; try discriminate.
  destruct (generate s element ctx) as [[x|]|m]; simpl; try discriminate.
  destruct (Js.truthy x) eqn:Hx; try discriminate.
  destruct (getScore s element ctx) as [raw|m]; simpl; try discriminate.
  intros H. injection H as H. subst c. simpl.
  exists raw. repeat split; try reflexivity. exact Hx.
Qed.

Lemma shown_ranked (ctx : Context) (ranked : list Candidate) :
  shown {| success := (0 <? List.length ranked)%nat;
           primary := List.head ranked;
           alternatives := JsArray.slice 1 3 ranked;
           context := ctx |}
  = List.firstn 3 ranked.
Proof.
  unfold shown, JsArray.slice. simpl.
  destruct ranked as [|a [|b [|c l]]]; reflexivity.
Qed.

Lemma slice_tail (ranked : list Candidate) :
  JsArray.slice 1 3 ranked = List.firstn 2 (List.tl ranked).
Proof. unfold JsArray.slice. destruct ranked; reflexivity. Qed.

Lemma In_firstn {T : Type} (n : nat) (l : list T) (x : T) :
  In x (List.firstn n l) -> In x l.
Proof.
  revert l. induction n as [|n IH]; intros l; simpl; [intros []|].
  destruct l as [|y l]; simpl; [intros []|].
  intros [H|H]; [left; exact H | right; apply IH, H].
Qed.

(** The result of [generateXPath], spelled out. *)
Lemma generateXPath_ranked (strategies : list (Strategy Context)) (element : Dom.Element)
    (options : Options) (rr : RankedResult Context) :
  generateXPath Context Options buildContext strategies element options = Ret rr ->
  exists hasRandom,
    hasRandomClasses element = Ret hasRandom
    /\ rr = (let ranked :=
               JsArray.sort (descending score)
                 (candidatesOf hasRandom element (buildContext element options) strategies) in
             {| success := (0 <? List.length ranked)%nat;
                primary := List.head ranked;
                alternatives := JsArray.slice 1 3 ranked;
                context := buildContext element options |}).
Proof.
  unfold generateXPath.
  destruct (hasRandomClasses element) as [h|m]; simpl; [|discriminate].
  intros H. injection H as H. exists h. split; [reflexivity|].
  rewrite runStrategies_candidates in H. simpl in H. symmetry. exact H.
Qed.

(** A strategy that gives a candidate has it pushed. *)
Lemma gives_pushed (hasRandom : bool) (element : Dom.Element) (ctx : Context)
    (s : Strategy Context) (x : string) (raw : Z) :
  gives element ctx s x raw ->
  tryStrategy Context hasRandom element ctx s = Ret (Some (candidate hasRandom s x raw)).
Proof.
  intros [Ha [Hg [Hx Hs]]]. unfold tryStrategy.
  rewrite Ha. simpl. rewrite Hg. simpl. rewrite Hx, Hs. reflexivity.
Qed.

(** A pushed candidate was given by its strategy. *)
Lemma pushed_given (hasRandom : bool) (element : Dom.Element) (ctx : Context)
    (s : Strategy Context) (c : Candidate) :
  tryStrategy Context hasRandom element ctx s = Ret (Some c) ->
  exists x raw, gives element ctx s x raw /\ c = candidate hasRandom s x raw.
Proof.
  intros H. destruct (tryStrategy_candidate _ _ _ _ _ H)
    as [raw [Ha [Hg [Hx [Hs [Hn [Hp Hsc]]]]]]].
  exists (xpath c), raw. split; [repeat split; assumption|].
  destruct c as [n x sc p]. simpl in *. subst. reflexivity.
Qed.

(** In a list by descending score, an element is among the first [n] or
    is outranked by [n] others. *)
Lemma sorted_firstn_or_below (n : nat) (l : list Candidate) (c : Candidate) :
  StronglySorted (keyGe score) l ->
  In c l ->
  In c (List.firstn n l)
  \/ (List.length (List.firstn n l) = n
      /\ forall d, In d (List.firstn n l) -> score c <= score d).
Proof.
  revert l. induction n as [|n IH]; intros l Hs Hin.
  - right. split; [reflexivity | intros d []].
  - destruct l as [|y l]; [destruct Hin|].
    apply StronglySorted_inv in Hs. destruct Hs as [Hs Hy].
    destruct Hin as [Hin|Hin]; [left; left; exact Hin|].
    destruct (IH l Hs Hin) as [H|[Hlen Hall]].
    + left. right. exact H.
    + right. split; [simpl; rewrite Hlen; reflexivity|].
      intros d [Hd|Hd].
      * subst d. rewrite List.Forall_forall in Hy. specialize (Hy c Hin).
        unfold keyGe in Hy. lia.
      * apply Hall, Hd.
Qed.

(** C3.  Per-strategy error containment: a strategy whose
    [isApplicable], [generate] or [getScore] raises when the manager calls
    it is caught.  Generation with it in the registry answers what it
    answers without it, and answers whenever the check of the class names
    does.  The answer holds the candidates of the other strategies: for
    every other strategy that is applicable, answers an expression and
    scores, its candidate is shown, or three candidates of at least its
    score are; the primary scores at least as much; and every candidate
    shown is the candidate of one of the other strategies. *)
Theorem C3_strategy_failure_is_contained
    (before after : list (Strategy Context)) (failing : Strategy Context)
    (element : Dom.Element) (options : Options) :
  raises element (buildContext element options) failing ->
  generateXPath Context Options buildContext (before ++ failing :: after) element options
  = generateXPath Context Options buildContext (before ++ after) element options
  /\ (forall hasRandom,
        hasRandomClasses element = Ret hasRandom ->
        exists rr,
          generateXPath Context Options buildContext (before ++ failing :: after)
            element options = Ret rr
          /\ (forall other x raw,
                In other (before ++ after) ->
                gives element (buildContext element options) other x raw ->
                (In (candidate hasRandom other x raw) (shown rr)
                 \/ (List.length (shown rr) = 3%nat
                     /\ forall d, In d (shown rr) ->
                          score (candidate hasRandom other x raw) <= score d))
                /\ success rr = true
                /\ exists best,
                     primary rr = Some best
                     /\ score (candidate hasRandom other x raw) <= score best)
          /\ (forall d, In d (shown rr) ->
                exists other x raw,
                  In other (before ++ after)
                  /\ gives element (buildContext element options) other x raw
                  /\ d = candidate hasRandom other x raw)).
Proof.
  intros Hraise.
  assert (Hsame : forall hasRandom,
            candidatesOf hasRandom element (buildContext element options)
              (before ++ failing :: after)
            = candidatesOf hasRandom element (buildContext element options)
                (before ++ after)).
  { intros h. rewrite !candidatesOf_app. f_equal.
    unfold candidatesOf at 1. simpl.
    rewrite (raises_pushes_nothing h _ _ _ Hraise). reflexivity. }
  split.
  - unfold generateXPath.
    destruct (hasRandomClasses element) as [h|m]; simpl; [|reflexivity].
    rewrite !runStrategies_candidates. simpl. rewrite Hsame. reflexivity.
  - intros h Hh.
    set (ctx := buildContext element options) in *.
    set (ranked := JsArray.sort (descending score)
                     (candidatesOf h element ctx (before ++ after))).
    assert (Hsorted : StronglySorted (keyGe score) ranked)
      by apply SortFacts.sort_sorted.
    assert (Hperm : Permutation ranked (candidatesOf h element ctx (before ++ after)))
      by apply SortFacts.sort_permutation.
    exists {| success := (0 <? List.length ranked)%nat;
              primary := List.head ranked;
              alternatives := JsArray.slice 1 3 ranked;
              context := ctx |}.
    split.
    { unfold generateXPath. rewrite Hh. simpl.
      rewrite runStrategies_candidates. simpl. fold ctx. rewrite Hsame. reflexivity. }
    rewrite shown_ranked. split.
    + intros other x raw Hin Hgives.
      assert (Hc : In (candidate h other x raw) ranked).
      { apply (Permutation_in _ (Permutation_sym Hperm)).
        unfold candidatesOf. apply in_flat_map. exists other. split; [exact Hin|].
        apply pushedBy_In. apply gives_pushed. exact Hgives. }
      split; [apply sorted_firstn_or_below; assumption|].
      destruct ranked as [|best rest]; [destruct Hc|].
      split; [reflexivity|].
      exists best. split; [reflexivity|].
      apply StronglySorted_inv in Hsorted. destruct Hsorted as [_ Hbest].
      destruct Hc as [Hc|Hc]; [rewrite Hc; lia|].
      rewrite List.Forall_forall in Hbest. specialize (Hbest _ Hc).
      unfold keyGe in Hbest. lia.
    + intros d Hd. apply In_firstn in Hd.
      apply (Permutation_in _ Hperm) in Hd.
      unfold candidatesOf in Hd. apply in_flat_map in Hd.
      destruct Hd as [other [Hin Hpushed]]. apply pushedBy_In in Hpushed.
      destruct (pushed_given _ _ _ _ _ Hpushed) as [x [raw [Hgives Hd]]].
      exists other, x, raw. split; [exact Hin|]. split; assumption.
Qed.



Lemma withKey_app {T : Type} (key : T -> Z) (v : Z) (l1 l2 : list T) :
  withKey key v (l1 ++ l2) = withKey key v l1 ++ withKey key v l2.
Proof. unfold withKey. apply List.filter_app. Qed.

(** The registry after any sequence of registrations: the registered
    strategies, by descending priority, those of one priority in the order
    of their registration. *)
Lemma registry_order (registered : list (Strategy Context)) :
  let strategies := List.fold_left (registerStrategy Context) registered [] in
  Permutation strategies registered
  /\ StronglySorted (keyGe BaseStrategy.priority) strategies
  /\ forall p, withKey BaseStrategy.priority p strategies
               = withKey BaseStrategy.priority p registered.
Proof.
  induction registered as [|s registered IH] using rev_ind; simpl.
  - split; [apply Permutation_refl | split; [constructor | reflexivity]].
  - rewrite fold_left_app. simpl. destruct IH as [Hp [_ Hk]].
    unfold registerStrategy.
    change (fun a b : Strategy Context => BaseStrategy.priority b - BaseStrategy.priority a)
      with (descending (@BaseStrategy.priority Context)).
    split; [|split].
    + eapply Permutation_trans; [apply SortFacts.sort_permutation|].
      apply Permutation_app_tail. exact Hp.
    + apply SortFacts.sort_sorted.
    + intros p. rewrite SortFacts.sort_stable. rewrite !withKey_app. rewrite Hk.
      reflexivity.
Qed.

Lemma filter_split {T : Type} (f : T -> bool) (l l2 l3 : list T) (y : T) :
  List.filter f l = l2 ++ y :: l3 -> exists r2 r3, l = r2 ++ y :: r3.
Proof.
  intros H. apply in_split.
  assert (Hin : In y (List.filter f l)) by (rewrite H; apply in_elt).
  apply filter_In in Hin. apply Hin.
Qed.

(** Two elements in this order in a filtered list are in this order in
    the list. *)
Lemma filter_order {T : Type} (f : T -> bool) (l l1 l2 l3 : list T) (x y : T) :
  List.filter f l = l1 ++ x :: l2 ++ y :: l3 ->
  exists r1 r2 r3, l = r1 ++ x :: r2 ++ y :: r3.
Proof.
  revert l1. induction l as [|z l IH]; intros l1 H; simpl in H.
  - destruct l1; discriminate.
  - destruct (f z).
    + destruct l1 as [|w l1]; simpl in H; injection H as Hz H.
      * subst z. destruct (filter_split f l l2 l3 y H) as [r2 [r3 Hl]].
        exists [], r2, r3. simpl. rewrite Hl. reflexivity.
      * subst w. destruct (IH l1 H) as [r1 [r2 [r3 Hl]]].
        exists (z :: r1), r2, r3. simpl. rewrite Hl. reflexivity.
    + destruct (IH l1 H) as [r1 [r2 [r3 Hl]]].
      exists (z :: r1), r2, r3. simpl. rewrite Hl. reflexivity.
Qed.

(** C9.  Ranking and tie-break.  The registry built by any sequence of
    registrations holds the strategies by descending priority, equal
    priorities in registration order.  The manager's answer is read off
    the candidates sorted by descending score, equal scores in registry
    order: the primary is the first (none when there is no candidate),
    the alternatives are the next two, so at most two. *)
Theorem C9_ranking_and_tie_break
    (registered : list (Strategy Context)) (element : Dom.Element) (options : Options)
    (rr : RankedResult Context) :
  let strategies := List.fold_left (registerStrategy Context) registered [] in
  let ctx := buildContext element options in
  generateXPath Context Options buildContext strategies element options = Ret rr ->
  (Permutation strategies registered
   /\ StronglySorted (keyGe BaseStrategy.priority) strategies
   /\ forall p, withKey BaseStrategy.priority p strategies
                = withKey BaseStrategy.priority p registered)
  /\ exists hasRandom ranked,
       let produced := candidatesOf hasRandom element ctx strategies in
       Permutation ranked produced
       /\ StronglySorted (keyGe score) ranked
       /\ (forall v, withKey score v ranked = withKey score v produced)
       /\ (forall l1 s1 l2 s2 l3 c1 c2,
             strategies = l1 ++ s1 :: l2 ++ s2 :: l3 ->
             tryStrategy Context hasRandom element ctx s1 = Ret (Some c1) ->
             tryStrategy Context hasRandom element ctx s2 = Ret (Some c2) ->
             score c1 = score c2 ->
             exists r1 r2 r3, ranked = r1 ++ c1 :: r2 ++ c2 :: r3)
       /\ primary rr = List.head ranked
       /\ alternatives rr = List.firstn 2 (List.tl ranked)
       /\ (List.length (alternatives rr) <= 2)%nat
       /\ success rr = (0 <? List.length ranked)%nat.
Proof.
  intros strategies ctx Hgen.
  split; [apply registry_order|].
  destruct (generateXPath_ranked _ _ _ _ Hgen) as [h [_ Hrr]].
  exists h, (JsArray.sort (descending score) (candidatesOf h element ctx strategies)).
  cbv zeta in Hrr. cbv zeta.
  split; [apply SortFacts.sort_permutation|].
  split; [apply SortFacts.sort_sorted|].
  split; [intros v; apply SortFacts.sort_stable|].
  split.
  - intros l1 s1 l2 s2 l3 c1 c2 Hsplit H1 H2 Heq.
    pose proof (SortFacts.sort_stable _ score (score c1)
                  (candidatesOf h element ctx strategies)) as Hst.
    rewrite Hsplit in Hst at 2.
    rewrite candidatesOf_app in Hst.
    change (s1 :: l2 ++ s2 :: l3) with ([s1] ++ l2 ++ [s2] ++ l3) in Hst.
    rewrite !candidatesOf_app in Hst. rewrite !withKey_app in Hst.
    unfold candidatesOf at 3 5 in Hst. simpl in Hst.
    apply pushedBy_In in H1. apply pushedBy_In in H2.
    assert (E1 : pushedBy h element ctx s1 = [c1]).
    { unfold pushedBy in *.
      destruct (tryStrategy Context h element ctx s1) as [[c|]|m]; simpl in H1;
        try contradiction. destruct H1 as [H1|[]]. subst. reflexivity. }
    assert (E2 : pushedBy h element ctx s2 = [c2]).
    { unfold pushedBy in *.
      destruct (tryStrategy Context h element ctx s2) as [[c|]|m]; simpl in H2;
        try contradiction. destruct H2 as [H2|[]]. subst. reflexivity. }
    rewrite E1, E2 in Hst. unfold withKey at 3 5 in Hst. simpl in Hst.
    rewrite <- Heq in Hst. rewrite Z.eqb_refl in Hst. simpl in Hst.
    eapply filter_order. exact Hst.
  - subst rr. simpl. rewrite slice_tail.
    split; [reflexivity|]. split; [reflexivity|]. split; [|reflexivity].
    apply firstn_le_length.
Qed.

End Host.

End ManagerFacts.

Module ManagerExamples.

Import BaseStrategy StrategyManager SortSpec ManagerSpec Fixtures.

Example home_link_ranked :
  generateXPath unit unit noContext
    [textStrategy homeOracle; unfinishedStrategy; attributeStrategy homeOracle] homeLink tt
  = Ret homeRanked.
Proof. vm_compute. reflexivity. Qed.

Lemma C3_witness :
  raises homeLink (noContext homeLink tt) unfinishedStrategy
  /\ hasRandomClasses homeLink = Ret true
  /\ generateXPath unit unit noContext
       ([textStrategy homeOracle] ++ unfinishedStrategy :: [attributeStrategy homeOracle])
       homeLink tt
     = Ret homeRanked
  /\ gives homeLink (noContext homeLink tt) (attributeStrategy homeOracle)
       "//*[@name='home']" 140
  /\ In {| strategy := "attribute"; xpath := "//*[@name='home']";
           score := 90; priority := 100 |}
        (shown homeRanked).
Proof.
  assert (H : raises homeLink (noContext homeLink tt) unfinishedStrategy).
  { left. eexists. reflexivity. }
  assert (Hrandom : hasRandomClasses homeLink = Ret true) by (vm_compute; reflexivity).
  assert (Hgives : gives homeLink (noContext homeLink tt) (attributeStrategy homeOracle)
                     "//*[@name='home']" 140).
  { repeat split; vm_compute; reflexivity. }
  assert (Hin : In (attributeStrategy homeOracle)
                  ([textStrategy homeOracle] ++ [attributeStrategy homeOracle]))
    by (right; left; reflexivity).
  destruct (ManagerFacts.C3_strategy_failure_is_contained unit unit noContext
              [textStrategy homeOracle] [attributeStrategy homeOracle]
              unfinishedStrategy homeLink tt H) as [_ Hheld].
  destruct (Hheld true Hrandom) as [rr [Hrr [Hothers _]]].
  assert (Hranked : rr = homeRanked).
  { assert (Hc : generateXPath unit unit noContext
                   ([textStrategy homeOracle] ++ unfinishedStrategy
                      :: [attributeStrategy homeOracle]) homeLink tt
                 = Ret homeRanked) by (vm_compute; reflexivity).
    rewrite Hc in Hrr. injection Hrr as Hrr. symmetry. exact Hrr. }
  subst rr.
  split; [exact H|]. split; [exact Hrandom|].
  split; [vm_compute; reflexivity|]. split; [exact Hgives|].
  destruct (Hothers _ _ _ Hin Hgives) as [[Hshown | [Hthree _]] _].
  - exact Hshown.
  - vm_compute in Hthree. discriminate Hthree.
Defined.


Lemma C9_witness :
  let registered :=
    [attributeStrategy homeOracle; unfinishedStrategy; textStrategy homeOracle] in
  let strategies := List.fold_left (registerStrategy unit) registered [] in
  List.map name strategies = ["text"; "attribute"; "unfinished"]
  /\ generateXPath unit unit noContext strategies homeLink tt = Ret homeRanked
  /\ exists hasRandom ranked,
       Permutation ranked (candidatesOf hasRandom homeLink tt strategies)
       /\ StronglySorted (keyGe score) ranked
       /\ primary homeRanked = List.head ranked
       /\ alternatives homeRanked = List.firstn 2 (List.tl ranked).
Proof.
  intros registered strategies.
  assert (H : generateXPath unit unit noContext strategies homeLink tt = Ret homeRanked).
  { vm_compute. reflexivity. }
  split; [vm_compute; reflexivity|]. split; [exact H|].
  destruct (ManagerFacts.C9_ranking_and_tie_break unit unit noContext registered
              homeLink tt homeRanked H)
    as [_ [h [ranked [Hp [Hs [_ [_ [H1 [H2 _]]]]]]]]].
  exists h, ranked. repeat split; assumption.
Defined.

End ManagerExamples.

(** ** The text strategy *)

Module TextFacts.

Import BaseStrategy TextStrategy TextSpec.

Section Host.

Variable Context : Type.
Variable evaluate : string -> comp (list Dom.NodeId).

(** The call of [getElementIndexInDuplicates], which no class defines,
    raises inside the [try]: whatever the query selects, the answer of
    [detectDuplicateText] is that of its [catch]. *)
Lemma detect_never_reports (text : string) (target : Dom.Element) :
  detectDuplicateText evaluate text target = noDuplicates.
Proof.
  unfold detectDuplicateText, getElementIndexInDuplicates, undefinedMethod.
  destruct (evaluate _); reflexivity.
Qed.

(** So [generate] never takes the branch of the duplicates. *)
Lemma generate_plain (element : Dom.Element) (context : Context) :
  generate Context evaluate element context
  = Ret (if Js.truthy (Js.trim (Utils.getVisibleText (Some element)))
         then firstValid evaluate (textPaths element) element
         else None).
Proof.
  unfold generate. rewrite detect_never_reports.
  destruct (Js.truthy (Js.trim (Utils.getVisibleText (Some element)))); simpl;
    [|reflexivity].
  unfold textPaths.
  destruct (isButtonLikeElement element); reflexivity.
Qed.

(** The escalation raises at its first step if it is entered. *)
Lemma escalation_raises (element : Dom.Element) (text : string) (info : DuplicateInfo)
    (context : Context) :
  generateContextAwareXPath Context evaluate element text info context
  = Throw "this.generateContainerBasedXPath is not a function".
Proof. reflexivity. Qed.

End Host.

End TextFacts.

Module TextExamples.

Import BaseStrategy TextStrategy TextSpec Fixtures.

(** C4.  The text strategy does not disambiguate.  In the scenario of
    three sibling [span]s of the text [Active] the query of
    [detectDuplicateText] selects the three of them, yet the strategy
    reports no duplicates and a count of 1, as it does for every text and
    element: the object it builds calls [getElementIndexInDuplicates],
    which is not defined, so the [catch] answers.  [generate] therefore
    never escalates, and the escalation would raise at its first step.
    For the first [span] it answers [//span[text()='Active']], which
    selects all three; for the second it answers nothing; and [getScore]
    still adds the 100 of a unique text. *)
Theorem C4_duplicates_are_never_detected :
  activeOracle (duplicateQuery "Active") = Ret activeSpans
  /\ List.length
       (List.filter (fun n => negb (Dom.sameNode n (Dom.nodeId secondActive))) activeSpans)
     = 2%nat
  /\ detectDuplicateText activeOracle "Active" secondActive = noDuplicates
  /\ (forall (evaluate : string -> comp (list Dom.NodeId)) (text : string)
             (target : Dom.Element),
        detectDuplicateText evaluate text target = noDuplicates)
  /\ (forall (evaluate : string -> comp (list Dom.NodeId)) (element : Dom.Element)
             (text : string) (info : DuplicateInfo),
        generateContextAwareXPath unit evaluate element text info tt
        = Throw "this.generateContainerBasedXPath is not a function")
  /\ generate unit activeOracle firstActive tt = Ret (Some "//span[text()='Active']")
  /\ activeOracle "//span[text()='Active']" = Ret activeSpans
  /\ generate unit activeOracle secondActive tt = Ret None
  /\ getScore unit activeOracle secondActive tt = 360.
Proof.
  split; [reflexivity|]. split; [reflexivity|].
  split; [apply TextFacts.detect_never_reports|].
  split; [intros evaluate text target; apply TextFacts.detect_never_reports|].
  split; [intros evaluate element text info; reflexivity|].
  repeat split; vm_compute; reflexivity.
Qed.

End TextExamples.

(** ** Validation by the strategies *)

Module ValidationFacts.

Import BaseStrategy Fixtures.

(** What [validateXPath] checks: the expression resolves, and the first
    node of the result, in document order, is the target.  The rest of
    the result is not looked at. *)
Lemma validateXPath_first (evaluate : string -> comp (list Dom.NodeId))
    (xpath : string) (target : Dom.Element) :
  validateXPath evaluate xpath target = true <->
  exists first rest,
    evaluate xpath = Ret (first :: rest)
    /\ Dom.sameNode first (Dom.nodeId target) = true.
Proof.
  unfold validateXPath. destruct (evaluate xpath) as [[|first rest]|m]; simpl.
  - split; [discriminate | intros [f [r [H _]]]; discriminate].
  - split.
    + intros H. exists first, rest. split; [reflexivity | exact H].
    + intros [f [r [H Hs]]]. injection H as Hf Hr. subst. exact Hs.
  - split; [discriminate | intros [f [r [H _]]]; discriminate].
Qed.

Lemma firstValid_validated (evaluate : string -> comp (list Dom.NodeId))
    (strategies : list string) (target : Dom.Element) (xpath : string) :
  firstValid evaluate strategies target = Some xpath ->
  In xpath strategies /\ validateXPath evaluate xpath target = true.
Proof.
  induction strategies as [|x rest IH]; simpl; [discriminate|].
  destruct (validateXPath evaluate x target) eqn:Hv.
  - intros H. injection H as H. subst. split; [left; reflexivity | exact Hv].
  - intros H. destruct (IH H) as [Hin Hval]. split; [right; exact Hin | exact Hval].
Qed.

(** C1.  The round trip fails on the first of two inputs of one name:
    the attribute strategy's expression [//*[@name='q']] passes
    [validateXPath], the generator answers it as the primary of a result
    with [success = true], and the expression resolves to two nodes; the
    generator's own [validateXPath] calls it correct and not unique. *)
Theorem C1_validated_primary_is_not_unique :
  let generated :=
    XPathGenerator.generateXPath unit unit unit (fun _ _ => tt) documentBody
      (fun _ => Ret tt) [attributeStrategy searchOracle] (fun n => Z.of_nat n)
      (Some firstInput) tt
      {| XPathGenerator.cache := ∅; XPathGenerator.readings := 0 |} in
  (exists r st,
     generated = Ret (r, st)
     /\ XPathGenerator.success r = true
     /\ XPathGenerator.primary r
        = Some {| StrategyManager.strategy := "attribute";
                  StrategyManager.xpath := "//*[@name='q']";
                  StrategyManager.score := 130;
                  StrategyManager.priority := 100 |})
  /\ validateXPath searchOracle "//*[@name='q']" firstInput = true
  /\ searchOracle "//*[@name='q']" = Ret [Dom.nodeId firstInput; [1%nat; 0%nat; 1%nat]]
  /\ XPathGenerator.unique
       (XPathGenerator.validateXPath searchOracle "//*[@name='q']" firstInput) = false
  /\ XPathGenerator.correct
       (XPathGenerator.validateXPath searchOracle "//*[@name='q']" firstInput) = true.
Proof.
  cbv zeta. split.
  - eexists. eexists. split; [reflexivity|]. split; vm_compute; reflexivity.
  - repeat split; vm_compute; reflexivity.
Qed.

End ValidationFacts.

(** ** The visible text *)

Module VisibleTextFacts.

Import VisibleTextSpec Fixtures.

Lemma trimStart_clean (s : string) : startsClean (Js.trimStart s).
Proof.
  induction s as [|c s IH]; simpl; [exact I|].
  destruct (Js.isSpace c) eqn:Hc; [exact IH | simpl; exact Hc].
Qed.

Lemma trimStart_of_clean (s : string) : startsClean s -> Js.trimStart s = s.
Proof. destruct s as [|c s]; simpl; [reflexivity|]. intros H. rewrite H. reflexivity. Qed.

Lemma trimEnd_clean (s : string) : startsClean s -> startsClean (Js.trimEnd s).
Proof.
  destruct s as [|c s]; simpl; [intros _; exact I|].
  intros H. destruct (Js.trimEnd s); [rewrite H|]; simpl; exact H.
Qed.

Lemma trimEnd_cons (c : ascii) (s : string) :
  Js.trimEnd (String c s)
  = match Js.trimEnd s with
    | EmptyString => if Js.isSpace c then EmptyString else String c EmptyString
    | t => String c t
    end.
Proof. reflexivity. Qed.

Lemma trimEnd_idempotent (s : string) : Js.trimEnd (Js.trimEnd s) = Js.trimEnd s.
Proof.
  induction s as [|c s IH]; [reflexivity|].
  rewrite (trimEnd_cons c s).
  destruct (Js.trimEnd s) as [|d t] eqn:Ht.
  - destruct (Js.isSpace c) eqn:Hc; [reflexivity|]. simpl. rewrite Hc. reflexivity.
  - rewrite (trimEnd_cons c (String d t)). rewrite IH. reflexivity.
Qed.

Lemma trim_idempotent (s : string) : Js.trim (Js.trim s) = Js.trim s.
Proof.
  unfold Js.trim.
  rewrite (trimStart_of_clean (Js.trimEnd (Js.trimStart s))).
  - apply trimEnd_idempotent.
  - apply trimEnd_clean, trimStart_clean.
Qed.

Lemma textNodes_direct (nodes : list Dom.Node) :
  Utils.textNodes nodes = List.map Js.trim (directTexts nodes).
Proof.
  induction nodes as [|n nodes IH]; simpl; [reflexivity|].
  destruct n; simpl; rewrite IH; reflexivity.
Qed.

Lemma styleHidden_iff (st : Dom.ComputedStyle) :
  Utils.styleHidden st = true <->
  Dom.display st = "none" \/ Dom.visibility st = "hidden" \/ Dom.opacity st = "0".
Proof.
  unfold Utils.styleHidden. rewrite !orb_true_iff, !String.eqb_eq. tauto.
Qed.

(** C5, as the code has it.  The visible text is the empty string
    whenever the computed style has display none, visibility hidden or
    opacity ["0"]; otherwise it is the direct text nodes, each trimmed,
    joined by one space, and trimmed.  It is a trimmed string, and it
    depends on nothing but the style and the direct text nodes: not on
    child elements, comments or the layout box. *)
Theorem C5_visible_text (el : Dom.Element) :
  let st := Dom.computedStyle (Dom.self el) in
  (Dom.display st = "none" \/ Dom.visibility st = "hidden" \/ Dom.opacity st = "0" ->
   Utils.getVisibleText (Some el) = "")
  /\ (Dom.display st <> "none" -> Dom.visibility st <> "hidden" -> Dom.opacity st <> "0" ->
      Utils.getVisibleText (Some el)
      = Js.trim (Js.join " " (List.map Js.trim (directTexts (Dom.childNodes el)))))
  /\ Js.trim (Utils.getVisibleText (Some el)) = Utils.getVisibleText (Some el)
  /\ forall other : Dom.Element,
       Dom.computedStyle (Dom.self other) = st ->
       directTexts (Dom.childNodes other) = directTexts (Dom.childNodes el) ->
       Utils.getVisibleText (Some other) = Utils.getVisibleText (Some el).
Proof.
  cbv zeta. split; [|split; [|split]].
  - intros H. apply styleHidden_iff in H. unfold Utils.getVisibleText. rewrite H.
    reflexivity.
  - intros Hd Hv Ho. unfold Utils.getVisibleText.
    destruct (Utils.styleHidden (Dom.computedStyle (Dom.self el))) eqn:Hs.
    + apply styleHidden_iff in Hs. destruct Hs as [Hs|[Hs|Hs]]; contradiction.
    + rewrite textNodes_direct. reflexivity.
  - unfold Utils.getVisibleText.
    destruct (Utils.styleHidden (Dom.computedStyle (Dom.self el))); [reflexivity|].
    apply trim_idempotent.
  - intros other Hst Htexts. unfold Utils.getVisibleText.
    rewrite Hst, !textNodes_direct, Htexts. reflexivity.
Qed.

(** The claim as stated fails twice: a node with a zero bounding box
    keeps its text, and two text nodes are joined by a space. *)
Lemma C5_counterexample :
  (computedInvisible (Dom.self zeroBoxSpan) = true
   /\ ElementAnalyzer.isElementVisible zeroBoxSpan = false
   /\ Utils.getVisibleText (Some zeroBoxSpan) = "Hi"
   /\ Utils.getVisibleText (Some zeroBoxSpan) <> claimedVisibleText zeroBoxSpan)
  /\ (Utils.getVisibleText (Some twoLines) = "first second"
      /\ claimedVisibleText twoLines = "firstsecond"
      /\ Utils.getVisibleText (Some twoLines) <> claimedVisibleText twoLines).
Proof.
  repeat split; try (vm_compute; reflexivity); vm_compute; discriminate.
Qed.

End VisibleTextFacts.

(** ** The position-based fallback *)

Module FallbackFacts.

Import FallbackSpec Fixtures.

Lemma indexOf_cons (x y : nat) (l : list nat) :
  Dom.indexOf x (y :: l)
  = if (x =? y)%nat then 0
    else let i := Dom.indexOf x l in if i <? 0 then -1 else i + 1.
Proof. reflexivity. Qed.

Lemma indexOf_rank (same : Dom.ElementData -> bool) (x : Dom.ElementData)
    (B A : list Dom.ElementData) (k : nat) :
  same x = true ->
  Dom.indexOf (k + List.length B)
    (List.map fst
       (List.filter (fun sibling => same (snd sibling))
          (List.combine (List.seq k (List.length (B ++ x :: A))) (B ++ x :: A))))
  = Z.of_nat (List.length (List.filter same B)).
Proof.
  intros Hx. revert k. induction B as [|b B IH]; intros k.
  - cbn [List.length app List.seq List.combine List.filter snd fst List.map].
    rewrite Hx. cbn [List.map fst]. rewrite indexOf_cons.
    rewrite Nat.add_0_r, Nat.eqb_refl. reflexivity.
  - cbn [List.length app List.seq List.combine List.filter snd fst List.map].
    replace (k + S (List.length B))%nat with (S k + List.length B)%nat by lia.
    destruct (same b) eqn:Hb.
    + cbn [List.map fst List.length]. rewrite indexOf_cons.
      assert (Hne : (S k + List.length B =? k)%nat = false)
        by (apply Nat.eqb_neq; lia).
      rewrite Hne. cbv zeta. rewrite (IH (S k)).
      destruct (Z.of_nat (List.length (List.filter same B)) <? 0) eqn:Hneg.
      * apply Z.ltb_lt in Hneg. lia.
      * lia.
    + apply (IH (S k)).
Qed.

(** [getElementIndex] is the rank, from 1, among the siblings of the
    same tag name. *)
Lemma getElementIndex_rank (el : Dom.Element) :
  Utils.getElementIndex el = Z.of_nat (sameTagBefore el) + 1.
Proof.
  unfold Utils.getElementIndex, sameTagBefore.
  destruct (Dom.above el) as [|f fs]; [reflexivity|].
  unfold Dom.siblingsOf, Dom.positionIn. f_equal.
  apply (indexOf_rank
           (fun e => String.eqb (Dom.tagName e) (Dom.tagName (Dom.self el)))
           (Dom.self el) (Dom.elementsOf (Dom.before f)) (Dom.elementsOf (Dom.after f)) 0).
  apply String.eqb_refl.
Qed.

(** The loop computes the segments, in front of the path it starts
    from. *)
Lemma fallbackLoop_segments (documentBody : option Dom.NodeId)
    (currents : list Dom.Element) (path : list string) :
  XPathGenerator.fallbackLoop documentBody currents path
  = segmentsOver documentBody currents ++ path.
Proof.
  revert path. induction currents as [|current rest IH]; intros path.
  - reflexivity.
  - unfold segmentsOver. simpl. unfold passes at 1 3.
    destruct (ElementAnalyzer.isBody documentBody current) eqn:Hb; simpl.
    + rewrite Hb. reflexivity.
    + destruct (Js.truthy (Dom.id (Dom.self current))) eqn:Hid; simpl.
      * rewrite Hb. reflexivity.
      * rewrite IH. unfold segmentsOver, indexSegment.
        rewrite <- !app_assoc. reflexivity.
Qed.

Lemma takeWhile_app {T : Type} (p : T -> bool) (l1 l2 : list T) :
  Forall (fun x => p x = true) l1 ->
  takeWhile p (l1 ++ l2) = l1 ++ takeWhile p l2
  /\ dropWhile p (l1 ++ l2) = dropWhile p l2.
Proof.
  intros H. induction H as [|x l1 Hx Hl IH]; simpl; [split; reflexivity|].
  rewrite Hx. destruct IH as [IH1 IH2]. rewrite IH1, IH2. split; reflexivity.
Qed.

(** A walk that passes some levels and meets a level with an id, which
    is not the body, is anchored at that level. *)
Lemma segments_anchored (documentBody : option Dom.NodeId) (el : Dom.Element)
    (passed rest : list Dom.Element) (anchor : Dom.Element) :
  Dom.chain el = passed ++ anchor :: rest ->
  Forall (fun c => passes documentBody c = true) passed ->
  ElementAnalyzer.isBody documentBody anchor = false ->
  Js.truthy (Dom.id (Dom.self anchor)) = true ->
  segments documentBody el = idSegment anchor :: List.rev (List.map indexSegment passed).
Proof.
  intros Hchain Hpassed Hbody Hid. unfold segments, segmentsOver. rewrite Hchain.
  destruct (takeWhile_app (passes documentBody) passed (anchor :: rest) Hpassed) as [Ht Hd].
  assert (Hstop : passes documentBody anchor = false)
    by (unfold passes; rewrite Hbody, Hid; reflexivity).
  rewrite Ht, Hd. simpl. rewrite Hstop, Hbody. rewrite app_nil_r. reflexivity.
Qed.

Lemma generateFallbackXPath_segments (documentBody : option Dom.NodeId) (el : Dom.Element) :
  XPathGenerator.generateFallbackXPath documentBody el
  = match segments documentBody el with
    | [] => "//" +:+ Js.toLowerCase (Dom.tagName (Dom.self el))
    | path => "/" +:+ Js.join "/" path
    end.
Proof.
  unfold XPathGenerator.generateFallbackXPath. rewrite fallbackLoop_segments.
  rewrite app_nil_r. fold (segments documentBody el).
  destruct (segments documentBody el); reflexivity.
Qed.

Lemma generateFallbackXPath_truthy (documentBody : option Dom.NodeId) (el : Dom.Element) :
  Js.truthy (XPathGenerator.generateFallbackXPath documentBody el) = true.
Proof.
  unfold XPathGenerator.generateFallbackXPath.
  destruct (0 <? List.length _)%nat; reflexivity.
Qed.

(** A path anchored at an id starts with three slashes: the segment of
    the id brings two and [generateFallbackXPath] puts one in front. *)
Lemma anchored_path_has_three_slashes (documentBody : option Dom.NodeId) (el : Dom.Element)
    (passed rest : list Dom.Element) (anchor : Dom.Element) :
  Dom.chain el = passed ++ anchor :: rest ->
  Forall (fun c => passes documentBody c = true) passed ->
  ElementAnalyzer.isBody documentBody anchor = false ->
  Js.truthy (Dom.id (Dom.self anchor)) = true ->
  Js.startsWith "///" (XPathGenerator.generateFallbackXPath documentBody el) = true.
Proof.
  intros Hchain Hpassed Hbody Hid.
  rewrite generateFallbackXPath_segments.
  rewrite (segments_anchored _ _ _ _ _ Hchain Hpassed Hbody Hid).
  unfold Js.join, idSegment.
  destruct (List.rev (List.map indexSegment passed)) as [|s l];
    cbn [String.concat];
    rewrite !RegexFacts.append_cons, !RegexFacts.append_empty_l;
    unfold Js.startsWith; simpl;
    match goal with |- String.prefix EmptyString ?x = true => destruct x; reflexivity end.
Qed.

(** A walk that meets no id stops before [document.body]: the path is
    absolute and its first step is a child of the body. *)
Lemma unanchored_path_starts_below_body (documentBody : option Dom.NodeId)
    (el : Dom.Element) (passed rest : list Dom.Element) (stop : Dom.Element) :
  Dom.chain el = passed ++ stop :: rest ->
  passed <> [] ->
  Forall (fun c => passes documentBody c = true) passed ->
  ElementAnalyzer.isBody documentBody stop = true ->
  XPathGenerator.generateFallbackXPath documentBody el
  = "/" +:+ Js.join "/" (List.rev (List.map indexSegment passed)).
Proof.
  intros Hchain Hne Hpassed Hbody.
  rewrite generateFallbackXPath_segments. unfold segments, segmentsOver. rewrite Hchain.
  destruct (takeWhile_app (passes documentBody) passed (stop :: rest) Hpassed) as [Ht Hd].
  assert (Hstop : passes documentBody stop = false)
    by (unfold passes; rewrite Hbody; reflexivity).
  rewrite Ht, Hd. simpl. rewrite Hstop, Hbody. simpl. rewrite app_nil_r.
  destruct passed as [|c passed]; [contradiction Hne; reflexivity|].
  simpl. destruct (List.rev (List.map indexSegment passed) ++ [indexSegment c]) eqn:E.
  - destruct (List.rev (List.map indexSegment passed)); discriminate E.
  - reflexivity.
Qed.

End FallbackFacts.

(** ** The generator *)

Module GeneratorFacts.

Import XPathGenerator GeneratorSpec FallbackSpec.

Section Host.

Variable Context : Type.
Variable Options : Type.
Variable Analysis : Type.
Variable buildContext : Dom.Element -> ManagerOptions Options Analysis -> Context.
Variable documentBody : option Dom.NodeId.
Variable analyze : Dom.Element -> comp Analysis.
Variable strategies : list (BaseStrategy.Strategy Context).
Variable clock : nat -> Z.

Abbreviation generateWith :=
  (generateXPath Context Options Analysis buildContext documentBody analyze strategies clock).
Abbreviation fresh :=
  (generateFresh Context Options Analysis buildContext documentBody analyze strategies clock).
Abbreviation rank :=
  (StrategyManager.generateXPath Context (ManagerOptions Options Analysis) buildContext
     strategies).
Abbreviation keyOf := (ElementAnalyzer.generateCacheKey documentBody).

Lemma fresh_analysis_raised (key : string) (el : Dom.Element) (opts : Options)
    (st : State Context Analysis) (m : string) :
  analyze el = Throw m ->
  fresh key el opts st = catchBranch Context Analysis clock m el st.
Proof. intros H. unfold generateFresh. rewrite H. reflexivity. Qed.

Lemma fresh_ranking_raised (key : string) (el : Dom.Element) (opts : Options)
    (st : State Context Analysis) (a : Analysis) (m : string) :
  analyze el = Ret a ->
  rank el {| options := opts; analysisOption := a |} = Throw m ->
  fresh key el opts st = catchBranch Context Analysis clock m el st.
Proof. intros Ha Hr. unfold generateFresh. rewrite Ha. simpl. rewrite Hr. reflexivity. Qed.

Lemma fresh_ranked (key : string) (el : Dom.Element) (opts : Options)
    (st : State Context Analysis) (a : Analysis)
    (rr : StrategyManager.RankedResult Context) :
  analyze el = Ret a ->
  rank el {| options := opts; analysisOption := a |} = Ret rr ->
  StrategyManager.success rr = true ->
  fresh key el opts st = successBranch Context Analysis clock key el a rr st.
Proof.
  intros Ha Hr Hs. unfold generateFresh. rewrite Ha. simpl. rewrite Hr. simpl.
  rewrite Hs. reflexivity.
Qed.

Lemma fresh_unranked (key : string) (el : Dom.Element) (opts : Options)
    (st : State Context Analysis) (a : Analysis)
    (rr : StrategyManager.RankedResult Context) :
  analyze el = Ret a ->
  rank el {| options := opts; analysisOption := a |} = Ret rr ->
  StrategyManager.success rr = false ->
  fresh key el opts st
  = (fallbackResult el a (generateFallbackXPath documentBody el) (clock (readings st)),
     tick st).
Proof.
  intros Ha Hr Hs. unfold generateFresh. rewrite Ha. simpl. rewrite Hr. simpl.
  rewrite Hs. unfold fallbackBranch. simpl.
  rewrite FallbackFacts.generateFallbackXPath_truthy. reflexivity.
Qed.

(** A call that finds no entry for the key generates afresh. *)
Lemma generate_miss (el : Dom.Element) (opts : Options) (st : State Context Analysis) :
  Js.truthy (Dom.tagName (Dom.self el)) = true ->
  cache st !! keyOf el = None ->
  generateWith (Some el) opts st = Ret (fresh (keyOf el) el opts st).
Proof. intros Ht Hc. unfold generateXPath. rewrite Ht. simpl. rewrite Hc. reflexivity. Qed.

(** A call that finds an entry younger than the timeout answers its
    data and reads the clock once. *)
Lemma generate_hit (el : Dom.Element) (opts : Options) (st : State Context Analysis)
    (entry : CacheEntry Context Analysis) :
  Js.truthy (Dom.tagName (Dom.self el)) = true ->
  cache st !! keyOf el = Some entry ->
  clock (readings st) - storedAt entry < cacheTimeout ->
  generateWith (Some el) opts st = Ret (data entry, tick st).
Proof.
  intros Ht Hc Hfresh. unfold generateXPath. rewrite Ht. simpl. rewrite Hc. simpl.
  apply Z.ltb_lt in Hfresh. rewrite Hfresh. reflexivity.
Qed.

(** A call that finds an entry as old as the timeout generates afresh,
    after one reading of the clock. *)
Lemma generate_expired (el : Dom.Element) (opts : Options) (st : State Context Analysis)
    (entry : CacheEntry Context Analysis) :
  Js.truthy (Dom.tagName (Dom.self el)) = true ->
  cache st !! keyOf el = Some entry ->
  cacheTimeout <= clock (readings st) - storedAt entry ->
  generateWith (Some el) opts st = Ret (fresh (keyOf el) el opts (tick st)).
Proof.
  intros Ht Hc Hold. unfold generateXPath. rewrite Ht. simpl. rewrite Hc. simpl.
  apply Z.ltb_ge in Hold. rewrite Hold. reflexivity.
Qed.

(** C10.  The fallback expression is never empty: it starts with a
    slash, and without any segment it is [//tag].  The fallback branch
    therefore fails exactly when the call of the fallback constructor
    raises or answers the empty string, succeeds on what the constructor
    answers, and a fresh generation never ends in the terminal failure. *)
Theorem C10_fallback_expression_never_empty
    (el : Dom.Element) (a : Analysis) (st : State Context Analysis)
    (key : string) (opts : Options) (fallback : comp string) :
  Js.truthy (generateFallbackXPath documentBody el) = true
  /\ generateFallbackXPath documentBody el <> ""
  /\ generateFallbackXPath documentBody el
     = match segments documentBody el with
       | [] => "//" +:+ Js.toLowerCase (Dom.tagName (Dom.self el))
       | path => "/" +:+ Js.join "/" path
       end
  /\ (success (fst (fallbackBranch Context Analysis clock fallback el a st)) = false
      <-> (exists m, fallback = Throw m) \/ fallback = Ret "")
  /\ (error (fst (fallbackBranch Context Analysis clock fallback el a st))
      = Some NoXPathExtracted
      <-> (exists m, fallback = Throw m) \/ fallback = Ret "")
  /\ success (fst (fallbackBranch Context Analysis clock
                     (Ret (generateFallbackXPath documentBody el)) el a st)) = true
  /\ error (fst (fresh key el opts st)) <> Some NoXPathExtracted.
Proof.
  pose proof (FallbackFacts.generateFallbackXPath_truthy documentBody el) as Htruthy.
  split; [exact Htruthy|]. split.
  { intros H. rewrite H in Htruthy. discriminate. }
  split; [apply FallbackFacts.generateFallbackXPath_segments|].
  assert (Hbranch : forall fb : comp string,
            (exists x, fb = Ret x /\ Js.truthy x = true
                       /\ fst (fallbackBranch Context Analysis clock fb el a st)
                          = fallbackResult el a x (clock (readings st)))
            \/ (((exists m, fb = Throw m) \/ fb = Ret "")
                /\ success (fst (fallbackBranch Context Analysis clock fb el a st)) = false
                /\ error (fst (fallbackBranch Context Analysis clock fb el a st))
                   = Some NoXPathExtracted)).
  { intros [x|m]; unfold fallbackBranch; simpl.
    - destruct (Js.truthy x) eqn:Hx; simpl.
      + left. exists x. repeat split. exact Hx.
      + right. unfold Js.truthy in Hx. apply negb_false_iff in Hx.
        apply String.eqb_eq in Hx. subst x. repeat split. right. reflexivity.
    - right. repeat split. left. exists m. reflexivity. }
  split; [|split; [|split]].
  - destruct (Hbranch fallback) as [[x [Hfb [Hx Hres]]] | [Hwhy [Hs _]]].
    + rewrite Hres. simpl. split; [discriminate|].
      intros [[m Hm] | Hempty]; [rewrite Hm in Hfb; discriminate|].
      rewrite Hempty in Hfb. injection Hfb as Hfb. subst x. discriminate.
    + split; [intros _; exact Hwhy | intros _; exact Hs].
  - destruct (Hbranch fallback) as [[x [Hfb [Hx Hres]]] | [Hwhy [_ He]]].
    + rewrite Hres. simpl. split; [discriminate|].
      intros [[m Hm] | Hempty]; [rewrite Hm in Hfb; discriminate|].
      rewrite Hempty in Hfb. injection Hfb as Hfb. subst x. discriminate.
    + split; [intros _; exact Hwhy | intros _; exact He].
  - destruct (Hbranch (Ret (generateFallbackXPath documentBody el)))
      as [[x [_ [_ Hres]]] | [[[m Hm] | Hempty] _]].
    + rewrite Hres. reflexivity.
    + discriminate.
    + injection Hempty as Hempty. rewrite Hempty in Htruthy. discriminate.
  - unfold generateFresh.
    destruct (analyze el) as [a'|m]; simpl; [|discriminate].
    destruct (StrategyManager.generateXPath Context (ManagerOptions Options Analysis)
                buildContext strategies el {| options := opts; analysisOption := a' |})
      as [rr|m]; simpl; [|discriminate].
    destruct (StrategyManager.success rr); [discriminate|].
    unfold fallbackBranch. simpl. rewrite Htruthy. discriminate.
Qed.

Lemma tick_sound (st : State Context Analysis) : cacheSound st -> cacheSound (tick st).
Proof. intros H key entry Hk. apply (H key entry). exact Hk. Qed.

(** The state a successful ranking leaves: the entry stored under the
    key, then the entries older than the timeout removed. *)
Lemma successBranch_state (key : string) (el : Dom.Element) (a : Analysis)
    (rr : StrategyManager.RankedResult Context) (st : State Context Analysis) :
  successBranch Context Analysis clock key el a rr st
  = (enhancedResult el a rr (clock (readings st)),
     {| cache :=
          filter (fun kv => ¬ (clock (S (S (readings st))) - storedAt (snd kv) > cacheTimeout))
            (<[key := {| data := enhancedResult el a rr (clock (readings st));
                         storedAt := clock (S (readings st)) |}]> (cache st));
        readings := S (S (S (readings st))) |}).
Proof. reflexivity. Qed.

Lemma successBranch_sound (key : string) (el : Dom.Element) (a : Analysis)
    (rr : StrategyManager.RankedResult Context) (st : State Context Analysis) :
  StrategyManager.success rr = true ->
  cacheSound st ->
  cacheSound (snd (successBranch Context Analysis clock key el a rr st)).
Proof.
  intros Hs Hsound. rewrite successBranch_state. simpl.
  intros k entry Hk. simpl in Hk.
  apply map_lookup_filter_Some in Hk. destruct Hk as [Hk _].
  destruct (decide (key = k)) as [->|Hne].
  - rewrite lookup_insert_eq in Hk. injection Hk as Hk. subst entry. simpl.
    split; [exact Hs | reflexivity].
  - rewrite lookup_insert_ne in Hk by exact Hne. apply (Hsound k entry Hk).
Qed.

(** What a fresh generation answers, by the way it ends. *)
Lemma fresh_classified (key : string) (el : Dom.Element) (opts : Options)
    (st : State Context Analysis) :
  cacheSound st ->
  cacheSound (snd (fresh key el opts st))
  /\ (success (fst (fresh key el opts st)) = false ->
      primary (fst (fresh key el opts st)) = None
      /\ alternatives (fst (fresh key el opts st)) = []
      /\ element (fst (fresh key el opts st)) = Some (summarize el)
      /\ exists m,
           error (fst (fresh key el opts st)) = Some (ExtractionFailed m)
           /\ (analyze el = Throw m
               \/ exists a, analyze el = Ret a
                            /\ rank el {| options := opts; analysisOption := a |} = Throw m))
  /\ (success (fst (fresh key el opts st)) = true ->
      error (fst (fresh key el opts st)) = None
      /\ exists c, primary (fst (fresh key el opts st)) = Some c).
Proof.
  intros Hsound.
  destruct (analyze el) as [a|m] eqn:Ha.
  - destruct (rank el {| options := opts; analysisOption := a |}) as [rr|m] eqn:Hr.
    + destruct (StrategyManager.success rr) eqn:Hs.
      * rewrite (fresh_ranked _ _ _ _ _ _ Ha Hr Hs).
        split; [apply successBranch_sound; assumption|].
        rewrite successBranch_state. simpl. rewrite Hs.
        split; [discriminate|]. intros _. split; [reflexivity|].
        destruct (ManagerFacts.generateXPath_ranked _ _ _ _ _ _ _ Hr) as [h [_ Hrr]].
        rewrite Hrr in Hs |- *. simpl in *.
        destruct (JsArray.sort _ _) as [|c l]; [discriminate|].
        exists c. reflexivity.
      * rewrite (fresh_unranked _ _ _ _ _ _ Ha Hr Hs). simpl.
        split; [apply tick_sound; exact Hsound|].
        split; [discriminate|]. intros _. split; [reflexivity|]. eexists. reflexivity.
    + rewrite (fresh_ranking_raised _ _ _ _ _ _ Ha Hr). simpl.
      split; [apply tick_sound; exact Hsound|]. split; [|discriminate].
      intros _. repeat split. exists m. split; [reflexivity|].
      right. exists a. split; [first [reflexivity | exact Ha] | first [reflexivity | exact Hr]].
  - rewrite (fresh_analysis_raised _ _ _ _ _ Ha). simpl.
    split; [apply tick_sound; exact Hsound|]. split; [|discriminate].
    intros _. repeat split. exists m. split; [reflexivity|].
    left. first [reflexivity | exact Ha].
Qed.


End Host.

Section Replay.

Variable Context : Type.
Variable Options : Type.
Variable Analysis : Type.
Variable buildContext : Dom.Element -> ManagerOptions Options Analysis -> Context.
Variable documentBody : option Dom.NodeId.
Variable analyze : Dom.Element -> comp Analysis.
Variable strategies : list (BaseStrategy.Strategy Context).
Variable clock : nat -> Z.

(** C7, as the code has it.  A call that finds no entry and whose
    ranking succeeds stores its result under the key of the node.  If the
    entry outlives the clean-up that ends this call, then every later call
    on the same node that reads the clock less than the timeout after the
    moment of storing answers that very result and leaves the cache as it
    is, whatever the options, the analyzer and the strategies of that
    call: neither analysis nor strategy is run. *)
Theorem C7_stored_result_is_replayed
    (el : Dom.Element) (opts : Options) (st : State Context Analysis) (a : Analysis)
    (rr : StrategyManager.RankedResult Context) :
  let key := ElementAnalyzer.generateCacheKey documentBody el in
  let stored := clock (S (readings st)) in
  let r1 := enhancedResult el a rr (clock (readings st)) in
  Js.truthy (Dom.tagName (Dom.self el)) = true ->
  cache st !! key = None ->
  analyze el = Ret a ->
  StrategyManager.generateXPath Context (ManagerOptions Options Analysis) buildContext
    strategies el {| options := opts; analysisOption := a |} = Ret rr ->
  StrategyManager.success rr = true ->
  clock (S (S (readings st))) - stored <= cacheTimeout ->
  exists st1,
    generateXPath Context Options Analysis buildContext documentBody analyze strategies
      clock (Some el) opts st = Ret (r1, st1)
    /\ readings st1 = S (S (S (readings st)))
    /\ cache st1 !! key = Some {| data := r1; storedAt := stored |}
    /\ forall (buildContext' : Dom.Element -> ManagerOptions Options Analysis -> Context)
              (analyze' : Dom.Element -> comp Analysis)
              (strategies' : list (BaseStrategy.Strategy Context))
              (opts' : Options),
         clock (readings st1) - stored < cacheTimeout ->
         generateXPath Context Options Analysis buildContext' documentBody analyze'
           strategies' clock (Some el) opts' st1
         = Ret (r1, tick st1).
Proof.
  intros key stored r1 Ht Hmiss Ha Hr Hs Hkept.
  eexists. split.
  { rewrite (generate_miss _ _ _ _ _ _ _ _ _ _ _ Ht Hmiss). f_equal.
    rewrite (fresh_ranked _ _ _ _ _ _ _ _ _ _ _ _ _ _ Ha Hr Hs).
    apply successBranch_state. }
  simpl. split; [reflexivity|].
  assert (Hentry :
            filter (fun kv : string * CacheEntry Context Analysis =>
                      ¬ (clock (S (S (readings st))) - storedAt (snd kv) > cacheTimeout))
              (<[key := {| data := r1; storedAt := stored |}]> (cache st)) !! key
            = Some {| data := r1; storedAt := stored |}).
  { apply map_lookup_filter_Some_2; [apply lookup_insert_eq|]. simpl. lia. }
  split; [exact Hentry|].
  intros buildContext' analyze' strategies' opts' Hyoung.
  apply (generate_hit Context Options Analysis buildContext' documentBody analyze'
           strategies' clock el opts'
           {| cache :=
                filter (fun kv : string * CacheEntry Context Analysis =>
                          ¬ (clock (S (S (readings st))) - storedAt (snd kv) > cacheTimeout))
                  (<[key := {| data := r1; storedAt := stored |}]> (cache st));
              readings := S (S (S (readings st))) |}
           {| data := r1; storedAt := stored |} Ht Hentry Hyoung).
Qed.

End Replay.

End GeneratorFacts.

Module GeneratorExamples.

Import XPathGenerator GeneratorSpec FallbackSpec Fixtures.

Lemma emptyState_sound : cacheSound (@emptyState unit unit).
Proof. intros key entry H. unfold emptyState in H. simpl in H. rewrite lookup_empty in H. discriminate. Qed.



(** C6.  The position-based fallback answers [success = true] with an
    expression that does not locate the target.  For the bare [span]
    under [div#react-app] the generator answers
    [///div[@id='react-app']/span[1]]: the leading [/] is put in front of a
    segment that already starts with [//], as it is for every path
    anchored at an id, and three slashes are no XPath.  For the [span]
    without any id the generator answers [/div[2]/span[1]]: the walk stops
    before [document.body], so the absolute path asks for a root element
    [div] in a document whose root element is [html].  The anchor is the
    nearest level with any id, here [react-app], which [isValidId]
    rejects, and not the trustworthy [main] above it. *)
Theorem C6_fallback_path_is_malformed :
  (exists r st,
     generator [textStrategy emptyOracle; attributeStrategy emptyOracle]
       (Some bareSpan) tt emptyState = Ret (r, st)
     /\ success r = true
     /\ primary r
        = Some {| StrategyManager.strategy := "fallback";
                  StrategyManager.xpath := "///div[@id='react-app']/span[1]";
                  StrategyManager.score := 1;
                  StrategyManager.priority := 0 |}
     /\ alternatives r = [])
  /\ Utils.isValidId "react-app" = false
  /\ Utils.isValidId "main" = true
  /\ (forall (body : option Dom.NodeId) (el : Dom.Element)
             (passed rest : list Dom.Element) (anchor : Dom.Element),
        Dom.chain el = passed ++ anchor :: rest ->
        Forall (fun c => passes body c = true) passed ->
        ElementAnalyzer.isBody body anchor = false ->
        Js.truthy (Dom.id (Dom.self anchor)) = true ->
        Js.startsWith "///" (generateFallbackXPath body el) = true)
  /\ (exists r st,
        generator [textStrategy emptyOracle; attributeStrategy emptyOracle]
          (Some plainSpan) tt emptyState = Ret (r, st)
        /\ success r = true
        /\ primary r
           = Some {| StrategyManager.strategy := "fallback";
                     StrategyManager.xpath := "/div[2]/span[1]";
                     StrategyManager.score := 1;
                     StrategyManager.priority := 0 |})
  /\ List.map (fun level => Dom.tagName (Dom.self level)) (Dom.chain plainSpan)
     = ["SPAN"; "DIV"; "BODY"; "HTML"]
  /\ (forall (body : option Dom.NodeId) (el : Dom.Element)
             (passed rest : list Dom.Element) (stop : Dom.Element),
        Dom.chain el = passed ++ stop :: rest ->
        passed <> [] ->
        Forall (fun c => passes body c = true) passed ->
        ElementAnalyzer.isBody body stop = true ->
        generateFallbackXPath body el
        = "/" +:+ Js.join "/" (List.rev (List.map indexSegment passed))).
Proof.
  split.
  { eexists. eexists. split; [vm_compute; reflexivity|].
    repeat split; vm_compute; reflexivity. }
  split; [vm_compute; reflexivity|]. split; [vm_compute; reflexivity|].
  split; [exact FallbackFacts.anchored_path_has_three_slashes|].
  split.
  { eexists. eexists. split; [vm_compute; reflexivity|].
    split; vm_compute; reflexivity. }
  split; [vm_compute; reflexivity|].
  exact FallbackFacts.unanchored_path_starts_below_body.
Qed.

Lemma C7_witness :
  let strategies :=
    [textStrategy homeOracle; unfinishedStrategy; attributeStrategy homeOracle] in
  let r1 := enhancedResult homeLink tt homeRanked 1000 in
  exists st1,
    generator strategies (Some homeLink) tt emptyState = Ret (r1, st1)
    /\ generator [] (Some homeLink) tt st1 = Ret (r1, tick st1).
Proof.
  intros strategies r1.
  assert (H1 : Js.truthy (Dom.tagName (Dom.self homeLink)) = true) by reflexivity.
  assert (H2 : cache (@emptyState unit unit)
                 !! ElementAnalyzer.generateCacheKey documentBody homeLink = None)
    by apply lookup_empty.
  assert (H3 : (fun _ : Dom.Element => @Ret unit tt) homeLink = Ret tt) by reflexivity.
  assert (H4 : StrategyManager.generateXPath unit (ManagerOptions unit unit) (fun _ _ => tt)
                 strategies homeLink {| options := tt; analysisOption := tt |}
               = Ret homeRanked)
    by (vm_compute; reflexivity).
  assert (H5 : StrategyManager.success homeRanked = true) by reflexivity.
  assert (H6 : (fun n => 1000 + Z.of_nat n) (S (S (readings (@emptyState unit unit))))
               - (fun n => 1000 + Z.of_nat n) (S (readings (@emptyState unit unit)))
               <= cacheTimeout)
    by (vm_compute; discriminate).
  destruct (GeneratorFacts.C7_stored_result_is_replayed unit unit unit (fun _ _ => tt)
              documentBody (fun _ => Ret tt) strategies (fun n => 1000 + Z.of_nat n)
              homeLink tt emptyState tt homeRanked H1 H2 H3 H4 H5 H6)
    as [st1 [Hfirst [Hreads [_ Hreplay]]]].
  exists st1. split; [exact Hfirst|].
  apply Hreplay. rewrite Hreads. vm_compute. reflexivity.
Defined.

(** The claim as stated fails on a node that only the fallback
    locates: nothing is stored, and a second call one reading of the clock
    later runs the strategies again and answers another result. *)
Lemma C7_counterexample :
  let strategies := [textStrategy emptyOracle; attributeStrategy emptyOracle] in
  let expression := generateFallbackXPath documentBody plainSpan in
  generator strategies (Some plainSpan) tt emptyState
  = Ret (fallbackResult plainSpan tt expression 1000, tick emptyState)
  /\ generator strategies (Some plainSpan) tt (tick emptyState)
     = Ret (fallbackResult plainSpan tt expression 1001, tick (tick emptyState))
  /\ 1001 - 1000 < cacheTimeout
  /\ @fallbackResult unit unit plainSpan tt expression 1000
     <> fallbackResult plainSpan tt expression 1001
  /\ (exists r st',
        generator [constantStrategy "relative" "//div[2]/span" 60] (Some plainSpan) tt
          (tick emptyState) = Ret (r, st')
        /\ primary r
           = Some {| StrategyManager.strategy := "relative";
                     StrategyManager.xpath := "//div[2]/span";
                     StrategyManager.score := 60;
                     StrategyManager.priority := 60 |}).
Proof.
  cbv zeta. split; [vm_compute; reflexivity|]. split; [vm_compute; reflexivity|].
  split; [reflexivity|]. split.
  - intros H. apply (f_equal timestamp) in H. discriminate.
  - eexists. eexists. split; [reflexivity|]. vm_compute. reflexivity.
Qed.

End GeneratorExamples.

(** * Further properties *)

(** ** Quoting for XPath *)

Module EscapeFacts.

Import XPathSyntax.

Lemma append_assoc3 (a b c : string) : (a +:+ b) +:+ c = a +:+ (b +:+ c).
Proof.
  induction a as [|x a IH]; [reflexivity|].
  rewrite !RegexFacts.append_cons. rewrite IH. reflexivity.
Qed.

Lemma append_empty_r (s : string) : s +:+ EmptyString = s.
Proof.
  induction s as [|x s IH]; [reflexivity|].
  rewrite RegexFacts.append_cons, IH. reflexivity.
Qed.

Lemma readLiteral_closed (quote : ascii) (t rest : string) :
  Js.includes quote t = false ->
  readLiteral quote (t +:+ String quote rest) = Some (t, rest).
Proof.
  induction t as [|c t IH]; intros H.
  - rewrite RegexFacts.append_empty_l. simpl. rewrite Ascii.eqb_refl. reflexivity.
  - rewrite RegexFacts.append_cons. simpl in H. apply orb_false_iff in H.
    destruct H as [Hc Ht]. simpl. rewrite Ascii.eqb_sym, Hc. rewrite (IH Ht). reflexivity.
Qed.

Lemma inside_closed (quote : ascii) (t rest : string) :
  Js.includes quote t = false ->
  arguments (InsideLiteral quote) (t +:+ String quote rest)
  = option_map (cons t) (arguments AfterArgument rest).
Proof.
  induction t as [|c t IH]; intros H.
  - rewrite RegexFacts.append_empty_l. simpl. rewrite Ascii.eqb_refl. reflexivity.
  - rewrite RegexFacts.append_cons. simpl in H. apply orb_false_iff in H.
    destruct H as [Hc Ht]. simpl. rewrite Ascii.eqb_sym, Hc. rewrite (IH Ht).
    destruct (arguments AfterArgument rest); reflexivity.
Qed.

Lemma afterPrefix_append (p s : string) : afterPrefix p (p +:+ s) = Some s.
Proof.
  induction p as [|c p IH].
  - rewrite RegexFacts.append_empty_l. destruct s; reflexivity.
  - rewrite RegexFacts.append_cons. simpl. rewrite Ascii.eqb_refl. exact IH.
Qed.

(** The pieces of [split] hold no separator, are at least two when the
    text holds one, and joined by the separator give the text back. *)
Lemma splitChar_free (c : ascii) (s : string) :
  Forall (fun p => Js.includes c p = false) (Js.splitChar c s).
Proof.
  induction s as [|d s IH]; simpl.
  - constructor; [reflexivity | constructor].
  - destruct (Ascii.eqb c d) eqn:Hcd.
    + constructor; [reflexivity | exact IH].
    + destruct (Js.splitChar c s) as [|p ps].
      * constructor; [simpl; rewrite Hcd; reflexivity | constructor].
      * inversion IH as [|? ? Hp Hps]; subst.
        constructor; [simpl; rewrite Hcd; exact Hp | exact Hps].
Qed.

Lemma splitChar_nonempty (c : ascii) (s : string) : Js.splitChar c s <> [].
Proof.
  destruct s as [|d s]; simpl; [discriminate|].
  destruct (Ascii.eqb c d); [discriminate|].
  destruct (Js.splitChar c s); discriminate.
Qed.

Lemma splitChar_two (c : ascii) (s : string) :
  Js.includes c s = true -> exists p q l, Js.splitChar c s = p :: q :: l.
Proof.
  induction s as [|d s IH]; simpl; [discriminate|].
  destruct (Ascii.eqb c d) eqn:Hcd; simpl.
  - intros _. pose proof (splitChar_nonempty c s) as Hne.
    destruct (Js.splitChar c s) as [|q l]; [contradiction|].
    exists EmptyString, q, l. reflexivity.
  - intros H. destruct (IH H) as [p [q [l Hs]]]. rewrite Hs.
    exists (String d p), q, l. reflexivity.
Qed.

Lemma concat_cons2 (sep x y : string) (l : list string) :
  String.concat sep (x :: y :: l) = x +:+ sep +:+ String.concat sep (y :: l).
Proof. reflexivity. Qed.

Lemma splitChar_join (c : ascii) (s : string) :
  String.concat (String c EmptyString) (Js.splitChar c s) = s.
Proof.
  induction s as [|d s IH]; [reflexivity|].
  simpl Js.splitChar. pose proof (splitChar_nonempty c s) as Hne.
  destruct (Ascii.eqb c d) eqn:Hcd.
  - apply Ascii.eqb_eq in Hcd. subst d.
    destruct (Js.splitChar c s) as [|q l]; [contradiction|].
    rewrite concat_cons2, IH. reflexivity.
  - destruct (Js.splitChar c s) as [|p [|q l]]; [contradiction| |].
    + simpl in IH. simpl. rewrite IH. reflexivity.
    + rewrite concat_cons2 in IH. rewrite concat_cons2.
      rewrite RegexFacts.append_cons, IH. reflexivity.
Qed.

Ltac flatten :=
  repeat first [rewrite append_assoc3
               | rewrite RegexFacts.append_cons
               | rewrite RegexFacts.append_empty_l].

Lemma arguments_concat (p : string) (parts : list string) :
  Forall (fun p => Js.includes apostrophe p = false) (p :: parts) ->
  arguments BeforeArgument
    (String.concat separator (List.map wrap (p :: parts)) +:+ ")")
  = Some (interleave (p :: parts)).
Proof.
  revert p. induction parts as [|q parts IH]; intros p H.
  - inversion H as [|? ? Hp _]; subst. simpl String.concat. unfold wrap. flatten.
    cbn [arguments]. change (isWhitespace "'") with false.
    change (isQuote "'") with true. cbv iota.
    rewrite (inside_closed "'"%char p ")" Hp). reflexivity.
  - inversion H as [|? ? Hp Hrest]; subst.
    pose proof (IH q Hrest) as IHq.
    cbn [List.map] in *. rewrite concat_cons2. rewrite !append_assoc3.
    set (tail := String.concat separator (wrap q :: List.map wrap parts) +:+ ")") in *.
    unfold wrap at 1. flatten.
    cbn [arguments]. change (isWhitespace "'") with false.
    change (isQuote "'") with true. cbv iota.
    rewrite (inside_closed "'"%char p _ Hp).
    unfold separator, Js.dquote. flatten.
    cbn [arguments].
    change (isWhitespace ",") with false. change (isWhitespace " ") with true.
    change (isWhitespace (ascii_of_nat 34)) with false.
    change (isQuote (ascii_of_nat 34)) with true.
    change (Ascii.eqb "," ",") with true.
    change (Ascii.eqb "'" (ascii_of_nat 34)) with false.
    change (Ascii.eqb (ascii_of_nat 34) (ascii_of_nat 34)) with true.
    cbv iota. rewrite IHq. reflexivity.
Qed.

(** A text with both kinds of quote is rebuilt by the [concat] call. *)
Lemma interleave_concat (parts : list string) :
  String.concat "" (interleave parts) = String.concat "'" parts.
Proof.
  induction parts as [|p [|q parts] IH]; [reflexivity | reflexivity |].
  change (interleave (p :: q :: parts)) with (p :: "'" :: interleave (q :: parts)).
  rewrite concat_cons2.
  destruct (interleave (q :: parts)) as [|i others] eqn:Hi;
      [destruct parts; discriminate|].
  rewrite concat_cons2. rewrite IH. rewrite concat_cons2.
  rewrite !RegexFacts.append_empty_l. reflexivity.
Qed.

Lemma includes_false_truthy (c : ascii) (s : string) :
  Js.includes c s = true -> Js.truthy s = true.
Proof. destruct s; [discriminate | reflexivity]. Qed.

(** X1.  Read as an XPath string expression, [escapeXPath(text)] denotes
    [text]: whatever quotes the text holds, no character of it ends the
    literal early or is lost. *)
Theorem escapeXPath_denotes_the_text (text : string) :
  stringValue (Utils.escapeXPath text) = Some text.
Proof.
  unfold Utils.escapeXPath.
  destruct (Js.truthy text) eqn:Htruthy; simpl negb; cbv iota.
  2:{ destruct text; [reflexivity | discriminate]. }
  destruct (Js.includes "'" text) eqn:Hs, (Js.includes (ascii_of_nat 34) text) eqn:Hd;
    simpl andb; cbv iota.
  - (* both *)
    destruct (splitChar_two _ _ Hs) as [p [q [l Hsplit]]].
    pose proof (splitChar_free "'"%char text) as Hfree.
    pose proof (splitChar_join "'"%char text) as Hjoin.
    rewrite Hsplit in *.
    unfold stringValue.
    change ("concat(" +:+ ?x) with (String "c" ("oncat(" +:+ x)).
    cbv iota. change (isQuote "c") with false. cbv iota.
    change (String "c" ("oncat(" +:+ ?x)) with ("concat(" +:+ x).
    rewrite afterPrefix_append.
    change (Js.join (", " +:+ Js.dquote +:+ "'" +:+ Js.dquote +:+ " , ")
              (List.map (fun part : string => "'" +:+ part +:+ "'") (p :: q :: l)))
      with (String.concat separator (List.map wrap (p :: q :: l))).
    rewrite (arguments_concat p (q :: l) Hfree).
    change (interleave (p :: q :: l)) with (p :: "'" :: interleave (q :: l)).
    rewrite <- Hjoin. f_equal.
    change (p :: "'" :: interleave (q :: l)) with (interleave (p :: q :: l)).
    apply interleave_concat.
  - (* an apostrophe only: between double quotes *)
    unfold Js.dquote. flatten. unfold stringValue.
    change (isQuote (ascii_of_nat 34)) with true. cbv iota.
    rewrite (readLiteral_closed (ascii_of_nat 34) text EmptyString Hd). reflexivity.
  - (* a double quote only: between apostrophes *)
    flatten. unfold stringValue. change (isQuote "'") with true. cbv iota.
    rewrite (readLiteral_closed "'"%char text EmptyString Hs). reflexivity.
  - (* no quote *)
    flatten. unfold stringValue. change (isQuote "'") with true. cbv iota.
    rewrite (readLiteral_closed "'"%char text EmptyString Hs). reflexivity.
Qed.

End EscapeFacts.

(** ** Names taken for machine-generated *)

Module NameFacts.

Import Regex RegexSpec NameSpec.


(** An anchored pattern holds of what its body denotes. *)
Lemma test_anchored (p : pattern) (s : string) :
  anchoredStart p = true -> anchoredEnd p = true ->
  accepts (ignoreCase p) (body p) s -> test p s = true.
Proof.
  intros Hs He H. unfold test. rewrite Hs, He.
  apply RegexFacts.matches_accepts.
  rewrite <- (RegexFacts.append_empty_l s).
  apply AcceptsCat; [constructor|].
  rewrite <- (EscapeFacts.append_empty_r s).
  apply AcceptsCat; [exact H | constructor].
Qed.

Lemma star_any (ic : bool) (s : string) : accepts ic (Star anyChar) s.
Proof.
  induction s as [|c s IH]; [constructor|].
  change (String c s) with (String c EmptyString +:+ s).
  apply AcceptsStarMore; [|exact IH].
  constructor. unfold classTest. destruct ic; reflexivity.
Qed.

(** A pattern anchored at the start only holds of what its body denotes,
    whatever follows. *)
Lemma test_prefix (p : pattern) (s rest : string) :
  anchoredStart p = true -> anchoredEnd p = false ->
  accepts (ignoreCase p) (body p) s -> test p (s +:+ rest) = true.
Proof.
  intros Hs He H. unfold test. rewrite Hs, He.
  apply RegexFacts.matches_accepts.
  rewrite <- (RegexFacts.append_empty_l (s +:+ rest)).
  apply AcceptsCat; [constructor|].
  apply AcceptsCat; [exact H | apply star_any].
Qed.

Section Classes.

Variable ic : bool.
Variable p : ascii -> bool.
Variable q : ascii -> bool.
Hypothesis Hclass : forall c, q c = true -> classTest ic p c = true.

Lemma accepts_times (s : string) :
  everyChar q s = true -> accepts ic (times (String.length s) (Class p)) s.
Proof.
  induction s as [|c s IH]; simpl; [intros _; constructor|].
  intros H. apply andb_true_iff in H. destruct H as [Hc Hs].
  change (String c s) with (String c EmptyString +:+ s).
  apply AcceptsCat; [constructor; apply Hclass, Hc | apply IH, Hs].
Qed.

Lemma accepts_upTo (k : nat) (s : string) :
  everyChar q s = true -> (String.length s <= k)%nat -> accepts ic (upTo k (Class p)) s.
Proof.
  revert s. induction k as [|k IH]; intros s Hs Hlen.
  - destruct s; [constructor | simpl in Hlen; lia].
  - destruct s as [|c s]; simpl.
    + apply AcceptsOrLeft. constructor.
    + simpl in Hs. apply andb_true_iff in Hs. destruct Hs as [Hc Hs].
      apply AcceptsOrRight.
      change (String c s) with (String c EmptyString +:+ s).
      apply AcceptsCat; [constructor; apply Hclass, Hc|].
      apply IH; [exact Hs | simpl in Hlen; lia].
Qed.

Lemma accepts_star (s : string) :
  everyChar q s = true -> accepts ic (Star (Class p)) s.
Proof.
  induction s as [|c s IH]; simpl; [intros _; constructor|].
  intros H. apply andb_true_iff in H. destruct H as [Hc Hs].
  change (String c s) with (String c EmptyString +:+ s).
  apply AcceptsStarMore; [constructor; apply Hclass, Hc | apply IH, Hs].
Qed.

(** [r{m,n}] holds of every string of [m] to [n] characters of the
    class. *)
Lemma accepts_between (m n : nat) (s : string) :
  everyChar q s = true -> (m <= String.length s <= n)%nat ->
  accepts ic (between m n (Class p)) s.
Proof.
  unfold between. revert s n. induction m as [|m IH]; intros s n Hs Hlen.
  - rewrite <- (RegexFacts.append_empty_l s).
    apply AcceptsCat; [constructor|].
    apply accepts_upTo; [exact Hs | lia].
  - destruct s as [|c s]; [simpl in Hlen; lia|].
    simpl in Hs. apply andb_true_iff in Hs. destruct Hs as [Hc Hs].
    simpl in Hlen.
    assert (Hrest : accepts ic (Cat (times m (Class p)) (upTo (n - 1 - m) (Class p))) s).
    { apply IH; [exact Hs | lia]. }
    replace (n - S m)%nat with (n - 1 - m)%nat by lia.
    inversion Hrest as [| |r1 r2 s1 s2 H1 H2| | | |]. subst.
    change (String c (s1 +:+ s2)) with (String c s1 +:+ s2).
    apply AcceptsCat; [|exact H2].
    change (String c s1) with (String c EmptyString +:+ s1).
    apply AcceptsCat; [constructor; apply Hclass, Hc | exact H1].
Qed.

End Classes.

Lemma alphanumeric_class (c : ascii) :
  isAlphanumeric c = true -> classTest true (either az d09) c = true.
Proof.
  destruct c as [[] [] [] [] [] [] [] []]; vm_compute; intros H;
    first [reflexivity | discriminate].
Qed.

Lemma digit_class (c : ascii) : isDigit c = true -> classTest false d09 c = true.
Proof.
  destruct c as [[] [] [] [] [] [] [] []]; vm_compute; intros H;
    first [reflexivity | discriminate].
Qed.

Lemma keepName_dynamic (type : Utils.NameType) (name : string) :
  List.existsb (fun p => test p name) Utils.dynamicPatterns = true ->
  Utils.keepName type name = false.
Proof.
  intros H. unfold Utils.keepName.
  destruct (negb (Js.truthy name) || (String.length name <? 2)%nat); [reflexivity|].
  cbv zeta. rewrite H. destruct type; reflexivity.
Qed.

(** X2.  Names that are never kept, as a class name or as an id: names of
    fewer than two characters, names of digits only, and names of 8 to 12
    ASCII letters and digits, such as [username] or [container]. *)
Theorem plain_names_taken_for_generated (type : Utils.NameType) (name : string) :
  ((String.length name < 2)%nat
   \/ (name <> "" /\ everyChar isDigit name = true)
   \/ ((8 <= String.length name <= 12)%nat /\ everyChar isAlphanumeric name = true)) ->
  Utils.keepName type name = false
  /\ Utils.filterFrameworkGeneratedNames [name] type = []
  /\ Utils.isValidId name = false
  /\ Utils.getValidId name = None.
Proof.
  intros H.
  assert (Hkeep : forall t, Utils.keepName t name = false).
  { intros t. destruct H as [Hshort | [[Hne Hdigits] | [Hlen Halnum]]].
    - unfold Utils.keepName. apply Nat.ltb_lt in Hshort. rewrite Hshort.
      rewrite orb_true_r. reflexivity.
    - apply keepName_dynamic. apply existsb_exists.
      exists (full (plus Utils.digit)). split.
      + unfold Utils.dynamicPatterns. simpl. tauto.
      + apply test_anchored; [reflexivity | reflexivity |]. simpl.
        destruct name as [|c s]; [congruence|].
        simpl in Hdigits. apply andb_true_iff in Hdigits. destruct Hdigits as [Hc Hs].
        change (String c s) with (String c EmptyString +:+ s).
        apply AcceptsCat; [constructor; apply digit_class, Hc|].
        apply (accepts_star false d09 isDigit digit_class s Hs).
    - apply keepName_dynamic. apply existsb_exists.
      exists (full_i (between 8 12 Utils.alnum)). split.
      + unfold Utils.dynamicPatterns. simpl. tauto.
      + apply test_anchored; [reflexivity | reflexivity |]. simpl.
        apply (accepts_between true (either az d09) isAlphanumeric alphanumeric_class
                 8 12 name Halnum Hlen). }
  assert (Hfilter : Utils.filterFrameworkGeneratedNames [name] Utils.IdType = []).
  { unfold Utils.filterFrameworkGeneratedNames. simpl. rewrite Hkeep. reflexivity. }
  split; [apply Hkeep|]. split.
  - unfold Utils.filterFrameworkGeneratedNames. simpl. rewrite Hkeep. reflexivity.
  - assert (Hid : Utils.getValidId name = None).
    { unfold Utils.getValidId. rewrite Hfilter.
      destruct (negb (Js.truthy name)); reflexivity. }
    split; [unfold Utils.isValidId; rewrite Hid; reflexivity | exact Hid].
Qed.

Lemma plain_names_taken_for_generated_witness :
  ((8 <= String.length "username" <= 12)%nat /\ everyChar isAlphanumeric "username" = true)
  /\ Utils.isValidId "username" = false
  /\ Utils.filterFrameworkGeneratedNames ["username"] Utils.ClassType = [].
Proof.
  assert (H : (8 <= String.length "username" <= 12)%nat
              /\ everyChar isAlphanumeric "username" = true)
    by (split; [simpl; lia | reflexivity]).
  split; [exact H|].
  split; apply (plain_names_taken_for_generated Utils.ClassType "username");
    right; right; exact H.
Defined.

Lemma accepts_lit_any_case (s : string) : accepts true (lit (Js.toLowerCase s)) s.
Proof.
  induction s as [|c s IH]; simpl; [constructor|].
  change (String c s) with (String c EmptyString +:+ s).
  apply AcceptsCat; [|exact IH].
  constructor. unfold classTest. rewrite Ascii.eqb_refl. reflexivity.
Qed.

Lemma getValidId_keep (id : string) :
  Utils.getValidId id = if Utils.keepName Utils.IdType id then Some id else None.
Proof.
  unfold Utils.getValidId, Utils.filterFrameworkGeneratedNames. simpl.
  destruct (Utils.keepName Utils.IdType id) eqn:Hk; simpl.
  - unfold Utils.keepName in Hk. destruct (negb (Js.truthy id)); [discriminate | reflexivity].
  - destruct (negb (Js.truthy id)); reflexivity.
Qed.

(** X3.  An id is valid when the filter keeps it, and [getValidId] answers the
    id itself or nothing.  An id that starts with [react-], [vue-] or
    [ng-], in any case, is never valid. *)
Theorem framework_ids_are_never_valid (prefix rest : string) :
  In (Js.toLowerCase prefix) ["react-"; "vue-"; "ng-"] ->
  Utils.getValidId (prefix +:+ rest) = None
  /\ Utils.isValidId (prefix +:+ rest) = false
  /\ Utils.filterFrameworkGeneratedNames [prefix +:+ rest] Utils.IdType = []
  /\ (forall id answer, Utils.getValidId id = Some answer ->
        answer = id /\ Utils.isValidId id = true
        /\ Utils.filterFrameworkGeneratedNames [id] Utils.IdType = [id]
        /\ Utils.filterFrameworkGeneratedNames [id] Utils.ClassType = [id]).
Proof.
  intros Hprefix.
  assert (Hkeep : Utils.keepName Utils.IdType (prefix +:+ rest) = false).
  { unfold Utils.keepName.
    destruct (negb (Js.truthy (prefix +:+ rest)) || (String.length (prefix +:+ rest) <? 2)%nat);
      [reflexivity|].
    cbv zeta.
    assert (Hid : List.existsb (fun p => test p (prefix +:+ rest)) Utils.idPatterns = true).
    { apply existsb_exists. exists (prefix_i (lit (Js.toLowerCase prefix))). split.
      - simpl in Hprefix. destruct Hprefix as [H|[H|[H|[]]]]; rewrite <- H; simpl; tauto.
      - apply test_prefix; [reflexivity | reflexivity |]. apply accepts_lit_any_case. }
    rewrite Hid. rewrite andb_false_r. reflexivity. }
  assert (Hnone : Utils.getValidId (prefix +:+ rest) = None)
    by (rewrite getValidId_keep, Hkeep; reflexivity).
  split; [exact Hnone|]. split; [unfold Utils.isValidId; rewrite Hnone; reflexivity|].
  split; [unfold Utils.filterFrameworkGeneratedNames; simpl; rewrite Hkeep; reflexivity|].
  intros id answer H. rewrite getValidId_keep in H.
  destruct (Utils.keepName Utils.IdType id) eqn:Hk; [|discriminate].
  injection H as H. subst answer.
  split; [reflexivity|]. split.
  - unfold Utils.isValidId. rewrite getValidId_keep, Hk. reflexivity.
  - split; unfold Utils.filterFrameworkGeneratedNames; simpl; [rewrite Hk; reflexivity|].
    unfold Utils.keepName in *.
    destruct (negb (Js.truthy id) || (String.length id <? 2)%nat); [discriminate|].
    cbv zeta in Hk. apply andb_true_iff in Hk. destruct Hk as [Hk _]. rewrite Hk. reflexivity.
Qed.

Lemma framework_ids_are_never_valid_witness :
  In (Js.toLowerCase "React-") ["react-"; "vue-"; "ng-"]
  /\ Utils.isValidId "React-root" = false.
Proof.
  assert (H : In (Js.toLowerCase "React-") ["react-"; "vue-"; "ng-"]) by (left; reflexivity).
  split; [exact H|].
  apply (framework_ids_are_never_valid "React-" "root" H).
Defined.

End NameFacts.

(** ** The stable attributes *)

Module StableAttributeFacts.

Import Utils.

(** What [getStableAttributes] makes of one attribute alone: nothing, or
    one entry. *)
Abbreviation alone := (fun attr : string * string => stableAttrsLoop [attr] []).

Abbreviation high := (AttributeStrategy.hasPriority High).

Lemma alone_cases (attr : string * string) :
  alone attr = []
  \/ exists p, alone attr = [Build_StableAttr (fst attr) (snd attr) p]
               /\ isFrameworkAttribute (fst attr) (snd attr) = false
               /\ (p = High <->
                   includesString (fst attr) ["id"; "name"; "title"; "alt"; "role"; "type"]
                   = true).
Proof.
  destruct attr as [name value]. cbn [stableAttrsLoop fst snd].
  destruct (isFrameworkAttribute name value); [left; reflexivity|].
  destruct (negb (Js.truthy value)
            && negb (includesString name ["checked"; "selected"; "disabled"; "readonly"]));
    [left; reflexivity|].
  destruct (includesString name ["id"; "name"; "title"; "alt"; "role"; "type"]) eqn:Hhigh.
  - right. exists High. repeat split; reflexivity.
  - destruct ((Js.startsWith "aria-" name || includesString name ["placeholder"; "value"])
              && negb (isRandomGeneratedValue value)).
    + right. exists Medium. repeat split; try reflexivity; intros H; discriminate.
    + destruct (negb (Js.startsWith "data-" name) || isStableDataAttribute name value).
      * right. exists Low. repeat split; try reflexivity; intros H; discriminate.
      * left. reflexivity.
Qed.

Lemma stableAttrsLoop_composed (attrs : list (string * string)) (acc : list StableAttr) :
  stableAttrsLoop attrs acc
  = List.rev (List.filter high (List.flat_map alone attrs))
    ++ acc
    ++ List.filter (fun a => negb (high a)) (List.flat_map alone attrs).
Proof.
  revert acc. induction attrs as [|[name value] attrs IH]; intros acc.
  - simpl. rewrite app_nil_r. reflexivity.
  - cbn [List.flat_map]. rewrite !List.filter_app, rev_app_distr.
    cbn [stableAttrsLoop].
    destruct (isFrameworkAttribute name value);
      [rewrite IH; simpl; rewrite app_nil_r; reflexivity|].
    destruct (negb (Js.truthy value)
              && negb (includesString name ["checked"; "selected"; "disabled"; "readonly"]));
      [rewrite IH; simpl; rewrite app_nil_r; reflexivity|].
    destruct (includesString name ["id"; "name"; "title"; "alt"; "role"; "type"]).
    { rewrite IH. simpl. rewrite <- !app_assoc. reflexivity. }
    destruct ((Js.startsWith "aria-" name || includesString name ["placeholder"; "value"])
              && negb (isRandomGeneratedValue value)).
    { rewrite IH. simpl. rewrite app_nil_r, <- !app_assoc. reflexivity. }
    destruct (negb (Js.startsWith "data-" name) || isStableDataAttribute name value).
    { rewrite IH. simpl. rewrite app_nil_r, <- !app_assoc. reflexivity. }
    rewrite IH. simpl. rewrite app_nil_r. reflexivity.
Qed.

(** X4.  The order of [getStableAttributes]: it is made of what each
    attribute gives alone; the attributes of high priority come first, the
    last of the element first, and the others follow in the order of the
    element.  Every entry is an attribute of the element that
    [isFrameworkAttribute] lets pass, and is of high priority exactly when
    its name is one of [id], [name], [title], [alt], [role], [type]. *)
Theorem stable_attributes_order (e : Dom.ElementData) :
  let each := List.flat_map alone (Dom.attributes e) in
  getStableAttributes e
  = List.rev (List.filter high each) ++ List.filter (fun a => negb (high a)) each
  /\ forall a, In a (getStableAttributes e) ->
       In (attrName a, attrValue a) (Dom.attributes e)
       /\ isFrameworkAttribute (attrName a) (attrValue a) = false
       /\ (attrPriority a = High <->
           includesString (attrName a) ["id"; "name"; "title"; "alt"; "role"; "type"] = true).
Proof.
  cbv zeta.
  assert (Heq : getStableAttributes e
                = List.rev (List.filter high (List.flat_map alone (Dom.attributes e)))
                  ++ List.filter (fun a => negb (high a))
                       (List.flat_map alone (Dom.attributes e))).
  { unfold getStableAttributes. rewrite stableAttrsLoop_composed. reflexivity. }
  split; [exact Heq|].
  intros a Ha. rewrite Heq in Ha. apply in_app_or in Ha.
  assert (Hin : In a (List.flat_map alone (Dom.attributes e))).
  { destruct Ha as [Ha|Ha].
    - apply in_rev in Ha. apply filter_In in Ha. apply Ha.
    - apply filter_In in Ha. apply Ha. }
  apply in_flat_map in Hin. destruct Hin as [attr [Hattr Hone]].
  destruct (alone_cases attr) as [Hnil | [p [Hp [Hfw Hhigh]]]].
  - rewrite Hnil in Hone. destruct Hone.
  - rewrite Hp in Hone. destruct Hone as [Hone|[]]. subst a. simpl.
    destruct attr as [name value]. simpl in *. repeat split; try assumption; apply Hhigh.
Qed.

End StableAttributeFacts.

(** ** The cache key, further *)

Module CacheKeyOrderFacts.

Import ElementAnalyzer Base36Spec CacheKeySpec.

Lemma ascii_compare_lt_trans (a b c : ascii) :
  Ascii.compare a b = Lt -> Ascii.compare b c = Lt -> Ascii.compare a c = Lt.
Proof.
  unfold Ascii.compare. rewrite !N.compare_lt_iff. apply N.lt_trans.
Qed.

Lemma string_compare_lt_trans (a b c : string) :
  String.compare a b = Lt -> String.compare b c = Lt -> String.compare a c = Lt.
Proof.
  revert b c. induction a as [|x a IH]; intros [|y b] [|z c]; simpl;
    try discriminate; try reflexivity.
  destruct (Ascii.compare x y) eqn:Hxy; try discriminate;
    destruct (Ascii.compare y z) eqn:Hyz; try discriminate; intros H1 H2.
  - apply Ascii.compare_eq_iff in Hxy, Hyz. subst.
    assert (E : Ascii.compare z z = Eq) by (unfold Ascii.compare; apply N.compare_refl).
    rewrite E. apply (IH b c H1 H2).
  - apply Ascii.compare_eq_iff in Hxy. subst. rewrite Hyz. reflexivity.
  - apply Ascii.compare_eq_iff in Hyz. subst. rewrite Hxy. reflexivity.
  - rewrite (ascii_compare_lt_trans x y z Hxy Hyz). reflexivity.
Qed.

Lemma after_gt (a b : string) : after a b = true <-> String.compare a b = Gt.
Proof.
  unfold after, compareStrings. destruct (String.compare a b); simpl;
    split; intros H; first [reflexivity | discriminate].
Qed.

Lemma gt_lt (a b : string) : String.compare a b = Gt <-> String.compare b a = Lt.
Proof.
  rewrite (String.compare_antisym b a). destruct (String.compare a b); simpl;
    split; intros H; first [reflexivity | discriminate].
Qed.

(** [a] after [c] and [b] not after [c]: [a] after [b]. *)
Lemma after_trans (a b c : string) :
  after a c = true -> after b c = false -> after a b = true.
Proof.
  intros H1 H2. apply after_gt. apply after_gt in H1.
  destruct (String.compare b c) eqn:Hbc.
  - apply String.compare_eq_iff in Hbc. subst. exact H1.
  - apply gt_lt. apply gt_lt in H1. apply (string_compare_lt_trans b c a Hbc H1).
  - apply after_gt in Hbc. congruence.
Qed.

Lemma after_neither (a b : string) : after a b = false -> after b a = false -> a = b.
Proof.
  intros H1 H2. destruct (String.compare a b) eqn:Hab.
  - apply String.compare_eq_iff. exact Hab.
  - apply gt_lt in Hab. apply after_gt in Hab. congruence.
  - apply after_gt in Hab. congruence.
Qed.

Lemma after_both (a b : string) : after a b = true -> after b a = true -> False.
Proof.
  intros H1 H2. apply after_gt in H1, H2. apply gt_lt in H2. congruence.
Qed.

Lemma insert_cons (x y : string) (l : list string) :
  JsArray.insert compareStrings x (y :: l)
  = if after x y then y :: JsArray.insert compareStrings x l else x :: y :: l.
Proof. reflexivity. Qed.

Lemma insert_insert (x y : string) (l : list string) :
  JsArray.insert compareStrings x (JsArray.insert compareStrings y l)
  = JsArray.insert compareStrings y (JsArray.insert compareStrings x l).
Proof.
  induction l as [|z l IH].
  - change (JsArray.insert compareStrings y []) with [y].
    change (JsArray.insert compareStrings x []) with [x].
    rewrite !insert_cons.
    change (JsArray.insert compareStrings y []) with [y].
    change (JsArray.insert compareStrings x []) with [x].
    destruct (after x y) eqn:Hxy, (after y x) eqn:Hyx; try reflexivity.
    + exfalso. apply (after_both x y Hxy Hyx).
    + rewrite (after_neither x y Hxy Hyx). reflexivity.
  - rewrite (insert_cons y z), (insert_cons x z).
    destruct (after x z) eqn:Hxz, (after y z) eqn:Hyz.
    + rewrite !insert_cons, Hxz, Hyz, IH. reflexivity.
    + rewrite !insert_cons, Hyz, Hxz. rewrite (after_trans x y z Hxz Hyz). reflexivity.
    + rewrite !insert_cons, Hxz, Hyz. rewrite (after_trans y x z Hyz Hxz). reflexivity.
    + rewrite !insert_cons, Hxz, Hyz.
      destruct (after x y) eqn:Hxy, (after y x) eqn:Hyx; try reflexivity.
      * exfalso. apply (after_both x y Hxy Hyx).
      * rewrite (after_neither x y Hxy Hyx). reflexivity.
Qed.

(** [sort()] of strings depends on the elements only, not on their
    order. *)
Lemma sort_permuted (l1 l2 : list string) :
  Permutation l1 l2 -> JsArray.sort compareStrings l1 = JsArray.sort compareStrings l2.
Proof.
  induction 1 as [|x l1 l2 _ IH|x y l|l1 l2 l3 _ IH1 _ IH2]; simpl.
  - reflexivity.
  - rewrite IH. reflexivity.
  - apply insert_insert.
  - rewrite IH1. exact IH2.
Qed.

(** X5.  The attribute hash does not depend on the order of the attributes. *)
Theorem hashAttributes_ignores_attribute_order (el1 el2 : Dom.Element) :
  Permutation (Dom.attributes (Dom.self el1)) (Dom.attributes (Dom.self el2)) ->
  hashAttributes el1 = hashAttributes el2.
Proof.
  intros H. unfold hashAttributes.
  rewrite (sort_permuted _ _ (Permutation_map (fun attr => fst attr +:+ "=" +:+ snd attr) H)).
  reflexivity.
Qed.

Lemma hashAttributes_ignores_attribute_order_witness :
  Permutation [("type", "text"); ("name", "q")] [("name", "q"); ("type", "text")]
  /\ hashAttributes
       {| Dom.self := Fixtures.htmlElement "INPUT" [("type", "text"); ("name", "q")];
          Dom.childNodes := []; Dom.above := [] |}
     = hashAttributes
         {| Dom.self := Fixtures.htmlElement "INPUT" [("name", "q"); ("type", "text")];
            Dom.childNodes := []; Dom.above := [] |}.
Proof.
  assert (H : Permutation [("type", "text"); ("name", "q")] [("name", "q"); ("type", "text")])
    by apply perm_swap.
  split; [exact H|].
  apply (hashAttributes_ignores_attribute_order
           {| Dom.self := Fixtures.htmlElement "INPUT" [("type", "text"); ("name", "q")];
              Dom.childNodes := []; Dom.above := [] |}
           {| Dom.self := Fixtures.htmlElement "INPUT" [("name", "q"); ("type", "text")];
              Dom.childNodes := []; Dom.above := [] |} H).
Defined.

Lemma digitValue_digit36 (d : Z) : 0 <= d < 36 -> digitValue (digit36 d) = Some d.
Proof.
  intros H. rewrite <- (Z2Nat.id d) by lia.
  assert (Hn : (Z.to_nat d < 36)%nat) by lia.
  remember (Z.to_nat d) as n eqn:En. clear En H d.
  do 36 (destruct n as [|n]; [vm_compute; reflexivity|]). lia.
Qed.

Lemma base36_step (steps : nat) (n : Z) (acc : string) :
  base36 (S steps) n acc
  = if n / 36 =? 0 then String (digit36 (n mod 36)) acc
    else base36 steps (n / 36) (String (digit36 (n mod 36)) acc).
Proof. reflexivity. Qed.

(** The digits written for [n] read back as [n]. *)
Lemma base36_value (k : nat) (n : Z) (acc : string) :
  0 <= n < 36 ^ Z.of_nat (S k) ->
  digitsValue (base36 (S k) n acc) 0 = digitsValue acc n.
Proof.
  revert n acc. induction k as [|k IH]; intros n acc H; rewrite base36_step.
  - assert (Hq : n / 36 = 0) by (apply Z.div_small; simpl in H; lia).
    rewrite Hq. simpl. rewrite digitValue_digit36 by (apply Z.mod_pos_bound; lia).
    rewrite Z.mod_small by (simpl in H; lia). reflexivity.
  - destruct (n / 36 =? 0) eqn:Hq.
    + apply Z.eqb_eq in Hq. simpl.
      rewrite digitValue_digit36 by (apply Z.mod_pos_bound; lia).
      f_equal. pose proof (Z.div_mod n 36 ltac:(lia)). lia.
    + rewrite IH.
      * simpl. rewrite digitValue_digit36 by (apply Z.mod_pos_bound; lia).
        f_equal. pose proof (Z.div_mod n 36 ltac:(lia)). lia.
      * rewrite Nat2Z.inj_succ, Z.pow_succ_r in H by lia.
        split; [apply Z.div_pos; lia | apply Z.div_lt_upper_bound; lia].
Qed.

Lemma base36_nonempty (k : nat) (n : Z) (acc : string) : base36 (S k) n acc <> "".
Proof.
  revert n acc. induction k as [|k IH]; intros n acc; rewrite base36_step.
  - destruct (n / 36 =? 0); discriminate.
  - destruct (n / 36 =? 0); [discriminate | apply IH].
Qed.

Lemma toString36_reads_back (hash : Z) :
  - 2 ^ 31 <= hash < 2 ^ 31 -> parse36 (toString36 hash) = Some hash.
Proof.
  intros H. unfold toString36. destruct (hash <? 0) eqn:Hneg.
  - apply Z.ltb_lt in Hneg. rewrite RegexFacts.append_cons, RegexFacts.append_empty_l.
    unfold parse36. change (Ascii.eqb "-" "-") with true. cbv iota.
    pose proof (base36_nonempty 6 (- hash) "") as Hne.
    pose proof (base36_value 6 (- hash) "") as Hv.
    destruct (base36 7 (- hash) "") as [|c rest] eqn:Hdigits; [congruence|].
    rewrite Hv.
    + simpl. f_equal. lia.
    + change (36 ^ Z.of_nat 7) with 78364164096. change (2 ^ 31) with 2147483648 in H. lia.
  - apply Z.ltb_ge in Hneg.
    pose proof (base36_nonempty 6 hash "") as Hne.
    pose proof (base36_value 6 hash "") as Hv.
    assert (Hrange : 0 <= hash < 36 ^ Z.of_nat 7).
    { change (36 ^ Z.of_nat 7) with 78364164096. change (2 ^ 31) with 2147483648 in H. lia. }
    specialize (Hv Hrange). simpl digitsValue at 2 in Hv.
    destruct (base36 7 hash "") as [|c rest] eqn:Hdigits; [congruence|].
    unfold parse36. destruct (Ascii.eqb c "-") eqn:Hc; [|exact Hv].
    apply Ascii.eqb_eq in Hc. subst c. simpl in Hv. discriminate.
Qed.

(** X6.  The attribute hash is the base-36 writing of a signed 32-bit
    number: read back with [parseInt(s, 36)] it gives the number the loop
    computed, which is in the 32-bit range.  With [hash_step], every
    character [c] takes the number [h] to [31 * h + c] in 32 bits. *)
Theorem hashAttributes_reads_back (element : Dom.Element) :
  let attrs :=
    Js.join "|"
      (JsArray.sort compareStrings
         (List.map (fun attr => fst attr +:+ "=" +:+ snd attr)
                   (Dom.attributes (Dom.self element)))) in
  parse36 (hashAttributes element) = Some (hashLoop attrs 0)
  /\ - 2 ^ 31 <= hashLoop attrs 0 < 2 ^ 31
  /\ hashAttributes element <> ""
  /\ forall (c : ascii) (rest : string) (h : Z),
       hashLoop (String c rest) h
       = hashLoop rest (toInt32 (31 * h + Z.of_nat (nat_of_ascii c))).
Proof.
  cbv zeta.
  pose proof (CacheKeyFacts.hashLoop_range
                (Js.join "|"
                   (JsArray.sort compareStrings
                      (List.map (fun attr => fst attr +:+ "=" +:+ snd attr)
                                (Dom.attributes (Dom.self element))))) 0 ltac:(lia)) as Hrange.
  split; [|split; [exact Hrange | split]].
  - unfold hashAttributes. apply toString36_reads_back. exact Hrange.
  - unfold hashAttributes, toString36.
    destruct (_ <? 0); [rewrite RegexFacts.append_cons; discriminate|].
    apply base36_nonempty.
  - intros c rest h. simpl. rewrite CacheKeyFacts.hash_step. reflexivity.
Qed.

(** The walk of [getElementPath] over the ancestors does not read the
    child nodes. *)
Lemma pathLoop_ancestors (documentBody : option Dom.NodeId) (frames : list Dom.Frame)
    (node node' : Dom.Node) (path : list string) :
  pathLoop documentBody (Dom.ancestorsFrom node frames) path
  = pathLoop documentBody (Dom.ancestorsFrom node' frames) path.
Proof.
  revert node node' path. induction frames as [|f fs IH]; intros node node' path;
    [reflexivity|].
  cbn [Dom.ancestorsFrom pathLoop].
  unfold isBody, Dom.nodeId, childIndex. cbn [Dom.above Dom.self].
  destruct (match documentBody with
            | Some b => Dom.sameNode (List.map Dom.positionIn fs) b
            | None => false
            end); [reflexivity|].
  apply IH.
Qed.

Lemma getElementPath_children (documentBody : option Dom.NodeId) (el : Dom.Element)
    (childNodes : list Dom.Node) :
  getElementPath documentBody (withChildNodes el childNodes) = getElementPath documentBody el.
Proof.
  unfold getElementPath, Dom.chain, withChildNodes. cbn [pathLoop Dom.above].
  unfold isBody, Dom.nodeId, childIndex. cbn [Dom.above Dom.self].
  destruct (match documentBody with
            | Some b => Dom.sameNode (List.map Dom.positionIn (Dom.above el)) b
            | None => false
            end); [reflexivity|].
  f_equal. apply pathLoop_ancestors.
Qed.

Lemma generateCacheKey_children (documentBody : option Dom.NodeId) (el : Dom.Element)
    (childNodes : list Dom.Node) :
  generateCacheKey documentBody (withChildNodes el childNodes)
  = generateCacheKey documentBody el.
Proof.
  unfold generateCacheKey. rewrite getElementPath_children. reflexivity.
Qed.

Lemma depthLoop_length (documentBody : option Dom.NodeId) (currents : list Dom.Element)
    (path : list string) (depth : Z) :
  depth = Z.of_nat (List.length path) ->
  depthLoop documentBody currents depth
  = Z.of_nat (List.length (pathLoop documentBody currents path)).
Proof.
  revert path depth. induction currents as [|c rest IH]; intros path depth H; simpl.
  - exact H.
  - destruct (isBody documentBody c); [exact H|].
    apply IH. simpl List.length. lia.
Qed.

Lemma depthLoop_bounds (documentBody : option Dom.NodeId) (currents : list Dom.Element)
    (depth : Z) :
  depth <= depthLoop documentBody currents depth <= depth + Z.of_nat (List.length currents).
Proof.
  revert depth. induction currents as [|c rest IH]; intros depth; simpl; [lia|].
  destruct (isBody documentBody c); [lia|].
  specialize (IH (depth + 1)). lia.
Qed.

Lemma chain_length (element : Dom.Element) :
  List.length (Dom.chain element) = S (List.length (Dom.above element)).
Proof.
  unfold Dom.chain. simpl. f_equal.
  generalize (Dom.toNode element). induction (Dom.above element) as [|f fs IH];
    intros node; simpl; [reflexivity | rewrite IH; reflexivity].
Qed.

Lemma depth_range (documentBody : option Dom.NodeId) (element : Dom.Element) :
  0 <= getElementDepth documentBody element
    <= Z.of_nat (List.length (Dom.above element)) + 1.
Proof.
  unfold getElementDepth.
  pose proof (depthLoop_bounds documentBody (Dom.chain element) 0) as H.
  rewrite chain_length in H. lia.
Qed.

(** X7.  The depth of an element is the number of segments of its path: the
    levels from the element up to, and without, the body.  It is 0 for the
    body alone and never more than the number of levels of the tree. *)
Theorem depth_counts_the_path_segments (documentBody : option Dom.NodeId)
    (element : Dom.Element) :
  getElementDepth documentBody element
  = Z.of_nat (List.length (pathLoop documentBody (Dom.chain element) []))
  /\ 0 <= getElementDepth documentBody element
       <= Z.of_nat (List.length (Dom.above element)) + 1
  /\ (getElementDepth documentBody element = 0 <-> isBody documentBody element = true)
  /\ (isBody documentBody element = true -> getElementPath documentBody element = "").
Proof.
  unfold getElementDepth. split; [apply depthLoop_length; reflexivity|]. split.
  - apply depth_range.
  - split.
    + unfold Dom.chain. simpl. destruct (isBody documentBody element); split; intros H;
        try reflexivity; try discriminate.
      pose proof (depthLoop_bounds documentBody
                    (Dom.ancestorsFrom (Dom.toNode element) (Dom.above element)) (0 + 1)).
      lia.
    + intros H. unfold getElementPath, Dom.chain. simpl. rewrite H. reflexivity.
Qed.

End CacheKeyOrderFacts.

(** ** The generator's cache, further *)

Module GeneratorCacheFacts.

Import XPathGenerator GeneratorSpec CacheKeySpec.

Section Host.

Variable Context : Type.
Variable Options : Type.
Variable Analysis : Type.
Variable buildContext : Dom.Element -> ManagerOptions Options Analysis -> Context.
Variable documentBody : option Dom.NodeId.
Variable analyze : Dom.Element -> comp Analysis.
Variable strategies : list (BaseStrategy.Strategy Context).
Variable clock : nat -> Z.

Abbreviation generateWith :=
  (generateXPath Context Options Analysis buildContext documentBody analyze strategies clock).
Abbreviation keyOf := (ElementAnalyzer.generateCacheKey documentBody).

(** X8.  The cache key reads the tag names and positions on the way up and
    the attributes of the element, not its child nodes.  So a result
    stored for an element is answered, while it is young, also after the
    text or the descendants of the element have changed: the analysis and
    the strategies are not run on the new content. *)
Theorem stored_result_outlives_the_content
    (el : Dom.Element) (childNodes : list Dom.Node) (opts : Options)
    (st : State Context Analysis) (entry : CacheEntry Context Analysis) :
  Js.truthy (Dom.tagName (Dom.self el)) = true ->
  cache st !! keyOf el = Some entry ->
  clock (readings st) - storedAt entry < cacheTimeout ->
  keyOf (withChildNodes el childNodes) = keyOf el
  /\ generateWith (Some (withChildNodes el childNodes)) opts st = Ret (data entry, tick st).
Proof.
  intros Ht Hentry Hyoung.
  pose proof (CacheKeyOrderFacts.generateCacheKey_children documentBody el childNodes) as Hkey.
  split; [exact Hkey|].
  apply (GeneratorFacts.generate_hit Context Options Analysis buildContext documentBody
           analyze strategies clock (withChildNodes el childNodes) opts st entry).
  - exact Ht.
  - rewrite Hkey. exact Hentry.
  - exact Hyoung.
Qed.

(** X9.  [cleanupCache] and the test of [generateXPath] agree but for one
    age: an entry the generator would still answer is never removed, an
    entry older than the timeout is removed, and an entry exactly as old
    as the timeout stays in the cache without being answered.  Entries are
    removed, never changed or added. *)
Theorem cleanup_spares_what_is_served (st : State Context Analysis) :
  let now := clock (readings st) in
  let cleaned := cleanupCache Context Analysis clock st in
  readings cleaned = S (readings st)
  /\ (forall key entry,
        cache cleaned !! key = Some entry <->
        cache st !! key = Some entry /\ now - storedAt entry <= cacheTimeout)
  /\ (forall key entry,
        cache st !! key = Some entry -> now - storedAt entry < cacheTimeout ->
        cache cleaned !! key = Some entry)
  /\ (forall key entry,
        cache st !! key = Some entry -> now - storedAt entry > cacheTimeout ->
        cache cleaned !! key = None)
  /\ (forall el opts entry,
        Js.truthy (Dom.tagName (Dom.self el)) = true ->
        cache st !! keyOf el = Some entry ->
        now - storedAt entry = cacheTimeout ->
        cache cleaned !! keyOf el = Some entry
        /\ generateWith (Some el) opts st
           = Ret (generateFresh Context Options Analysis buildContext documentBody analyze
                    strategies clock (keyOf el) el opts (tick st))).
Proof.
  cbv zeta. unfold cleanupCache, dateNow. cbn [readings cache].
  assert (Hiff : forall key entry,
            filter (fun kv : string * CacheEntry Context Analysis =>
                      ¬ (clock (readings st) - storedAt (snd kv) > cacheTimeout))
                   (cache st) !! key = Some entry <->
            cache st !! key = Some entry /\ clock (readings st) - storedAt entry <= cacheTimeout).
  { intros key entry. rewrite map_lookup_filter_Some. simpl. split.
    - intros [H1 H2]. split; [exact H1 | lia].
    - intros [H1 H2]. split; [exact H1 | lia]. }
  split; [reflexivity|]. split; [exact Hiff|]. split; [|split].
  - intros key entry H1 H2. apply Hiff. split; [exact H1 | lia].
  - intros key entry H1 H2.
    destruct (filter _ (cache st) !! key) as [e|] eqn:He; [|reflexivity].
    apply Hiff in He. destruct He as [He1 He2]. rewrite H1 in He1. injection He1 as He1.
    subst e. lia.
  - intros el opts entry Ht H1 H2. split.
    + apply Hiff. split; [exact H1 | lia].
    + apply (GeneratorFacts.generate_expired Context Options Analysis buildContext
               documentBody analyze strategies clock el opts st entry Ht H1). lia.
Qed.

End Host.

(** X10.  What [XPathGenerator.validateXPath] reports: [valid] tells that the
    expression was evaluated, [matchCount] counts the nodes selected,
    [correct] is the test the strategies make with
    [BaseStrategy.validateXPath], and [unique] together with [correct]
    tells that the expression selects the target and nothing else. *)
Theorem validation_report (evaluate : string -> comp (list Dom.NodeId))
    (xpath : string) (target : Dom.Element) :
  let report := validateXPath evaluate xpath target in
  (valid report = false <-> exists m, evaluate xpath = Throw m)
  /\ (forall nodes, evaluate xpath = Ret nodes ->
        matchCount report = Z.of_nat (List.length nodes))
  /\ correct report = BaseStrategy.validateXPath evaluate xpath target
  /\ (unique report = true /\ correct report = true <->
      exists node, evaluate xpath = Ret [node]
                   /\ Dom.sameNode node (Dom.nodeId target) = true)
  /\ (valid report = false ->
      unique report = false /\ correct report = false /\ matchCount report = 0).
Proof.
  cbv zeta. unfold validateXPath, BaseStrategy.validateXPath.
  destruct (evaluate xpath) as [nodes|m]; simpl.
  - split; [split; [discriminate | intros [m H]; discriminate]|].
    split; [intros nodes' H; injection H as H; subst; reflexivity|].
    split.
    { destruct nodes as [|first rest]; [reflexivity|]. simpl.
      replace (0 <? Z.pos (Pos.of_succ_nat (List.length rest))) with true
        by (symmetry; apply Z.ltb_lt; lia).
      reflexivity. }
    split; [|discriminate].
    split.
    + intros [Hu Hc]. apply Z.eqb_eq in Hu.
      destruct nodes as [|first [|second rest]]; simpl in Hu; try lia.
      apply andb_true_iff in Hc. destruct Hc as [_ Hc].
      exists first. split; [reflexivity | exact Hc].
    + intros [node [H Hs]]. injection H as H. subst nodes. simpl. rewrite Hs.
      split; reflexivity.
  - split; [split; [intros _; exists m; reflexivity | reflexivity]|].
    split; [intros nodes H; discriminate|].
    split; [reflexivity|].
    split; [|intros _; repeat split].
    split; [intros [H _]; discriminate | intros [node [H _]]; discriminate].
Qed.

(** The link of the example after its text has changed from [Home] to
    [Start]: the result stored for [Home] is answered. *)
Lemma stored_result_outlives_the_content_witness :
  let entry :=
    {| data := @enhancedResult unit unit Fixtures.homeLink tt Fixtures.homeRanked 1000;
       storedAt := 1001 |} in
  let st :=
    {| cache := {[ ElementAnalyzer.generateCacheKey Fixtures.documentBody Fixtures.homeLink
                   := entry ]};
       readings := 3 |} in
  Fixtures.generator [] (Some (withChildNodes Fixtures.homeLink [Dom.TextNode "Start"])) tt st
  = Ret (data entry, tick st).
Proof.
  intros entry st.
  assert (H1 : Js.truthy (Dom.tagName (Dom.self Fixtures.homeLink)) = true) by reflexivity.
  assert (H2 : cache st
                 !! ElementAnalyzer.generateCacheKey Fixtures.documentBody Fixtures.homeLink
               = Some entry) by apply lookup_singleton_eq.
  assert (H3 : (fun n => 1000 + Z.of_nat n) (readings st) - storedAt entry < cacheTimeout)
    by (vm_compute; reflexivity).
  apply (stored_result_outlives_the_content unit unit unit (fun _ _ => tt)
           Fixtures.documentBody (fun _ => Ret tt) [] (fun n => 1000 + Z.of_nat n)
           Fixtures.homeLink [Dom.TextNode "Start"] tt st entry H1 H2 H3).
Defined.

End GeneratorCacheFacts.

(** ** The registry and the ranking, further *)

Module RegistryFacts.

Import BaseStrategy StrategyManager SortSpec ManagerSpec.

Lemma filter_sorted {T : Type} (key : T -> Z) (f : T -> bool) (l : list T) :
  StronglySorted (keyGe key) l -> StronglySorted (keyGe key) (List.filter f l).
Proof.
  induction 1 as [|x l Hs IH Hx]; simpl; [constructor|].
  destruct (f x); [|exact IH].
  constructor; [exact IH|].
  apply List.Forall_forall. intros y Hy. apply filter_In in Hy.
  rewrite List.Forall_forall in Hx. apply Hx, Hy.
Qed.

Lemma filter_commute {T : Type} (f g : T -> bool) (l : list T) :
  List.filter f (List.filter g l) = List.filter g (List.filter f l).
Proof.
  induction l as [|x l IH]; simpl; [reflexivity|].
  destruct (f x) eqn:Hf, (g x) eqn:Hg; simpl; rewrite ?Hf, ?Hg, IH; reflexivity.
Qed.

Lemma filter_all {T : Type} (f : T -> bool) (l : list T) :
  (forall x, In x l -> f x = true) -> List.filter f l = l.
Proof.
  induction l as [|x l IH]; simpl; intros H; [reflexivity|].
  rewrite (H x (or_introl eq_refl)). f_equal. apply IH. intros y Hy. apply H. right. exact Hy.
Qed.

Section Host.

Variable Context : Type.

Abbreviation byPriority := (@BaseStrategy.priority Context).

(** X11.  [unregisterStrategy] removes the strategies of the name and nothing
    else, and keeps the order of the registry.  Registering a strategy
    under a name the registry does not hold and unregistering that name
    gives the registry back. *)
Theorem register_then_unregister
    (strategies : list (Strategy Context)) (s : Strategy Context) :
  StronglySorted (keyGe byPriority) strategies ->
  (forall t, In t strategies -> name t <> name s) ->
  unregisterStrategy Context (registerStrategy Context strategies s) (name s) = strategies
  /\ (forall registry strategyName t,
        In t (unregisterStrategy Context registry strategyName) <->
        In t registry /\ name t <> strategyName)
  /\ (forall registry strategyName,
        StronglySorted (keyGe byPriority) registry ->
        StronglySorted (keyGe byPriority) (unregisterStrategy Context registry strategyName))
  /\ (forall registry strategyName,
        (forall t, In t registry -> name t <> strategyName) ->
        unregisterStrategy Context registry strategyName = registry).
Proof.
  intros Hsorted Hfresh.
  assert (Hkeep : forall registry strategyName,
            (forall t, In t registry -> name t <> strategyName) ->
            unregisterStrategy Context registry strategyName = registry).
  { intros registry strategyName H. unfold unregisterStrategy. apply filter_all.
    intros t Ht. apply negb_true_iff. apply String.eqb_neq. apply H, Ht. }
  split; [|split; [|split; [|exact Hkeep]]].
  - unfold registerStrategy.
    change (fun a b : Strategy Context => BaseStrategy.priority b - BaseStrategy.priority a)
      with (descending byPriority).
    apply (SortFacts.stable_sorted_unique (Strategy Context) byPriority).
    + apply filter_sorted. apply SortFacts.sort_sorted.
    + exact Hsorted.
    + intros v. unfold unregisterStrategy, withKey.
      rewrite filter_commute.
      change (List.filter (fun a => byPriority a =? v)
                (JsArray.sort (descending byPriority) (strategies ++ [s])))
        with (withKey byPriority v (JsArray.sort (descending byPriority) (strategies ++ [s]))).
      rewrite SortFacts.sort_stable. unfold withKey.
      rewrite filter_commute. rewrite List.filter_app. simpl.
      rewrite String.eqb_refl. simpl. rewrite app_nil_r.
      f_equal. apply filter_all. intros t Ht. apply negb_true_iff, String.eqb_neq.
      apply Hfresh, Ht.
  - intros registry strategyName t. unfold unregisterStrategy. rewrite filter_In.
    rewrite negb_true_iff, String.eqb_neq. reflexivity.
  - intros registry strategyName H. apply filter_sorted. exact H.
Qed.

End Host.

Lemma register_then_unregister_witness :
  let registry :=
    [Fixtures.descriptor "text" 110; Fixtures.descriptor "svg" 85;
     Fixtures.descriptor "relative" 60] in
  unregisterStrategy unit (registerStrategy unit registry (Fixtures.descriptor "anchor" 95))
    "anchor"
  = registry.
Proof.
  intros registry.
  assert (H1 : StronglySorted (keyGe (@BaseStrategy.priority unit)) registry).
  { repeat constructor; unfold keyGe; simpl; lia. }
  assert (H2 : forall t, In t registry -> name t <> name (Fixtures.descriptor "anchor" 95)).
  { intros t [H|[H|[H|[]]]]; subst t; simpl; discriminate. }
  apply (register_then_unregister unit registry (Fixtures.descriptor "anchor" 95) H1 H2).
Defined.

End RegistryFacts.

Module RankingFacts.

Import BaseStrategy StrategyManager SortSpec ManagerSpec.

Lemma sorted_tail {T : Type} (R : T -> T -> Prop) (l1 l2 : list T) :
  StronglySorted R (l1 ++ l2) -> StronglySorted R l2.
Proof.
  induction l1 as [|x l1 IH]; simpl; [trivial|].
  intros H. inversion H; subst. apply IH. assumption.
Qed.

(** Two elements in this order in a list, the first of a key not below
    the second's, are in this order after the sort. *)
Lemma sort_keeps_order {T : Type} (key : T -> Z) (l l1 l2 l3 : list T) (x y : T) :
  l = l1 ++ x :: l2 ++ y :: l3 ->
  key x >= key y ->
  exists r1 r2 r3, JsArray.sort (descending key) l = r1 ++ x :: r2 ++ y :: r3.
Proof.
  intros Hl Hge.
  destruct (Z.eq_dec (key x) (key y)) as [Heq|Hne].
  - pose proof (SortFacts.sort_stable T key (key x) l) as Hst.
    rewrite Hl in Hst at 2.
    rewrite ManagerFacts.withKey_app in Hst.
    change (x :: l2 ++ y :: l3) with ([x] ++ l2 ++ [y] ++ l3) in Hst.
    rewrite !ManagerFacts.withKey_app in Hst.
    unfold withKey at 3 5 in Hst. simpl in Hst.
    rewrite <- Heq in Hst. rewrite Z.eqb_refl in Hst. simpl in Hst.
    eapply ManagerFacts.filter_order. exact Hst.
  - pose proof (SortFacts.sort_permutation T key l) as Hperm.
    pose proof (SortFacts.sort_sorted T key l) as Hsorted.
    assert (Hy : In y (JsArray.sort (descending key) l)).
    { apply (Permutation_in _ (Permutation_sym Hperm)). rewrite Hl.
      apply in_or_app. right. right. apply in_or_app. right. left. reflexivity. }
    assert (Hx : In x (JsArray.sort (descending key) l)).
    { apply (Permutation_in _ (Permutation_sym Hperm)). rewrite Hl.
      apply in_or_app. right. left. reflexivity. }
    apply in_split in Hy. destruct Hy as [s1 [s2 Hs]]. rewrite Hs in *.
    apply in_app_or in Hx. destruct Hx as [Hx|[Hx|Hx]].
    + apply in_split in Hx. destruct Hx as [r1 [r2 Hr]]. subst s1.
      exists r1, r2, s2. rewrite <- app_assoc. reflexivity.
    + subst. lia.
    + exfalso. apply sorted_tail in Hsorted.
      inversion Hsorted as [|? ? _ Hall]; subst.
      rewrite List.Forall_forall in Hall. specialize (Hall x Hx). unfold keyGe in Hall. lia.
Qed.

Section Host.

Variable Context : Type.
Variable Options : Type.
Variable buildContext : Dom.Element -> Options -> Context.

Abbreviation rank := (generateXPath Context Options buildContext).

(** X12.  The manager raises for an SVG element, whose [className] has no
    [split], and for no other element, whatever the strategies do. *)
Theorem manager_raises_for_svg_only
    (strategies : list (Strategy Context)) (element : Dom.Element) (options : Options) :
  ((exists message, rank strategies element options = Throw message)
   <-> Dom.isSVGElement (Dom.self element) = true)
  /\ ((exists rr, rank strategies element options = Ret rr)
      <-> Dom.isSVGElement (Dom.self element) = false)
  /\ (Dom.isSVGElement (Dom.self element) = false ->
      hasRandomClasses element
      = Ret (List.existsb isRandomClass (classTokens (Dom.self element)))).
Proof.
  unfold generateXPath, hasRandomClasses, Dom.className, classTokens.
  destruct (Dom.isSVGElement (Dom.self element)); simpl.
  - split; [split; [reflexivity | intros _; eexists; reflexivity]|].
    split; [split; [intros [rr H]; discriminate | discriminate] | discriminate].
  - destruct (Dom.getAttribute "class" (Dom.attributes (Dom.self element))) as [v|]; simpl.
    + destruct (Js.truthy v) eqn:Hv; simpl.
      * split; [split; [intros [m H]; discriminate | discriminate]|].
        split; [split; [reflexivity | intros _; eexists; reflexivity] | reflexivity].
      * split; [split; [intros [m H]; discriminate | discriminate]|].
        split; [split; [reflexivity | intros _; eexists; reflexivity]|].
        intros _. unfold Js.truthy in Hv. apply negb_false_iff, String.eqb_eq in Hv.
        subst v. reflexivity.
    + split; [split; [intros [m H]; discriminate | discriminate]|].
      split; [split; [reflexivity | intros _; eexists; reflexivity] | reflexivity].
Qed.

(** A candidate the manager shows was given by a strategy of the
    registry. *)
Lemma shown_from_strategy
    (strategies : list (Strategy Context)) (element : Dom.Element) (options : Options)
    (rr : RankedResult Context) (c : Candidate) :
  rank strategies element options = Ret rr ->
  In c (shown rr) ->
  exists s hasRandom,
    In s strategies
    /\ tryStrategy Context hasRandom element (buildContext element options) s = Ret (Some c).
Proof.
  intros Hgen Hc.
  destruct (ManagerFacts.generateXPath_ranked _ _ _ _ _ _ _ Hgen) as [h [Hh Hrr]].
  subst rr. cbv zeta in Hc. rewrite ManagerFacts.shown_ranked in Hc.
  apply ManagerFacts.In_firstn in Hc.
  apply (Permutation_in _ (SortFacts.sort_permutation _ score _)) in Hc.
  unfold candidatesOf in Hc. apply in_flat_map in Hc. destruct Hc as [s [Hs Hc]].
  apply ManagerFacts.pushedBy_In in Hc. exists s, h. split; assumption.
Qed.

(** X13.  What the manager answers: [success] tells that there is a primary;
    the primary has the largest score of all the candidates the strategies
    gave, shown or not; every candidate shown has a non-empty expression
    and carries the name and the priority of the strategy that gave it;
    and no more candidates are shown than three, or than there are
    strategies. *)
Theorem ranked_result_shape
    (strategies : list (Strategy Context)) (element : Dom.Element) (options : Options)
    (rr : RankedResult Context) :
  rank strategies element options = Ret rr ->
  let ctx := buildContext element options in
  (success rr = true <-> primary rr <> None)
  /\ (success rr = false -> primary rr = None /\ alternatives rr = [])
  /\ (forall c, In c (shown rr) ->
        Js.truthy (xpath c) = true
        /\ exists s hasRandom,
             In s strategies
             /\ tryStrategy Context hasRandom element ctx s = Ret (Some c)
             /\ strategy c = name s
             /\ StrategyManager.priority c = BaseStrategy.priority s)
  /\ (forall best hasRandom s c,
        primary rr = Some best ->
        hasRandomClasses element = Ret hasRandom ->
        In s strategies ->
        tryStrategy Context hasRandom element ctx s = Ret (Some c) ->
        score c <= score best)
  /\ (List.length (shown rr) <= 3)%nat
  /\ (List.length (shown rr) <= List.length strategies)%nat.
Proof.
  intros Hgen ctx.
  destruct (ManagerFacts.generateXPath_ranked _ _ _ _ _ _ _ Hgen) as [h [Hh Hrr]].
  cbv zeta in Hrr. fold ctx in Hrr.
  set (ranked := JsArray.sort (descending score) (candidatesOf h element ctx strategies)) in *.
  pose proof (SortFacts.sort_permutation Candidate score
                (candidatesOf h element ctx strategies)) as Hperm. fold ranked in Hperm.
  pose proof (SortFacts.sort_sorted Candidate score
                (candidatesOf h element ctx strategies)) as Hsorted. fold ranked in Hsorted.
  assert (Hshown : shown rr = List.firstn 3 ranked)
    by (subst rr; apply ManagerFacts.shown_ranked).
  assert (Hcount : (List.length (candidatesOf h element ctx strategies)
                    <= List.length strategies)%nat).
  { unfold candidatesOf. clear. induction strategies as [|s l IH]; simpl; [lia|].
    rewrite length_app. unfold pushedBy at 1.
    destruct (tryStrategy Context h element ctx s) as [[c|]|m]; simpl; lia. }
  split; [|split; [|split; [|split; [|split]]]].
  - subst rr. cbn [success primary]. destruct ranked as [|b rest]; cbn; split; intros H;
      first [discriminate | reflexivity | exfalso; apply H; reflexivity].
  - subst rr. cbn [success primary alternatives]. destruct ranked as [|b rest]; cbn;
      [split; reflexivity | discriminate].
  - intros c Hc. rewrite Hshown in Hc. apply ManagerFacts.In_firstn in Hc.
    apply (Permutation_in _ Hperm) in Hc.
    unfold candidatesOf in Hc. apply in_flat_map in Hc. destruct Hc as [s [Hs Hc]].
    apply ManagerFacts.pushedBy_In in Hc.
    destruct (ManagerFacts.tryStrategy_candidate _ _ _ _ _ _ Hc)
      as [raw [_ [_ [Htruthy [_ [Hname [Hprio _]]]]]]].
    split; [exact Htruthy|]. exists s, h. repeat split; assumption.
  - intros best h' s c Hbest Hh' Hs Hc.
    rewrite Hh in Hh'. injection Hh' as Hh'. subst h'.
    assert (Hin : In c ranked).
    { apply (Permutation_in _ (Permutation_sym Hperm)).
      unfold candidatesOf. apply in_flat_map. exists s. split; [exact Hs|].
      apply ManagerFacts.pushedBy_In. exact Hc. }
    subst rr. simpl in Hbest. destruct ranked as [|b rest]; [discriminate|].
    simpl in Hbest. injection Hbest as Hbest. subst b.
    destruct Hin as [Hin|Hin]; [subst; lia|].
    inversion Hsorted as [|? ? _ Hall]; subst.
    rewrite List.Forall_forall in Hall. specialize (Hall c Hin). unfold keyGe in Hall. lia.
  - rewrite Hshown. rewrite length_firstn. lia.
  - rewrite Hshown. rewrite length_firstn.
    rewrite (Permutation_length Hperm). lia.
Qed.

End Host.

Lemma ranked_result_shape_witness :
  generateXPath unit unit Fixtures.noContext
    [Fixtures.textStrategy Fixtures.homeOracle; Fixtures.unfinishedStrategy;
     Fixtures.attributeStrategy Fixtures.homeOracle] Fixtures.homeLink tt
  = Ret Fixtures.homeRanked
  /\ (success Fixtures.homeRanked = true <-> primary Fixtures.homeRanked <> None)
  /\ (List.length (shown Fixtures.homeRanked) <= 3)%nat.
Proof.
  assert (H : generateXPath unit unit Fixtures.noContext
                [Fixtures.textStrategy Fixtures.homeOracle; Fixtures.unfinishedStrategy;
                 Fixtures.attributeStrategy Fixtures.homeOracle] Fixtures.homeLink tt
              = Ret Fixtures.homeRanked) by (vm_compute; reflexivity).
  split; [exact H|].
  pose proof (ranked_result_shape unit unit Fixtures.noContext _ _ _ _ H) as Hshape.
  cbv zeta in Hshape. destruct Hshape as [H1 [_ [_ [_ [H5 _]]]]].
  split; [exact H1 | exact H5].
Defined.

End RankingFacts.

(** ** The text and the attribute strategy, further *)

Module StrategyFacts.

Import BaseStrategy SortSpec ManagerSpec.

Section Host.

Variable Context : Type.
Variable evaluate : string -> comp (list Dom.NodeId).
Abbreviation detect := (TextStrategy.detectDuplicateText evaluate).
Abbreviation generateText := (TextStrategy.generate Context evaluate).
Abbreviation scoreText := (TextStrategy.getScore Context evaluate).
Abbreviation theTextStrategy := (TextStrategy.textStrategy Context evaluate).
Abbreviation theAttributeStrategy := (AttributeStrategy.attributeStrategy Context evaluate).

Lemma firstValid_truthy (paths : list string) (element : Dom.Element) (x : string) :
  firstValid evaluate paths element = Some x -> In x paths /\
  validateXPath evaluate x element = true.
Proof. apply ValidationFacts.firstValid_validated. Qed.

Lemma text_generate_validated (element : Dom.Element) (context : Context) (x : string) :
  generateText element context = Ret (Some x) -> validateXPath evaluate x element = true.
Proof.
  rewrite TextFacts.generate_plain.
  destruct (Js.truthy (Js.trim (Utils.getVisibleText (Some element)))); [|discriminate].
  intros H. injection H as H. apply ValidationFacts.firstValid_validated in H. apply H.
Qed.

(** Every expression the text strategy tries starts with [//]. *)
Lemma textPaths_nonempty (element : Dom.Element) (y : string) :
  In y (TextSpec.textPaths element) -> y <> "".
Proof.
  assert (Hslash : forall rest : string, "//" +:+ rest <> "").
  { intros rest. rewrite RegexFacts.append_cons. discriminate. }
  unfold TextSpec.textPaths. cbv zeta. intros Hy.
  apply in_app_or in Hy. destruct Hy as [Hy|Hy].
  { destruct (TextStrategy.isButtonLikeElement element); [|destruct Hy].
    unfold TextStrategy.buttonLikePaths in Hy. simpl in Hy.
    destruct Hy as [Hy|[Hy|[Hy|[Hy|[]]]]]; subst y; apply Hslash. }
  apply in_app_or in Hy. destruct Hy as [Hy|Hy].
  { unfold TextStrategy.buttonTextPaths in Hy.
    destruct (String.eqb _ "span"); [|destruct Hy].
    destruct (Dom.closest "button" element); [|destruct Hy].
    destruct (String.eqb _ _); [|destruct Hy].
    simpl in Hy. destruct Hy as [Hy|[Hy|[Hy|[]]]]; subst y; apply Hslash. }
  unfold TextStrategy.standardTextPaths in Hy. simpl in Hy.
  destruct Hy as [Hy|[Hy|[Hy|[Hy|[Hy|[]]]]]]; subst y; apply Hslash.
Qed.

(** X15.  The text strategy never raises, also when other nodes carry
    the text of the element.  Whatever it answers is one of its plain text
    expressions, has passed [validateXPath] for the element and is not the
    empty string; an element whose visible text is empty or white space
    gets no answer. *)
Theorem text_answers_are_validated (element : Dom.Element) (context : Context) :
  (exists answer, generateText element context = Ret answer)
  /\ (forall x, generateText element context = Ret (Some x) ->
        validateXPath evaluate x element = true
        /\ x <> ""
        /\ In x (TextSpec.textPaths element))
  /\ (Js.trim (Utils.getVisibleText (Some element)) = "" ->
      generateText element context = Ret None).
Proof.
  rewrite TextFacts.generate_plain. split; [eexists; reflexivity|]. split.
  - intros x H.
    destruct (Js.truthy (Js.trim (Utils.getVisibleText (Some element)))); [|discriminate].
    injection H as H. apply firstValid_truthy in H. destruct H as [Hin Hv].
    split; [exact Hv|]. split; [|exact Hin].
    apply (textPaths_nonempty element). exact Hin.
  - intros H. rewrite H. reflexivity.
Qed.

(** The score of the text strategy lies between 210 and 440. *)
Lemma text_score_bounds (element : Dom.Element) (context : Context) :
  210 <= scoreText element context <= 440.
Proof.
  unfold TextStrategy.getScore, TextStrategy.priorityValue. cbv zeta.
  destruct (String.length (Utils.getVisibleText (Some element)) <=? 10)%nat;
  destruct (String.length (Utils.getVisibleText (Some element)) <=? 20)%nat;
  destruct (String.length (Utils.getVisibleText (Some element)) <=? 30)%nat;
  destruct (TextStrategy.isButtonLikeElement element);
  destruct (TextStrategy.isLinkElement element);
  destruct ((String.length (Utils.getVisibleText (Some element)) <=? 15)%nat
            && negb (TextStrategy.hasDuplicates
                       (detect (Utils.getVisibleText (Some element)) element)));
  lia.
Qed.

(** The score of the attribute strategy, when it answers one, lies
    between 100 and 210. *)
Lemma attribute_score_bounds (element : Dom.Element) (context : Context) (value : Z) :
  AttributeStrategy.getScore Context element context = Ret value -> 100 <= value <= 210.
Proof.
  unfold AttributeStrategy.getScore, AttributeStrategy.priorityValue. cbv zeta.
  destruct (Utils.getFilteredClasses (Dom.className (Dom.self element))) as [classes|m];
    simpl; [|discriminate].
  intros H. injection H as H. subst value.
  destruct (Js.truthy (Dom.id (Dom.self element)) && Utils.isValidId (Dom.id (Dom.self element)));
  destruct (Js.truthy (Dom.nameProp (Dom.self element)));
  destruct (0 <? Z.of_nat (List.length classes)) eqn:Hn; try lia;
  apply Z.ltb_lt in Hn; lia.
Qed.

(** X16.  The attribute strategy on an HTML element answers without raising,
    only expressions that passed [validateXPath], with a score between 100
    and 210.  On an SVG element, whose [className] is no string, both
    [generate] and [getScore] raise, so the strategy never contributes a
    candidate for it. *)
Theorem attribute_strategy_by_kind (element : Dom.Element) (context : Context) :
  (Dom.isSVGElement (Dom.self element) = false ->
   (exists answer,
      AttributeStrategy.generate Context evaluate element context = Ret answer
      /\ forall x, answer = Some x -> validateXPath evaluate x element = true)
   /\ exists value,
        AttributeStrategy.getScore Context element context = Ret value
        /\ 100 <= value <= 210)
  /\ (Dom.isSVGElement (Dom.self element) = true ->
      AttributeStrategy.generate Context evaluate element context
      = Throw "className.split is not a function"
      /\ AttributeStrategy.getScore Context element context
         = Throw "className.split is not a function"
      /\ forall hasRandom, pushedBy hasRandom element context theAttributeStrategy = [])
  /\ (AttributeStrategy.isApplicable Context element context = true
      <-> Utils.getStableAttributes (Dom.self element) <> []).
Proof.
  split; [|split].
  - intros Hhtml.
    assert (Hclasses : exists classes,
              Utils.getFilteredClasses (Dom.className (Dom.self element)) = Ret classes).
    { unfold Dom.className. rewrite Hhtml. simpl.
      destruct (negb (Js.truthy _)); eexists; reflexivity. }
    destruct Hclasses as [classes Hclasses]. split.
    + unfold AttributeStrategy.generate, AttributeStrategy.classPaths. cbv zeta.
      rewrite Hclasses. simpl.
      destruct (Dom.classNameTruthy (Dom.className (Dom.self element))); simpl;
        [destruct (0 <? List.length classes)%nat; simpl|];
        (eexists; split; [reflexivity|]; intros x Hx;
         apply ValidationFacts.firstValid_validated in Hx; apply Hx).
    + unfold AttributeStrategy.getScore. cbv zeta. rewrite Hclasses. simpl.
      eexists. split; [reflexivity|].
      apply (attribute_score_bounds element context).
      unfold AttributeStrategy.getScore. cbv zeta. rewrite Hclasses. reflexivity.
  - intros Hsvg.
    assert (Hgen : AttributeStrategy.generate Context evaluate element context
                   = Throw "className.split is not a function").
    { unfold AttributeStrategy.generate, AttributeStrategy.classPaths, Dom.className.
      cbv zeta. rewrite Hsvg. reflexivity. }
    split; [exact Hgen|]. split.
    + unfold AttributeStrategy.getScore, Dom.className. cbv zeta. rewrite Hsvg. reflexivity.
    + intros hasRandom. unfold pushedBy, StrategyManager.tryStrategy. simpl.
      rewrite Hgen.
      destruct (AttributeStrategy.isApplicable Context element context); reflexivity.
  - unfold AttributeStrategy.isApplicable.
    destruct (Utils.getStableAttributes (Dom.self element)); simpl; split; intros H;
      first [discriminate | reflexivity | congruence].
Qed.

Variable Options : Type.
Variable buildContext : Dom.Element -> Options -> Context.

(** X17.  When the text strategy and, after it in the registry, the attribute
    strategy both give a candidate, the text candidate scores at least 210
    and the attribute candidate at most 210, so the text candidate comes
    before the attribute candidate in the ranking: an attribute is never
    preferred to the text. *)
Theorem text_ranks_before_attribute
    (l1 l2 l3 : list (Strategy Context)) (element : Dom.Element) (options : Options)
    (hasRandom : bool) (c1 c2 : StrategyManager.Candidate) :
  let strategies := l1 ++ theTextStrategy :: l2 ++ theAttributeStrategy :: l3 in
  let ctx := buildContext element options in
  StrategyManager.hasRandomClasses element = Ret hasRandom ->
  StrategyManager.tryStrategy Context hasRandom element ctx theTextStrategy = Ret (Some c1) ->
  StrategyManager.tryStrategy Context hasRandom element ctx theAttributeStrategy
  = Ret (Some c2) ->
  210 <= StrategyManager.score c1 <= 440
  /\ 50 <= StrategyManager.score c2 <= 210
  /\ exists rr r1 r2 r3,
       StrategyManager.generateXPath Context Options buildContext strategies element options
       = Ret rr
       /\ JsArray.sort StrategyManager.byScore (candidatesOf hasRandom element ctx strategies)
          = r1 ++ c1 :: r2 ++ c2 :: r3
       /\ StrategyManager.primary rr = List.head (r1 ++ c1 :: r2 ++ c2 :: r3)
       /\ StrategyManager.alternatives rr
          = List.firstn 2 (List.tl (r1 ++ c1 :: r2 ++ c2 :: r3)).
Proof.
  intros strategies ctx Hh H1 H2.
  destruct (ManagerFacts.tryStrategy_candidate _ _ _ _ _ _ H1)
    as [raw1 [_ [_ [_ [Hs1 [_ [_ Hscore1]]]]]]].
  destruct (ManagerFacts.tryStrategy_candidate _ _ _ _ _ _ H2)
    as [raw2 [_ [_ [_ [Hs2 [_ [_ Hscore2]]]]]]].
  simpl in Hs1. injection Hs1 as Hs1.
  pose proof (text_score_bounds element ctx) as Hb1. rewrite Hs1 in Hb1.
  simpl in Hs2. apply attribute_score_bounds in Hs2.
  simpl in Hscore1. rewrite andb_false_r in Hscore1.
  assert (Hb2 : 50 <= StrategyManager.score c2 <= 210).
  { rewrite Hscore2. destruct (hasRandom && _); lia. }
  split; [lia|]. split; [exact Hb2|].
  assert (Hsplit : candidatesOf hasRandom element ctx strategies
                   = candidatesOf hasRandom element ctx l1
                     ++ c1 :: candidatesOf hasRandom element ctx l2
                     ++ c2 :: candidatesOf hasRandom element ctx l3).
  { unfold strategies. rewrite ManagerFacts.candidatesOf_app.
    change (theTextStrategy :: l2 ++ theAttributeStrategy :: l3)
      with ([theTextStrategy] ++ l2 ++ [theAttributeStrategy] ++ l3).
    rewrite !ManagerFacts.candidatesOf_app.
    unfold candidatesOf at 2 4. simpl. unfold pushedBy. rewrite H1, H2. reflexivity. }
  destruct (RankingFacts.sort_keeps_order StrategyManager.score _ _ _ _ c1 c2 Hsplit
              ltac:(lia)) as [r1 [r2 [r3 Hsorted]]].
  change (descending StrategyManager.score) with StrategyManager.byScore in Hsorted.
  eexists. exists r1, r2, r3. split.
  { unfold StrategyManager.generateXPath. rewrite Hh. simpl.
    rewrite ManagerFacts.runStrategies_candidates. simpl. reflexivity. }
  fold ctx. split; [exact Hsorted|]. simpl. rewrite Hsorted.
  split; [reflexivity | apply ManagerFacts.slice_tail].
Qed.

End Host.

Lemma text_ranks_before_attribute_witness :
  let text :=
    {| StrategyManager.strategy := "text"; StrategyManager.xpath := "//a[text()='Home']";
       StrategyManager.score := 390; StrategyManager.priority := 110 |} in
  let attribute :=
    {| StrategyManager.strategy := "attribute"; StrategyManager.xpath := "//*[@name='home']";
       StrategyManager.score := 90; StrategyManager.priority := 100 |} in
  let strategies :=
    [Fixtures.textStrategy Fixtures.homeOracle; Fixtures.unfinishedStrategy;
     Fixtures.attributeStrategy Fixtures.homeOracle] in
  StrategyManager.hasRandomClasses Fixtures.homeLink = Ret true
  /\ exists rr r1 r2 r3,
       StrategyManager.generateXPath unit unit Fixtures.noContext strategies
         Fixtures.homeLink tt = Ret rr
       /\ JsArray.sort StrategyManager.byScore
            (candidatesOf true Fixtures.homeLink tt strategies)
          = r1 ++ text :: r2 ++ attribute :: r3.
Proof.
  intros text attribute strategies.
  assert (H0 : StrategyManager.hasRandomClasses Fixtures.homeLink = Ret true)
    by (vm_compute; reflexivity).
  assert (H1 : StrategyManager.tryStrategy unit true Fixtures.homeLink tt
                 (Fixtures.textStrategy Fixtures.homeOracle) = Ret (Some text))
    by (vm_compute; reflexivity).
  assert (H2 : StrategyManager.tryStrategy unit true Fixtures.homeLink tt
                 (Fixtures.attributeStrategy Fixtures.homeOracle) = Ret (Some attribute))
    by (vm_compute; reflexivity).
  split; [exact H0|].
  destruct (text_ranks_before_attribute unit Fixtures.homeOracle unit Fixtures.noContext
              [] [Fixtures.unfinishedStrategy] [] Fixtures.homeLink tt true text attribute
              H0 H1 H2)
    as [_ [_ [rr [r1 [r2 [r3 [Hgen [Hsort _]]]]]]]].
  exists rr, r1, r2, r3. split; [exact Hgen | exact Hsort].
Defined.

End StrategyFacts.

(** ** The relative strategy *)

Module RelativeFacts.

Import BaseStrategy.

Section Host.

Variable Context : Type.
Variable evaluate : string -> comp (list Dom.NodeId).
Variable documentBody : option Dom.NodeId.

Abbreviation generateRelative := (RelativeStrategy.generate Context evaluate documentBody).
Abbreviation scoreRelative := (RelativeStrategy.getScore Context documentBody).

Lemma ancestors_of_root (node : Dom.Node) : Dom.ancestorsFrom node [] = [].
Proof. reflexivity. Qed.

Lemma relative_generate_validated (element : Dom.Element) (context : Context) (x : string) :
  generateRelative element context = Some x -> validateXPath evaluate x element = true.
Proof.
  intros H. unfold RelativeStrategy.generate in H.
  apply ValidationFacts.firstValid_validated in H. apply H.
Qed.

(** X18.  The relative strategy answers only expressions that passed
    [validateXPath] for the element.  It applies to every element but the
    root element, for which it has no expression to try. *)
Theorem relative_answers_are_validated (element : Dom.Element) (context : Context) :
  (forall x, generateRelative element context = Some x ->
     validateXPath evaluate x element = true)
  /\ (RelativeStrategy.isApplicable Context element context = true
      <-> Dom.above element <> [])
  /\ (Dom.above element = [] ->
      RelativeStrategy.generateParentBasedPaths evaluate documentBody element = []
      /\ RelativeStrategy.generateSiblingBasedPaths element = []
      /\ RelativeStrategy.generateIndexBasedPaths evaluate documentBody element = []
      /\ generateRelative element context = None).
Proof.
  split; [|split].
  - intros x. apply relative_generate_validated.
  - unfold RelativeStrategy.isApplicable, Dom.parentElement.
    destruct (Dom.above element); split; intros H;
      first [discriminate | reflexivity | congruence].
  - intros Hroot.
    assert (H1 : RelativeStrategy.generateParentBasedPaths evaluate documentBody element = []).
    { unfold RelativeStrategy.generateParentBasedPaths, Dom.chain. rewrite Hroot. reflexivity. }
    assert (H2 : RelativeStrategy.generateSiblingBasedPaths element = []).
    { unfold RelativeStrategy.generateSiblingBasedPaths, Dom.parentElement.
      rewrite Hroot. reflexivity. }
    assert (H3 : RelativeStrategy.generateIndexBasedPaths evaluate documentBody element = []).
    { unfold RelativeStrategy.generateIndexBasedPaths, Dom.parentElement.
      rewrite Hroot. reflexivity. }
    repeat split; try assumption.
    unfold RelativeStrategy.generate. rewrite H1, H2, H3. reflexivity.
Qed.


End Host.

End RelativeFacts.

(** ** The container strategy *)

Module ContainerFacts.

Import BaseStrategy ContainerContextStrategy.

Section Host.

Variable Context : Type.
Variable evaluate : string -> comp (list Dom.NodeId).
Variable documentBody : option Dom.NodeId.

Abbreviation containersOf := (findUniqueContainers evaluate documentBody).
Abbreviation unique := (hasUniqueIdentifier evaluate).

(** What one ancestor adds to the containers: itself when it has a
    unique identifier, and itself once more when it is a semantic
    container. *)
Abbreviation listed :=
  (fun current : Dom.Element =>
     (if unique (Dom.self current) then [current] else [])
     ++ (if isSemanticContainer (Dom.self current) then [current] else [])).

Abbreviation belowBody :=
  (fun current : Dom.Element => negb (ElementAnalyzer.isBody documentBody current)).

Lemma containersLoop_listed (currents containers : list Dom.Element) :
  containersLoop evaluate documentBody currents containers
  = containers ++ List.flat_map listed (FallbackSpec.takeWhile belowBody currents).
Proof.
  revert containers. induction currents as [|c rest IH]; intros containers; simpl.
  - rewrite app_nil_r. reflexivity.
  - destruct (ElementAnalyzer.isBody documentBody c); simpl.
    + rewrite app_nil_r. reflexivity.
    + rewrite IH.
      destruct (unique (Dom.self c)), (isSemanticContainer (Dom.self c)); simpl;
        rewrite <- ?app_assoc; reflexivity.
Qed.

Lemma takeWhile_In {T : Type} (p : T -> bool) (l : list T) (x : T) :
  In x (FallbackSpec.takeWhile p l) -> In x l /\ p x = true.
Proof.
  induction l as [|y l IH]; simpl; [intros []|].
  destruct (p y) eqn:Hy; [|intros []].
  intros [H|H]; [subst; split; [left; reflexivity | exact Hy]|].
  destruct (IH H) as [H1 H2]. split; [right; exact H1 | exact H2].
Qed.

Lemma takeWhile_length {T : Type} (p : T -> bool) (l : list T) :
  (List.length (FallbackSpec.takeWhile p l) <= List.length l)%nat.
Proof.
  induction l as [|y l IH]; simpl; [lia|]. destruct (p y); simpl; lia.
Qed.


Lemma container_generate_validated (element : Dom.Element) (context : Context) (x : string) :
  generate Context evaluate documentBody element context = Some x ->
  validateXPath evaluate x element = true.
Proof.
  unfold generate.
  destruct (negb (Js.truthy (Js.trim (Utils.getVisibleText (Some element)))));
    [discriminate|].
  cbv zeta. intros H. apply ValidationFacts.firstValid_validated in H. apply H.
Qed.

(** X21.  The container strategy answers only expressions that passed
    [validateXPath] for the element, each the expression of one of its
    containers followed by a test on the text; an element without visible
    text gets no answer and is not applicable. *)
Theorem container_answers_are_scoped (element : Dom.Element) (context : Context) :
  let text := Js.trim (Utils.getVisibleText (Some element)) in
  let tagName := Js.toLowerCase (Dom.tagName (Dom.self element)) in
  (forall x, generate Context evaluate documentBody element context = Some x ->
     validateXPath evaluate x element = true
     /\ exists container containerXPath,
          In container (containersOf element)
          /\ getContainerXPath evaluate (Dom.self container) = Some containerXPath
          /\ In x (scopedPaths containerXPath tagName (Utils.escapeXPath text)))
  /\ (text = "" -> generate Context evaluate documentBody element context = None)
  /\ (Utils.getVisibleText (Some element) = "" ->
      isApplicable Context evaluate documentBody element context = false)
  /\ (containersOf element = [] ->
      isApplicable Context evaluate documentBody element context = false
      /\ generate Context evaluate documentBody element context = None).
Proof.
  cbv zeta. split; [|split; [|split]].
  - intros x. unfold generate.
    destruct (negb (Js.truthy (Js.trim (Utils.getVisibleText (Some element)))));
      [discriminate|].
    cbv zeta. intros H. apply ValidationFacts.firstValid_validated in H.
    destruct H as [Hin Hv]. split; [exact Hv|].
    apply in_flat_map in Hin. destruct Hin as [container [Hc Hx]].
    destruct (getContainerXPath evaluate (Dom.self container)) as [containerXPath|] eqn:Hp;
      [|destruct Hx].
    destruct (Js.truthy containerXPath); [|destruct Hx].
    exists container, containerXPath. repeat split; assumption.
  - intros H. unfold generate. rewrite H. reflexivity.
  - intros H. unfold isApplicable. rewrite H. reflexivity.
  - intros H. split.
    + unfold isApplicable, hasUniqueContainer. rewrite H. apply andb_false_r.
    + unfold generate. rewrite H.
      destruct (negb (Js.truthy (Js.trim (Utils.getVisibleText (Some element)))));
        reflexivity.
Qed.

End Host.

End ContainerFacts.

(** ** The SVG strategy *)

Module SvgFacts.

Import BaseStrategy ElementAnalyzer SVGStrategy.

Section Host.

Variable Context : Type.
Variable evaluate : string -> comp (list Dom.NodeId).
Variable isSVG : Context -> bool.
Variable svgInfoOf : Context -> option SvgInfo.

Abbreviation generateSvg := (generate Context evaluate svgInfoOf).
Abbreviation scoreSvg := (getScore Context svgInfoOf).

Lemma svg_score_bounds (element : Dom.Element) (context : Context) (info : SvgInfo) :
  svgInfoOf context = Some info -> 85 <= scoreSvg element context <= 225.
Proof.
  intros H. unfold getScore, priorityValue. rewrite H. cbv zeta.
  destruct (hasAriaLabel info), (hasTitle info), (hasDesc info),
    (findParentWithLabel (svgElement info)), (viewBox info) as [box|],
    (Dom.className (Dom.self (svgElement info))) as [s|baseVal];
    try destruct (Js.truthy box); try destruct (Js.truthy baseVal); lia.
Qed.

(** X22.  With the description of an image in the context, the SVG strategy
    always answers an expression: the first of its expressions that
    [validateXPath] accepts for the image, or else the positional
    [//svg[k]], which is answered without being tested.  The answer is
    for the image, not for the element: it is the same for every element
    of one context.  Its score lies between 85 and 225.  Without the
    description there is no answer and the score is 0. *)
Theorem svg_answer_is_for_the_image (element : Dom.Element) (context : Context) :
  (forall info, svgInfoOf context = Some info ->
     exists x,
       generateSvg element context = Some x
       /\ x <> ""
       /\ (validateXPath evaluate x (svgElement info) = true
           \/ (x = "//svg[" +:+ pretty (Utils.getElementIndex (svgElement info)) +:+ "]"
               /\ forall p, In p (candidatePaths info) ->
                    validateXPath evaluate p (svgElement info) = false)))
  /\ (forall other : Dom.Element,
        generateSvg other context = generateSvg element context)
  /\ (forall info, svgInfoOf context = Some info ->
        85 <= scoreSvg element context <= 225)
  /\ (svgInfoOf context = None ->
      generateSvg element context = None /\ scoreSvg element context = 0).
Proof.
  split; [|split; [|split]].
  - intros info Hinfo. unfold generate. rewrite Hinfo.
    destruct (firstValid evaluate (candidatePaths info) (svgElement info)) as [x|] eqn:Hfirst.
    + exists x. split; [reflexivity|].
      apply ValidationFacts.firstValid_validated in Hfirst. destruct Hfirst as [Hin Hv].
      split; [|left; exact Hv].
      intros E. subst x. unfold validateXPath in Hv.
      assert (Hslash : forall l : list string,
                In "" l -> (forall y, In y l -> exists c rest, y = String c rest) -> False).
      { intros l Hl Hall. destruct (Hall _ Hl) as [c [rest Hy]]. discriminate. }
      apply (Hslash _ Hin). clear. intros y Hy.
      unfold candidatePaths in Hy. cbv zeta in Hy.
      repeat (apply in_app_or in Hy; destruct Hy as [Hy|Hy]).
      * destruct (hasAriaLabel info && Js.truthy (ariaLabelText info)); [|destruct Hy].
        destruct Hy as [Hy|[Hy|[]]]; subst y; eexists; eexists;
          rewrite RegexFacts.append_cons; reflexivity.
      * destruct (hasTitle info && Js.truthy (titleText info)); [|destruct Hy].
        destruct Hy as [Hy|[Hy|[]]]; subst y; eexists; eexists;
          rewrite RegexFacts.append_cons; reflexivity.
      * destruct (hasDesc info && Js.truthy (descText info)); [|destruct Hy].
        destruct Hy as [Hy|[Hy|[]]]; subst y; eexists; eexists;
          rewrite RegexFacts.append_cons; reflexivity.
      * destruct (findParentWithLabel (svgElement info)); [|destruct Hy].
        destruct Hy as [Hy|[Hy|[]]]; subst y; eexists; eexists;
          rewrite RegexFacts.append_cons; reflexivity.
      * destruct (Dom.className (Dom.self (svgElement info))) as [s|baseVal]; [destruct Hy|].
        destruct (Js.truthy baseVal); [|destruct Hy].
        apply in_flat_map in Hy. destruct Hy as [cls [_ Hy]].
        destruct Hy as [Hy|[Hy|[]]]; subst y; eexists; eexists;
          rewrite RegexFacts.append_cons; reflexivity.
      * destruct (viewBox info) as [box|]; [|destruct Hy].
        destruct (Js.truthy box); [|destruct Hy].
        destruct Hy as [Hy|[Hy|[]]]; subst y; eexists; eexists;
          rewrite RegexFacts.append_cons; reflexivity.
      * destruct (0 <? pathCount info); [|destruct Hy].
        destruct Hy as [Hy|[Hy|[]]]; subst y; eexists; eexists;
          rewrite RegexFacts.append_cons; reflexivity.
      * destruct (0 <? useElements info); [|destruct Hy].
        destruct (Dom.querySelector "use" (svgElement info)) as [useElement|]; [|destruct Hy].
        destruct (Dom.getAttribute "href" (Dom.attributes (fst useElement))) as [href|];
          [|destruct Hy].
        destruct (Js.truthy href); [|destruct Hy].
        destruct Hy as [Hy|[Hy|[]]]; subst y; eexists; eexists;
          rewrite RegexFacts.append_cons; reflexivity.
    + exists (generatePositionalXPath (svgElement info)). split; [reflexivity|].
      split; [unfold generatePositionalXPath; rewrite RegexFacts.append_cons; discriminate|].
      right. split; [reflexivity|].
      intros p Hp. clear Hinfo. induction (candidatePaths info) as [|q l IH];
        [destruct Hp|].
      simpl in Hfirst. destruct (validateXPath evaluate q (svgElement info)) eqn:Hq;
        [discriminate|].
      destruct Hp as [Hp|Hp]; [subst; exact Hq | apply (IH Hfirst Hp)].
  - intros other. reflexivity.
  - intros info. apply svg_score_bounds.
  - intros H. unfold generate, getScore. rewrite H. split; reflexivity.
Qed.

End Host.

End SvgFacts.

(** ** What the ranked candidates locate *)

Module LocatingFacts.

Import BaseStrategy StrategyManager ManagerSpec.

Section Host.

Variable Context : Type.
Variable Options : Type.
Variable buildContext : Dom.Element -> Options -> Context.
Variable evaluate : string -> comp (list Dom.NodeId).
Variable documentBody : option Dom.NodeId.

Abbreviation theTextStrategy := (TextStrategy.textStrategy Context evaluate).
Abbreviation theAttributeStrategy := (AttributeStrategy.attributeStrategy Context evaluate).
Abbreviation theRelativeStrategy :=
  (RelativeStrategy.relativeStrategy Context evaluate documentBody).
Abbreviation theContainerStrategy :=
  (ContainerContextStrategy.containerContextStrategy Context evaluate documentBody).

(** X23.  In a registry of the text, attribute, relative and container
    strategies, every candidate the manager shows, the primary first,
    locates the element in the sense of [validateXPath]: its expression
    evaluates without error and the first node it selects, in document
    order, is the element. *)
Theorem shown_candidates_locate_the_element
    (strategies : list (Strategy Context)) (element : Dom.Element) (options : Options)
    (rr : RankedResult Context) :
  (forall s, In s strategies ->
     s = theTextStrategy \/ s = theAttributeStrategy
     \/ s = theRelativeStrategy \/ s = theContainerStrategy) ->
  generateXPath Context Options buildContext strategies element options = Ret rr ->
  forall c, In c (shown rr) ->
    validateXPath evaluate (xpath c) element = true
    /\ exists first rest,
         evaluate (xpath c) = Ret (first :: rest)
         /\ Dom.sameNode first (Dom.nodeId element) = true.
Proof.
  intros Hkinds Hgen c Hc.
  destruct (RankingFacts.shown_from_strategy Context Options buildContext strategies element
              options rr c Hgen Hc) as [s [h [Hs Htry]]].
  destruct (ManagerFacts.tryStrategy_candidate _ _ _ _ _ _ Htry)
    as [raw [_ [Hg _]]].
  assert (Hv : validateXPath evaluate (xpath c) element = true).
  { destruct (Hkinds s Hs) as [E|[E|[E|E]]]; subst s; simpl in Hg.
    - apply (StrategyFacts.text_generate_validated Context evaluate element
               (buildContext element options) _ Hg).
    - unfold AttributeStrategy.generate in Hg. cbv zeta in Hg.
      destruct (AttributeStrategy.classPaths _) as [classes|m]; simpl in Hg; [|discriminate].
      injection Hg as Hg. apply ValidationFacts.firstValid_validated in Hg. apply Hg.
    - injection Hg as Hg.
      apply (RelativeFacts.relative_generate_validated Context evaluate documentBody
               element (buildContext element options) _ Hg).
    - injection Hg as Hg.
      apply (ContainerFacts.container_generate_validated Context evaluate documentBody
               element (buildContext element options) _ Hg). }
  split; [exact Hv|]. apply ValidationFacts.validateXPath_first. exact Hv.
Qed.

End Host.

Lemma shown_candidates_locate_the_element_witness :
  let registry :=
    [Fixtures.textStrategy Fixtures.homeOracle; Fixtures.attributeStrategy Fixtures.homeOracle] in
  generateXPath unit unit Fixtures.noContext registry Fixtures.homeLink tt
  = Ret Fixtures.homeRanked
  /\ forall c, In c (shown Fixtures.homeRanked) ->
       validateXPath Fixtures.homeOracle (xpath c) Fixtures.homeLink = true.
Proof.
  intros registry.
  assert (H1 : forall s, In s registry ->
            s = TextStrategy.textStrategy unit Fixtures.homeOracle
            \/ s = AttributeStrategy.attributeStrategy unit Fixtures.homeOracle
            \/ s = RelativeStrategy.relativeStrategy unit Fixtures.homeOracle
                     Fixtures.documentBody
            \/ s = ContainerContextStrategy.containerContextStrategy unit Fixtures.homeOracle
                     Fixtures.documentBody).
  { intros s [H|[H|[]]]; subst s; [left | right; left]; reflexivity. }
  assert (H2 : generateXPath unit unit Fixtures.noContext registry Fixtures.homeLink tt
               = Ret Fixtures.homeRanked) by (vm_compute; reflexivity).
  split; [exact H2|].
  intros c Hc.
  apply (shown_candidates_locate_the_element unit unit Fixtures.noContext Fixtures.homeOracle
           Fixtures.documentBody registry Fixtures.homeLink tt Fixtures.homeRanked
           H1 H2 c Hc).
Defined.

End LocatingFacts.

(** ** Class names through a string, and the walk to the root *)

Module ClassListFacts.

Import NameSpec.

Lemma split_nonempty (inRun : bool) (s : string) : Js.splitSpacesFrom inRun s <> [].
Proof.
  revert inRun. induction s as [|d s IH]; intros inRun; simpl; [discriminate|].
  destruct (Js.isSpace d).
  - destruct inRun; [apply IH | discriminate].
  - destruct (Js.splitSpacesFrom false s); discriminate.
Qed.

(** The pieces of [split(/\s+/)] hold no white space. *)
Lemma split_space_free (inRun : bool) (s : string) :
  Forall spaceFree (Js.splitSpacesFrom inRun s).
Proof.
  revert inRun. induction s as [|d s IH]; intros inRun; simpl.
  - constructor; [reflexivity | constructor].
  - destruct (Js.isSpace d) eqn:Hd.
    + destruct inRun; [apply IH|]. constructor; [reflexivity | apply IH].
    + specialize (IH false). destruct (Js.splitSpacesFrom false s) as [|p ps].
      * constructor; [unfold spaceFree; simpl; rewrite Hd; reflexivity | constructor].
      * inversion IH as [|? ? Hp Hps]; subst. constructor; [|exact Hps].
        unfold spaceFree in *. simpl. rewrite Hd. exact Hp.
Qed.

Lemma split_token (inRun : bool) (c : ascii) (t rest : string) :
  spaceFree (String c t) ->
  Js.splitSpacesFrom inRun (String c t +:+ rest)
  = match Js.splitSpacesFrom false rest with
    | p :: ps => (String c t +:+ p) :: ps
    | [] => [String c t]
    end.
Proof.
  revert inRun c. induction t as [|d t IH]; intros inRun c H.
  - unfold spaceFree in H. simpl in H. rewrite andb_true_r in H.
    apply negb_true_iff in H.
    rewrite RegexFacts.append_cons, RegexFacts.append_empty_l. simpl. rewrite H.
    destruct (Js.splitSpacesFrom false rest); reflexivity.
  - assert (Hc : Js.isSpace c = false).
    { unfold spaceFree in H. simpl in H. apply andb_true_iff in H.
      destruct H as [H _]. apply negb_true_iff in H. exact H. }
    assert (Ht : spaceFree (String d t)).
    { unfold spaceFree in *. simpl in H. apply andb_true_iff in H. apply H. }
    rewrite RegexFacts.append_cons.
    change (Js.splitSpacesFrom inRun (String c (String d t +:+ rest)))
      with (if Js.isSpace c
            then if inRun then Js.splitSpacesFrom true (String d t +:+ rest)
                 else EmptyString :: Js.splitSpacesFrom true (String d t +:+ rest)
            else match Js.splitSpacesFrom false (String d t +:+ rest) with
                 | [] => [String c EmptyString]
                 | p :: ps => String c p :: ps
                 end).
    rewrite Hc. rewrite (IH false d Ht).
    destruct (Js.splitSpacesFrom false rest); reflexivity.
Qed.

Lemma join_cons2 (x y : string) (l : list string) :
  Js.join " " (x :: y :: l) = x +:+ " " +:+ Js.join " " (y :: l).
Proof. reflexivity. Qed.

(** Tokens joined by single spaces and split again are the tokens. *)
Lemma split_join (inRun : bool) (t : string) (tokens : list string) :
  Forall (fun t => t <> "" /\ spaceFree t) (t :: tokens) ->
  Js.splitSpacesFrom inRun (Js.join " " (t :: tokens)) = t :: tokens.
Proof.
  revert inRun t. induction tokens as [|u tokens IH]; intros inRun t H.
  - inversion H as [|? ? [Hne Hfree] _]; subst.
    destruct t as [|c t]; [congruence|].
    simpl Js.join. unfold Js.join. simpl String.concat.
    rewrite <- (EscapeFacts.append_empty_r (String c t)) at 1.
    rewrite (split_token inRun c t EmptyString Hfree). simpl.
    rewrite EscapeFacts.append_empty_r. reflexivity.
  - inversion H as [|? ? [Hne Hfree] Hrest]; subst.
    destruct t as [|c t]; [congruence|].
    rewrite join_cons2. rewrite (split_token inRun c t _ Hfree).
    rewrite RegexFacts.append_cons, RegexFacts.append_empty_l.
    change (Js.splitSpacesFrom false (String " " (Js.join " " (u :: tokens))))
      with (EmptyString :: Js.splitSpacesFrom true (Js.join " " (u :: tokens))).
    rewrite (IH true u Hrest). rewrite EscapeFacts.append_empty_r. reflexivity.
Qed.

Lemma filter_id {T : Type} (f : T -> bool) (l : list T) :
  Forall (fun x => f x = true) l -> List.filter f l = l.
Proof.
  induction 1 as [|x l Hx _ IH]; simpl; [reflexivity|]. rewrite Hx, IH. reflexivity.
Qed.

(** X24.  The class names [getFilteredClasses] keeps of a class string are
    tokens of the string, without white space and of two characters or
    more; joined by single spaces, as the attribute strategy joins them,
    and filtered again, they are all kept, in their order. *)
Theorem filtered_classes_survive_joining (className : string) (classes : list string) :
  Utils.getFilteredClasses (Dom.ClassString className) = Ret classes ->
  Utils.getFilteredClasses (Dom.ClassString (Js.join " " classes)) = Ret classes
  /\ classes = Utils.getFilteredClassesOfString className
  /\ classes = Utils.getFilteredClassesOfArray
                 (List.filter Js.truthy (Js.splitSpaces className))
  /\ forall cls, In cls classes ->
       In cls (Js.splitSpaces className)
       /\ spaceFree cls /\ (2 <= String.length cls)%nat
       /\ Utils.keepName Utils.ClassType cls = true.
Proof.
  intros H.
  assert (Hall : forall cls, In cls classes ->
            In cls (Js.splitSpaces className)
            /\ spaceFree cls /\ (2 <= String.length cls)%nat
            /\ Utils.keepName Utils.ClassType cls = true).
  { intros cls Hcls. simpl in H. destruct (negb (Js.truthy className)).
    - injection H as H. subst classes. destruct Hcls.
    - injection H as H. subst classes. unfold Utils.filterFrameworkGeneratedNames in Hcls.
      apply filter_In in Hcls. destruct Hcls as [Hcls Hkeep].
      apply filter_In in Hcls. destruct Hcls as [Hcls _].
      split; [exact Hcls|]. split.
      + pose proof (split_space_free false className) as Hfree.
        rewrite List.Forall_forall in Hfree. apply Hfree, Hcls.
      + split; [|exact Hkeep]. unfold Utils.keepName in Hkeep.
        destruct (negb (Js.truthy cls)); [discriminate|]. simpl in Hkeep.
        destruct (String.length cls <? 2)%nat eqn:Hlen; [discriminate|].
        apply Nat.ltb_ge in Hlen. exact Hlen. }
  assert (Hsame : forall l, List.filter Js.truthy l
                            = List.filter (fun cls => (0 <? String.length cls)%nat) l).
  { intros l. apply List.filter_ext. intros [|c s]; reflexivity. }
  split; [|split; [|split; [|exact Hall]]].
  - destruct classes as [|t tokens]; [reflexivity|].
    assert (Htokens : Forall (fun t => t <> "" /\ spaceFree t) (t :: tokens)).
    { apply List.Forall_forall. intros cls Hcls. destruct (Hall cls Hcls) as [_ [Hf [Hl _]]].
      split; [|exact Hf]. intros E. subst cls. simpl in Hl. lia. }
    unfold Utils.getFilteredClasses.
    assert (Htruthy : Js.truthy (Js.join " " (t :: tokens)) = true).
    { destruct (Hall t (or_introl eq_refl)) as [_ [_ [Hl _]]].
      destruct t as [|c t]; [simpl in Hl; lia|].
      destruct tokens; [reflexivity|]. rewrite join_cons2. reflexivity. }
    rewrite Htruthy. simpl negb. cbv iota. unfold Js.splitSpaces.
    rewrite (split_join false t tokens Htokens). f_equal.
    rewrite filter_id.
    + unfold Utils.filterFrameworkGeneratedNames. apply filter_id.
      apply List.Forall_forall. intros cls Hcls. apply Hall, Hcls.
    + apply List.Forall_forall. intros cls Hcls. destruct (Hall cls Hcls) as [_ [_ [Hl _]]].
      apply Nat.ltb_lt. lia.
  - simpl in H. unfold Utils.getFilteredClassesOfString.
    destruct (negb (Js.truthy className)); injection H as H; symmetry; exact H.
  - simpl in H. unfold Utils.getFilteredClassesOfArray. rewrite Hsame.
    destruct (negb (Js.truthy className)) eqn:Ht; injection H as H; subst classes;
      [|reflexivity].
    apply negb_true_iff in Ht. unfold Js.truthy in Ht. apply negb_false_iff in Ht.
    apply String.eqb_eq in Ht. subst className. reflexivity.
Qed.

Lemma filtered_classes_survive_joining_witness :
  Utils.getFilteredClasses (Dom.ClassString " btn  css-1a2b3c primary ")
  = Ret ["btn"; "primary"]
  /\ Utils.getFilteredClasses (Dom.ClassString (Js.join " " ["btn"; "primary"]))
     = Ret ["btn"; "primary"].
Proof.
  assert (H : Utils.getFilteredClasses (Dom.ClassString " btn  css-1a2b3c primary ")
              = Ret ["btn"; "primary"]) by (vm_compute; reflexivity).
  split; [exact H|].
  exact (proj1 (filtered_classes_survive_joining
                  " btn  css-1a2b3c primary " ["btn"; "primary"] H)).
Defined.

End ClassListFacts.

Module TreeFacts.

Import ElementAnalyzer.

Lemma childrenFrom_frames (parent : Dom.ElementData) (frames : list Dom.Frame)
    (before nodes : list Dom.Node) (child : Dom.Element) :
  In child (Dom.childrenFrom parent frames before nodes) ->
  exists b a,
    Dom.above child = {| Dom.parentData := parent; Dom.before := before ++ b; Dom.after := a |}
                      :: frames
    /\ nodes = b ++ Dom.toNode child :: a.
Proof.
  revert before. induction nodes as [|node rest IH]; intros before H; [destruct H|].
  assert (Hrest : In child (Dom.childrenFrom parent frames (before ++ [node]) rest) ->
                  exists b a,
                    Dom.above child
                    = {| Dom.parentData := parent; Dom.before := before ++ b; Dom.after := a |}
                      :: frames
                    /\ node :: rest = b ++ Dom.toNode child :: a).
  { intros Hin. destruct (IH _ Hin) as [b [a [Ha Hn]]].
    exists (node :: b), a. rewrite <- app_assoc in Ha. split; [exact Ha|].
    simpl. rewrite Hn. reflexivity. }
  destruct node as [t|t|e kids]; simpl in H; try (apply Hrest; exact H).
  destruct H as [H|H]; [|apply Hrest; exact H].
  subst child. exists [], rest. simpl. rewrite app_nil_r. split; reflexivity.
Qed.

(** A child of an element has the element for parent. *)
Lemma children_parent (el child : Dom.Element) :
  In child (Dom.children el) -> Dom.parentElement child = Some el.
Proof.
  intros H. unfold Dom.children in H.
  destruct (childrenFrom_frames _ _ _ _ _ H) as [b [a [Ha Hn]]].
  unfold Dom.parentElement. rewrite Ha. simpl. rewrite <- Hn.
  destruct el; reflexivity.
Qed.

Lemma parent_chain (el child : Dom.Element) :
  Dom.parentElement child = Some el -> Dom.chain child = child :: Dom.chain el.
Proof.
  unfold Dom.parentElement, Dom.chain.
  destruct (Dom.above child) as [|f fs]; [discriminate|].
  intros H. injection H as H. subst el. reflexivity.
Qed.

Lemma depthLoop_shift (documentBody : option Dom.NodeId) (currents : list Dom.Element)
    (depth : Z) :
  depthLoop documentBody currents (depth + 1) = depthLoop documentBody currents depth + 1.
Proof.
  revert depth. induction currents as [|c rest IH]; intros depth; simpl; [reflexivity|].
  destruct (isBody documentBody c); [reflexivity | apply IH].
Qed.

(** X25.  What the walks to the root make of a child of an element: the child
    is in a form, a table or a list when it is one itself or when the
    element is in one; and unless it is the body it is one level deeper
    than the element. *)
Theorem walks_extend_to_children (documentBody : option Dom.NodeId)
    (el child : Dom.Element) :
  In child (Dom.children el) ->
  Dom.parentElement child = Some el
  /\ isInForm child
     = (String.eqb (Js.toLowerCase (Dom.tagName (Dom.self child))) "form" || isInForm el)
  /\ isInTable child
     = (String.eqb (Js.toLowerCase (Dom.tagName (Dom.self child))) "table" || isInTable el)
  /\ isInList child
     = (Utils.includesString (Js.toLowerCase (Dom.tagName (Dom.self child)))
                             ["ul"; "ol"; "dl"]
        || isInList el)
  /\ (isBody documentBody child = false ->
      getElementDepth documentBody child = getElementDepth documentBody el + 1).
Proof.
  intros H. pose proof (children_parent el child H) as Hparent.
  pose proof (parent_chain el child Hparent) as Hchain.
  split; [exact Hparent|].
  unfold isInForm, isInTable, isInList, getElementDepth. rewrite Hchain.
  split; [reflexivity|]. split; [reflexivity|]. split; [reflexivity|].
  intros Hbody. simpl. rewrite Hbody. apply (depthLoop_shift documentBody (Dom.chain el) 0).
Qed.

Lemma walks_extend_to_children_witness :
  let form :=
    {| Dom.self := Fixtures.htmlElement "FORM" [];
       Dom.childNodes := [Dom.ElementNode Fixtures.searchInput [];
                          Dom.ElementNode Fixtures.searchInput []];
       Dom.above := [Fixtures.bodyFrame [] []; Fixtures.htmlFrame] |} in
  In Fixtures.firstInput (Dom.children form)
  /\ Dom.parentElement Fixtures.firstInput = Some form
  /\ isInForm Fixtures.firstInput = true.
Proof.
  intros form.
  assert (H : In Fixtures.firstInput (Dom.children form)) by (left; reflexivity).
  split; [exact H|].
  destruct (walks_extend_to_children Fixtures.documentBody form Fixtures.firstInput H)
    as [H1 [H2 _]].
  split; [exact H1|]. rewrite H2. reflexivity.
Defined.

End TreeFacts.

(** ** The anchor strategy *)

Module AnchorFacts.

Import BaseStrategy AnchorStrategy SortSpec.

Section Host.

Variable Context : Type.
Variable evaluate : string -> comp (list Dom.NodeId).
Variable documentBody : option Dom.NodeId.

Abbreviation uniquenessOf := (evaluateElementUniqueness evaluate).
Abbreviation anchorsOf := (findAnchorElements evaluate documentBody).

Lemma uniqueness_range (el : Dom.Element) :
  0 <= uniquenessScore (uniquenessOf el) <= 145
  /\ (0 < uniquenessScore (uniquenessOf el) -> 25 <= uniquenessScore (uniquenessOf el))
  /\ (uniquenessScore (uniquenessOf el) = 0 <-> reasons (uniquenessOf el) = []).
Proof.
  unfold evaluateElementUniqueness. cbv zeta. cbn [uniquenessScore reasons].
  destruct (match Utils.getValidId (Dom.id (Dom.self el)) with
            | Some validId =>
                if isUniqueXPath evaluate ("//*[@id=" +:+ Utils.escapeXPath validId +:+ "]")
                then Some "unique-id" else None
            | None => None
            end) as [r1|];
  destruct (if Js.truthy (Utils.getVisibleText (Some el))
               && (0 <? String.length (Utils.getVisibleText (Some el)))%nat
               && (String.length (Utils.getVisibleText (Some el)) <=? 30)%nat
            then if isUniqueXPath evaluate
                      ("//*[text()=" +:+ Utils.escapeXPath (Utils.getVisibleText (Some el))
                       +:+ "]")
                 then Some "unique-text" else None
            else None) as [r2|];
  destruct (List.find _ (Dom.attributes (Dom.self el))) as [r3|];
  destruct (List.find _ (classNamesOf (Dom.self el))) as [r4|];
  simpl; (split; [lia|]); (split; [lia|]);
  split; intros H; first [lia | discriminate | reflexivity].
Qed.

Lemma siblingLoop_In (target : Dom.Element) (elementIndex i : Z)
    (siblings : list Dom.Element) (a : Anchor) :
  In a (siblingLoop evaluate target elementIndex i siblings) ->
  In (element a) siblings
  /\ Dom.sameNode (Dom.nodeId (element a)) (Dom.nodeId target) = false
  /\ score a = uniquenessScore (uniquenessOf (element a))
  /\ 0 < score a
  /\ type a = SiblingAnchor
  /\ (relationship a = PrecedingSibling \/ relationship a = FollowingSibling).
Proof.
  revert i. induction siblings as [|s rest IH]; intros i H; cbn [siblingLoop] in H;
    [destruct H|].
  destruct (Dom.sameNode (Dom.nodeId s) (Dom.nodeId target)) eqn:Hsame.
  - destruct (IH _ H) as [H1 H2]. split; [right; exact H1 | exact H2].
  - destruct (0 <? uniquenessScore (uniquenessOf s)) eqn:Hpos.
    + destruct H as [H|H].
      * subst a. simpl. apply Z.ltb_lt in Hpos.
        repeat split; try assumption; try reflexivity; [left; reflexivity|].
        destruct (i <? elementIndex); [left | right]; reflexivity.
      * destruct (IH _ H) as [H1 H2]. split; [right; exact H1 | exact H2].
    + destruct (IH _ H) as [H1 H2]. split; [right; exact H1 | exact H2].
Qed.

Lemma parentLoop_In (levels : nat) (level : Z) (currents : list Dom.Element) (a : Anchor) :
  In a (parentLoop evaluate documentBody levels level currents) ->
  In (element a) currents
  /\ ElementAnalyzer.isBody documentBody (element a) = false
  /\ level <= distance a < level + Z.of_nat levels
  /\ score a = uniquenessScore (uniquenessOf (element a)) - distance a * 5
  /\ 0 < uniquenessScore (uniquenessOf (element a))
  /\ type a = ParentAnchor
  /\ relationship a = Ancestor.
Proof.
  revert level currents. induction levels as [|levels IH]; intros level currents H;
    [destruct currents; destruct H|].
  destruct currents as [|c rest]; [destruct H|]. cbn [parentLoop] in H.
  destruct (ElementAnalyzer.isBody documentBody c) eqn:Hbody; [destruct H|].
  assert (Hrest : In a (parentLoop evaluate documentBody levels (level + 1) rest) ->
                  In (element a) (c :: rest)
                  /\ ElementAnalyzer.isBody documentBody (element a) = false
                  /\ level <= distance a < level + Z.of_nat (S levels)
                  /\ score a = uniquenessScore (uniquenessOf (element a)) - distance a * 5
                  /\ 0 < uniquenessScore (uniquenessOf (element a))
                  /\ type a = ParentAnchor
                  /\ relationship a = Ancestor).
  { intros Hin. destruct (IH _ _ Hin) as [H1 [H2 [H3 H4]]].
    split; [right; exact H1|]. split; [exact H2|]. split; [lia | exact H4]. }
  destruct (0 <? uniquenessScore (uniquenessOf c)) eqn:Hpos; [|apply Hrest; exact H].
  destruct H as [H|H]; [|apply Hrest; exact H].
  subst a. simpl. apply Z.ltb_lt in Hpos.
  repeat split; try assumption; try reflexivity; try lia. left. reflexivity.
Qed.

Lemma parentLoop_length (levels : nat) (level : Z) (currents : list Dom.Element) :
  (List.length (parentLoop evaluate documentBody levels level currents) <= levels)%nat.
Proof.
  revert level currents. induction levels as [|levels IH]; intros level currents;
    [destruct currents; simpl; lia|].
  destruct currents as [|c rest]; cbn [parentLoop]; [simpl; lia|].
  destruct (ElementAnalyzer.isBody documentBody c); [simpl; lia|].
  specialize (IH (level + 1) rest).
  destruct (0 <? uniquenessScore (uniquenessOf c)); cbn [List.length]; lia.
Qed.

(** X26.  The anchors of an element.  Each is a sibling other than the
    element, one of the three nearest ancestors below the body, or a
    child, and has a unique mark: an id, a text, an attribute or a class
    that selects one node.  A sibling scores its uniqueness, an ancestor 5
    less for each level, a child 10 less, so every anchor scores between
    10 and 145; the anchors come by descending score. *)
Theorem anchors_are_unique_neighbours (target : Dom.Element) :
  (forall a, In a (anchorsOf target) ->
     25 <= uniquenessScore (uniquenessOf (element a)) <= 145
     /\ reasons (uniquenessOf (element a)) <> []
     /\ 10 <= score a <= 145
     /\ match type a with
        | SiblingAnchor =>
            Dom.sameNode (Dom.nodeId (element a)) (Dom.nodeId target) = false
            /\ (exists parent, Dom.parentElement target = Some parent
                               /\ In (element a) (Dom.children parent))
            /\ score a = uniquenessScore (uniquenessOf (element a))
            /\ (relationship a = PrecedingSibling \/ relationship a = FollowingSibling)
        | ParentAnchor =>
            In (element a) (List.firstn 3 (List.tl (Dom.chain target)))
            /\ ElementAnalyzer.isBody documentBody (element a) = false
            /\ 1 <= distance a <= 3
            /\ score a = uniquenessScore (uniquenessOf (element a)) - 5 * distance a
            /\ relationship a = Ancestor
        | ChildAnchor =>
            In (element a) (Dom.children target)
            /\ distance a = 1
            /\ score a = uniquenessScore (uniquenessOf (element a)) - 10
            /\ relationship a = Descendant
        end)
  /\ StronglySorted (keyGe score) (anchorsOf target)
  /\ (List.length (findParentAnchors evaluate documentBody target) <= 3)%nat.
Proof.
  split; [|split].
  - intros a Ha. unfold findAnchorElements in Ha.
    apply (Permutation_in _ (SortFacts.sort_permutation Anchor score _)) in Ha.
    pose proof (uniqueness_range (element a)) as [Hr1 [Hr2 Hr3]].
    apply in_app_or in Ha. destruct Ha as [Ha|Ha]; [|apply in_app_or in Ha; destruct Ha as [Ha|Ha]].
    + unfold findSiblingAnchors in Ha.
      destruct (Dom.parentElement target) as [parent|] eqn:Hp; [|destruct Ha].
      apply siblingLoop_In in Ha. destruct Ha as [H1 [H2 [H3 [H4 [H5 H6]]]]].
      rewrite H5. rewrite H3 in H4.
      split; [lia|]. split; [intros E; apply Hr3 in E; lia|]. split; [lia|].
      split; [exact H2|]. split; [exists parent; split; [reflexivity | exact H1]|].
      split; assumption.
    + unfold findParentAnchors in Ha.
      pose proof Ha as Ha'. apply parentLoop_In in Ha.
      destruct Ha as [H1 [H2 [H3 [H4 [H5 [H6 H7]]]]]].
      rewrite H6.
      split; [lia|]. split; [intros E; apply Hr3 in E; lia|]. split; [lia|].
      split.
      { clear - Ha'. revert Ha'. generalize (List.tl (Dom.chain target)). generalize 1.
        generalize 3%nat. intros levels. induction levels as [|levels IH];
          intros level currents H; [destruct currents; destruct H|].
        destruct currents as [|c rest]; [destruct H|]. cbn [parentLoop] in H.
        destruct (ElementAnalyzer.isBody documentBody c); [destruct H|].
        destruct (0 <? uniquenessScore (uniquenessOf c)).
        - destruct H as [H|H]; [subst a; left; reflexivity | right; apply (IH _ _ H)].
        - right. apply (IH _ _ H). }
      split; [exact H2|]. split; [lia|]. split; [lia | exact H7].
    + unfold findChildAnchors in Ha. apply in_flat_map in Ha.
      destruct Ha as [child [Hc Ha]].
      destruct (0 <? uniquenessScore (uniquenessOf child)) eqn:Hpos; [|destruct Ha].
      destruct Ha as [Ha|[]]. subst a. simpl in *. apply Z.ltb_lt in Hpos.
      split; [lia|]. split; [intros E; apply Hr3 in E; lia|]. split; [lia|].
      repeat split; try assumption; reflexivity.
  - unfold findAnchorElements. apply (SortFacts.sort_sorted Anchor score).
  - apply parentLoop_length.
Qed.

Lemma anchor_generate_validated (target : Dom.Element) (context : Context) (x : string) :
  generate Context evaluate documentBody target context = Some x ->
  validateXPath evaluate x target = true.
Proof.
  unfold generate. cbv zeta. intros H.
  apply ValidationFacts.firstValid_validated in H. apply H.
Qed.

(** X27.  The anchor strategy answers only expressions that passed
    [validateXPath] for the element, each built on the expression of one
    of its anchors for the relationship of that anchor; without an anchor
    it is not applicable and answers nothing. *)
Theorem anchor_answers_are_validated (target : Dom.Element) (context : Context) :
  let tagName := Js.toLowerCase (Dom.tagName (Dom.self target)) in
  (forall x, generate Context evaluate documentBody target context = Some x ->
     validateXPath evaluate x target = true
     /\ exists anchor anchorXPath,
          In anchor (anchorsOf target)
          /\ getAnchorXPath evaluate (element anchor) = Some anchorXPath
          /\ In x (generateAnchorBasedPaths anchorXPath (relationship anchor) tagName target))
  /\ (anchorsOf target = [] ->
      isApplicable Context evaluate documentBody target context = false
      /\ generate Context evaluate documentBody target context = None)
  /\ (forall anchorXPath relationship,
        List.length (generateAnchorBasedPaths anchorXPath relationship tagName target)
        = if Js.truthy (Utils.getVisibleText (Some target)) then 4%nat else 2%nat).
Proof.
  cbv zeta. split; [|split].
  - intros x H. split; [apply (anchor_generate_validated target context x H)|].
    unfold generate in H. cbv zeta in H.
    apply ValidationFacts.firstValid_validated in H. destruct H as [Hin _].
    apply in_flat_map in Hin. destruct Hin as [anchor [Ha Hx]].
    destruct (getAnchorXPath evaluate (element anchor)) as [anchorXPath|] eqn:Hp;
      [|destruct Hx].
    destruct (Js.truthy anchorXPath); [|destruct Hx].
    exists anchor, anchorXPath. repeat split; assumption.
  - intros H. unfold isApplicable, generate. rewrite H. split; reflexivity.
  - intros anchorXPath relationship. unfold generateAnchorBasedPaths. cbv zeta.
    destruct (Js.truthy (Utils.getVisibleText (Some target))), relationship; reflexivity.
Qed.

End Host.

End AnchorFacts.

(** ** The description of an SVG image *)

Module SvgAnalysisFacts.

Import ElementAnalyzer.

Lemma closest_child (tag : string) (el child : Dom.Element) :
  Dom.parentElement child = Some el ->
  String.eqb (Js.toLowerCase (Dom.tagName (Dom.self child))) tag = false ->
  Dom.closest tag child = Dom.closest tag el.
Proof.
  intros Hparent Htag. unfold Dom.closest.
  rewrite (TreeFacts.parent_chain el child Hparent). simpl. rewrite Htag. reflexivity.
Qed.

Lemma closest_self (tag : string) (el : Dom.Element) :
  String.eqb (Js.toLowerCase (Dom.tagName (Dom.self el))) tag = true ->
  Dom.closest tag el = Some el.
Proof.
  intros Htag. unfold Dom.closest, Dom.chain. simpl. rewrite Htag. reflexivity.
Qed.

(** A text that is not empty was read in an element that is there. *)
Lemma text_needs_element (tag : string) (targetSvg : Dom.Element) :
  Js.truthy (textOfFirst tag targetSvg) = true ->
  match Dom.querySelector tag targetSvg with Some _ => true | None => false end = true.
Proof.
  unfold textOfFirst. destruct (Dom.querySelector tag targetSvg); [reflexivity|].
  intros H. vm_compute in H. discriminate H.
Qed.

(** The image an element belongs to: itself when it is an [svg], or else
    its nearest [svg] ancestor. *)
Lemma analyzed_image (element : Dom.Element) (info : SvgInfo) :
  analyzeSVGElement element = Some info ->
  Dom.closest "svg" element = Some (svgElement info).
Proof.
  unfold analyzeSVGElement.
  destruct (String.eqb (Js.toLowerCase (Dom.tagName (Dom.self element))) "svg") eqn:Htag.
  - intros H. injection H as H. subst info. simpl. apply closest_self. exact Htag.
  - destruct (Dom.closest "svg" element) as [root|]; [|discriminate].
    intros H. injection H as H. subst info. reflexivity.
Qed.

(** X28.  The description [analyzeSVGElement] gives of an element is
    that of its image: the element itself when it is an [svg], or else its
    nearest [svg] ancestor; there is a description exactly when [isSVG]
    holds.  An element inside an image that is not an [svg] itself gets
    the description of its parent, marked as not the root, so the SVG
    strategy gives it the expression and the score it gives the parent:
    the expression is for the image. *)
Theorem image_description_is_shared (el child : Dom.Element) :
  In child (Dom.children el) ->
  String.eqb (Js.toLowerCase (Dom.tagName (Dom.self child))) "svg" = false ->
  (forall element, analyzeSVGElement element = None <-> isSVG element = false)
  /\ (forall element info,
        analyzeSVGElement element = Some info ->
        Dom.closest "svg" element = Some (svgElement info)
        /\ String.eqb (Js.toLowerCase (Dom.tagName (Dom.self (svgElement info)))) "svg" = true
        /\ (isRoot info = true <-> svgElement info = element)
        /\ hasAriaLabel info = Js.truthy (ariaLabelText info)
        /\ (Js.truthy (titleText info) = true -> hasTitle info = true)
        /\ (Js.truthy (descText info) = true -> hasDesc info = true))
  /\ isSVG child = isSVG el
  /\ (analyzeSVGElement el = None -> analyzeSVGElement child = None)
  /\ (forall info,
        analyzeSVGElement el = Some info ->
        exists info',
          analyzeSVGElement child = Some info'
          /\ isRoot info' = false
          /\ svgElement info' = svgElement info
          /\ forall (evaluate : string -> comp (list Dom.NodeId)),
               SVGStrategy.generate (option SvgInfo) evaluate (fun context => context)
                 child (Some info')
               = SVGStrategy.generate (option SvgInfo) evaluate (fun context => context)
                   el (Some info)
               /\ SVGStrategy.getScore (option SvgInfo) (fun context => context)
                    child (Some info')
                  = SVGStrategy.getScore (option SvgInfo) (fun context => context)
                      el (Some info)).
Proof.
  intros Hchild Htag.
  pose proof (TreeFacts.children_parent el child Hchild) as Hparent.
  pose proof (closest_child "svg" el child Hparent Htag) as Hclosest.
  split; [|split; [|split; [|split]]].
  - intros element. unfold analyzeSVGElement, isSVG.
    destruct (String.eqb (Js.toLowerCase (Dom.tagName (Dom.self element))) "svg"); simpl.
    + split; discriminate.
    + destruct (Dom.closest "svg" element); split; first [discriminate | reflexivity].
  - intros element info H.
    pose proof (analyzed_image element info H) as Himage.
    split; [exact Himage|].
    assert (Hsvg : String.eqb (Js.toLowerCase (Dom.tagName (Dom.self (svgElement info))))
                     "svg" = true).
    { unfold Dom.closest in Himage. apply List.find_some in Himage. apply Himage. }
    split; [exact Hsvg|].
    unfold analyzeSVGElement in H.
    destruct (String.eqb (Js.toLowerCase (Dom.tagName (Dom.self element))) "svg") eqn:Helement.
    + injection H as H. subst info. simpl.
      split; [split; reflexivity|].
      split; [destruct (Dom.getAttributeOf (Dom.self element) "aria-label"); reflexivity|].
      split; apply text_needs_element.
    + destruct (Dom.closest "svg" element) as [root|]; [|discriminate].
      injection H as H. subst info. simpl.
      split.
      { split; [discriminate|]. intros Hroot. subst root. simpl in Hsvg.
        rewrite Helement in Hsvg. discriminate. }
      split; [destruct (Dom.getAttributeOf (Dom.self root) "aria-label"); reflexivity|].
      split; apply text_needs_element.
  - unfold isSVG. rewrite Htag, Hclosest. simpl.
    destruct (String.eqb (Js.toLowerCase (Dom.tagName (Dom.self el))) "svg") eqn:Hel;
      [|reflexivity].
    rewrite (closest_self "svg" el Hel). reflexivity.
  - unfold analyzeSVGElement. rewrite Htag, Hclosest.
    destruct (String.eqb (Js.toLowerCase (Dom.tagName (Dom.self el))) "svg");
      [discriminate|].
    destruct (Dom.closest "svg" el); [discriminate | reflexivity].
  - intros info H.
    pose proof (analyzed_image el info H) as Himage.
    unfold analyzeSVGElement. rewrite Htag, Hclosest, Himage.
    eexists. split; [reflexivity|]. simpl.
    split; [reflexivity|]. split; [reflexivity|].
    assert (Hsame : analyzeSVGElement (svgElement info)
                    = Some {| isRoot := true;
                              svgElement := svgElement info;
                              viewBox := viewBox info;
                              width := width info;
                              height := height info;
                              hasTitle := hasTitle info;
                              hasDesc := hasDesc info;
                              titleText := titleText info;
                              descText := descText info;
                              pathCount := pathCount info;
                              useElements := useElements info;
                              hasAriaLabel := hasAriaLabel info;
                              ariaLabelText := ariaLabelText info |}).
    { unfold analyzeSVGElement in H |- *.
      assert (Hsvg : String.eqb (Js.toLowerCase (Dom.tagName (Dom.self (svgElement info))))
                       "svg" = true).
      { unfold Dom.closest in Himage. apply List.find_some in Himage. apply Himage. }
      rewrite Hsvg.
      destruct (String.eqb (Js.toLowerCase (Dom.tagName (Dom.self el))) "svg").
      - injection H as H. subst info. reflexivity.
      - destruct (Dom.closest "svg" el) as [root|]; [|discriminate].
        injection H as H. subst info. reflexivity. }
    unfold analyzeSVGElement in Hsame.
    assert (Hsvg : String.eqb (Js.toLowerCase (Dom.tagName (Dom.self (svgElement info))))
                     "svg" = true).
    { unfold Dom.closest in Himage. apply List.find_some in Himage. apply Himage. }
    rewrite Hsvg in Hsame. injection Hsame as Hbox Hw Hh Ht Hd Htt Hdt Hp Hu Ha Hat.
    intros evaluate.
    unfold SVGStrategy.generate, SVGStrategy.getScore, SVGStrategy.candidatePaths. simpl.
    rewrite Hbox, Ht, Hd, Htt, Hdt, Hp, Hu, Ha, Hat.
    split; reflexivity.
Qed.

Lemma image_description_is_shared_witness :
  let path :=
    {| Dom.tagName := "path";
       Dom.attributes := [("d", "M6 6l12 12")];
       Dom.computedStyle := Fixtures.visible;
       Dom.offsetWidth := 0;
       Dom.offsetHeight := 0;
       Dom.isSVGElement := true;
       Dom.typeProp := EmptyString;
       Dom.nameProp := EmptyString;
       Dom.hrefProp := EmptyString |} in
  let svg :=
    {| Dom.tagName := "svg";
       Dom.attributes := [("viewBox", "0 0 24 24"); ("aria-label", "Close")];
       Dom.computedStyle := Fixtures.visible;
       Dom.offsetWidth := 24;
       Dom.offsetHeight := 24;
       Dom.isSVGElement := true;
       Dom.typeProp := EmptyString;
       Dom.nameProp := EmptyString;
       Dom.hrefProp := EmptyString |} in
  let icon :=
    {| Dom.self := svg;
       Dom.childNodes := [Dom.ElementNode path []];
       Dom.above := [Fixtures.bodyFrame [] []; Fixtures.htmlFrame] |} in
  let stroke :=
    {| Dom.self := path;
       Dom.childNodes := [];
       Dom.above := {| Dom.parentData := svg; Dom.before := []; Dom.after := [] |}
                    :: Dom.above icon |} in
  In stroke (Dom.children icon)
  /\ isSVG stroke = true
  /\ exists info,
       analyzeSVGElement stroke = Some info
       /\ isRoot info = false
       /\ svgElement info = icon
       /\ ariaLabelText info = "Close".
Proof.
  intros path svg icon stroke.
  assert (Hchild : In stroke (Dom.children icon)) by (left; reflexivity).
  assert (Htag : String.eqb (Js.toLowerCase (Dom.tagName (Dom.self stroke))) "svg" = false)
    by reflexivity.
  destruct (image_description_is_shared icon stroke Hchild Htag)
    as [_ [_ [Hsvg [_ Hshared]]]].
  split; [exact Hchild|].
  split; [rewrite Hsvg; reflexivity|].
  destruct (Hshared _ eq_refl) as [info [Hinfo [Hroot [Himage _]]]].
  exists info. split; [exact Hinfo|]. split; [exact Hroot|]. split; [exact Himage|].
  vm_compute in Hinfo. injection Hinfo as Hinfo. subst info. reflexivity.
Defined.

End SvgAnalysisFacts.
